(** * The staged camera calibrator of OpenImuCameraCalibrator

    A shallow embedding of [OpenICC::core::CameraCalibrator]
    (camera_calibrator.cc) and of [OpenICC::io::read_camera_calibration]
    (read_camera_calibration.cc), with the properties of the staged
    optimizer, the view ingestion loop, the pruning sweep, the result
    reporter and the calibration reader.

    Conventions of the model.
    - A C++ [double] is the rational it denotes ([Q]); infinities and NaN
      are outside the model.  Comparisons of doubles are exact.  Where a
      property depends on how an operation rounds (the norm in the test for
      a close-by pose, the products that make a view name) the operation is
      a member of the class [Externals]; elsewhere the arithmetic is
      written exactly.
    - A null-pointer dereference, an out-of-range [operator[]] on a vector,
      the cast of a double outside the range of the target type, a thrown
      exception, a failed [CHECK] and a [LOG(FATAL)] are all "the call does
      not return": the functions that can reach one return an [option].
    - theia, Eigen, ceres and the RANSAC estimators are external.  Their data
      structures are modelled as far as the calibrator reads and writes them;
      the solvers and estimators are members of the class [Externals]. *)

From Stdlib Require Import ZArith QArith Qabs Lia.
From stdpp Require Import base option list gmap strings.

(** ** Numbers *)

Abbreviation double := Q (only parsing).

(** [a < b] and [a > b] on doubles. *)
Definition dlt (a b : double) : bool := negb (Qle_bool b a).
Definition dgt (a b : double) : bool := dlt b a.

(** ** Eigen vectors *)

Module Eigen.

Record Vector2d := V2 { v2_x : double; v2_y : double }.
Record Vector3d := V3 { v3_x : double; v3_y : double; v3_z : double }.
Record Vector4d := V4 { v4_x : double; v4_y : double; v4_z : double; v4_w : double }.
Record Matrix3d := M3 { m3_row0 : Vector3d; m3_row1 : Vector3d; m3_row2 : Vector3d }.

Definition sub3 (a b : Vector3d) : Vector3d :=
    V3 (v3_x a - v3_x b)%Q (v3_y a - v3_y b)%Q (v3_z a - v3_z b)%Q.

Definition hnormalized (p : Vector4d) : Vector3d :=
    V3 (v4_x p / v4_w p)%Q (v4_y p / v4_w p)%Q (v4_z p / v4_w p)%Q.

End Eigen.
Import Eigen.

(** ** theia: camera models, cameras, views, the reconstruction *)

Module theia.

Abbreviation ViewId := nat (only parsing).
Abbreviation TrackId := nat (only parsing).

(** The camera kinds the calibrator handles. *)
Inductive CameraIntrinsicsModelType :=
  | PINHOLE
  | PINHOLE_RADIAL_TANGENTIAL
  | FISHEYE
  | DIVISION_UNDISTORTION
  | DOUBLE_SPHERE
  | EXTENDED_UNIFIED.

#[global] Instance CameraIntrinsicsModelType_eq_dec : EqDecision CameraIntrinsicsModelType.
Proof. solve_decision. Defined.

(** [theia::StringToCameraIntrinsicsModelType]: a name outside the list is
      fatal ([None]). *)
Definition StringToCameraIntrinsicsModelType (s : string)
    : option CameraIntrinsicsModelType :=
    if String.eqb s "PINHOLE" then Some PINHOLE
    else if String.eqb s "PINHOLE_RADIAL_TANGENTIAL" then Some PINHOLE_RADIAL_TANGENTIAL
    else if String.eqb s "FISHEYE" then Some FISHEYE
    else if String.eqb s "DIVISION_UNDISTORTION" then Some DIVISION_UNDISTORTION
    else if String.eqb s "DOUBLE_SPHERE" then Some DOUBLE_SPHERE
    else if String.eqb s "EXTENDED_UNIFIED" then Some EXTENDED_UNIFIED
    else None.

(** The [InternalParametersIndex] enumerations of the camera model headers. *)
Module PinholeCameraModel.
Definition FOCAL_LENGTH : nat := 0.
Definition ASPECT_RATIO : nat := 1.
Definition SKEW : nat := 2.
Definition PRINCIPAL_POINT_X : nat := 3.
Definition PRINCIPAL_POINT_Y : nat := 4.
Definition RADIAL_DISTORTION_1 : nat := 5.
Definition RADIAL_DISTORTION_2 : nat := 6.
End PinholeCameraModel.

Module PinholeRadialTangentialCameraModel.
Definition FOCAL_LENGTH : nat := 0.
Definition ASPECT_RATIO : nat := 1.
Definition SKEW : nat := 2.
Definition PRINCIPAL_POINT_X : nat := 3.
Definition PRINCIPAL_POINT_Y : nat := 4.
Definition RADIAL_DISTORTION_1 : nat := 5.
Definition RADIAL_DISTORTION_2 : nat := 6.
Definition RADIAL_DISTORTION_3 : nat := 7.
Definition TANGENTIAL_DISTORTION_1 : nat := 8.
Definition TANGENTIAL_DISTORTION_2 : nat := 9.
End PinholeRadialTangentialCameraModel.

Module FisheyeCameraModel.
Definition FOCAL_LENGTH : nat := 0.
Definition ASPECT_RATIO : nat := 1.
Definition SKEW : nat := 2.
Definition PRINCIPAL_POINT_X : nat := 3.
Definition PRINCIPAL_POINT_Y : nat := 4.
Definition RADIAL_DISTORTION_1 : nat := 5.
Definition RADIAL_DISTORTION_2 : nat := 6.
Definition RADIAL_DISTORTION_3 : nat := 7.
Definition RADIAL_DISTORTION_4 : nat := 8.
End FisheyeCameraModel.

Module DivisionUndistortionCameraModel.
Definition FOCAL_LENGTH : nat := 0.
Definition ASPECT_RATIO : nat := 1.
Definition PRINCIPAL_POINT_X : nat := 2.
Definition PRINCIPAL_POINT_Y : nat := 3.
Definition RADIAL_DISTORTION_1 : nat := 4.
End DivisionUndistortionCameraModel.

Module DoubleSphereCameraModel.
Definition FOCAL_LENGTH : nat := 0.
Definition ASPECT_RATIO : nat := 1.
Definition SKEW : nat := 2.
Definition PRINCIPAL_POINT_X : nat := 3.
Definition PRINCIPAL_POINT_Y : nat := 4.
Definition XI : nat := 5.
Definition ALPHA : nat := 6.
End DoubleSphereCameraModel.

Module ExtendedUnifiedCameraModel.
Definition FOCAL_LENGTH : nat := 0.
Definition ASPECT_RATIO : nat := 1.
Definition SKEW : nat := 2.
Definition PRINCIPAL_POINT_X : nat := 3.
Definition PRINCIPAL_POINT_Y : nat := 4.
Definition ALPHA : nat := 5.
Definition BETA : nat := 6.
End ExtendedUnifiedCameraModel.

(** Where a model keeps the parameters every model has. *)
Definition FocalLengthIndex (t : CameraIntrinsicsModelType) : nat := 0.

Definition PrincipalPointXIndex (t : CameraIntrinsicsModelType) : nat :=
    match t with
    | DIVISION_UNDISTORTION => DivisionUndistortionCameraModel.PRINCIPAL_POINT_X
    | _ => PinholeCameraModel.PRINCIPAL_POINT_X
    end.

Definition PrincipalPointYIndex (t : CameraIntrinsicsModelType) : nat :=
    match t with
    | DIVISION_UNDISTORTION => DivisionUndistortionCameraModel.PRINCIPAL_POINT_Y
    | _ => PinholeCameraModel.PRINCIPAL_POINT_Y
    end.

(** [OptimizeIntrinsicsType]: a bit set, combined with [|]. *)
Module OptimizeIntrinsicsType.
Definition NONE : Z := 0.
Definition FOCAL_LENGTH : Z := 1.
Definition ASPECT_RATIO : Z := 2.
Definition SKEW : Z := 4.
Definition PRINCIPAL_POINTS : Z := 8.
Definition RADIAL_DISTORTION : Z := 16.
Definition TANGENTIAL_DISTORTION : Z := 32.
End OptimizeIntrinsicsType.

Inductive LossFunctionType := TRIVIAL | HUBER | SOFTLONE | CAUCHY | ARCTAN | TUKEY.

Record BundleAdjustmentOptions := mkBAOptions {
    verbose : bool;
    loss_function_type : LossFunctionType;
    robust_loss_width : double;
    num_threads : nat;
    constant_camera_orientation : bool;
    constant_camera_position : bool;
    intrinsics_to_optimize : Z;
    use_homogeneous_point_parametrization : bool
  }.

Record RansacParameters := mkRansac {
    failure_probability : double;
    use_mle : bool;
    max_iterations : Z;
    min_iterations : Z;
    error_thresh : double
  }.

Record FeatureCorrespondence2D3D := mkCorr {
    feature : Vector2d;
    world_point : Vector3d
  }.

(** A camera: image size, pose, model kind and the kind's parameter
      vector. *)
Record Camera := mkCamera {
    cam_image_width : Z;
    cam_image_height : Z;
    cam_position : Vector3d;
    cam_orientation : Matrix3d;
    cam_model_type : CameraIntrinsicsModelType;
    cam_intrinsics : list double
  }.

(** [cam.intrinsics()[i]] *)
Definition intrinsics_at (cam : Camera) (i : nat) : double :=
    default 0%Q (cam_intrinsics cam !! i).

Definition set_intrinsics (f : list double → list double) (cam : Camera) : Camera :=
    mkCamera (cam_image_width cam) (cam_image_height cam) (cam_position cam)
             (cam_orientation cam) (cam_model_type cam) (f (cam_intrinsics cam)).

(** [CameraIntrinsics()->SetParameter(i, v)] and [mutable_intrinsics()[i] = v] *)
Definition SetParameter (i : nat) (v : double) (cam : Camera) : Camera :=
    set_intrinsics (<[i := v]>) cam.

Definition FocalLength (cam : Camera) : double :=
    intrinsics_at cam (FocalLengthIndex (cam_model_type cam)).
Definition PrincipalPointX (cam : Camera) : double :=
    intrinsics_at cam (PrincipalPointXIndex (cam_model_type cam)).
Definition PrincipalPointY (cam : Camera) : double :=
    intrinsics_at cam (PrincipalPointYIndex (cam_model_type cam)).

Definition SetFocalLength (f : double) (cam : Camera) : Camera :=
    SetParameter (FocalLengthIndex (cam_model_type cam)) f cam.

Definition SetPrincipalPoint (x y : double) (cam : Camera) : Camera :=
    SetParameter (PrincipalPointYIndex (cam_model_type cam)) y
      (SetParameter (PrincipalPointXIndex (cam_model_type cam)) x cam).

Definition SetImageSize (w h : Z) (cam : Camera) : Camera :=
    mkCamera w h (cam_position cam) (cam_orientation cam)
             (cam_model_type cam) (cam_intrinsics cam).

Definition SetPosition (p : Vector3d) (cam : Camera) : Camera :=
    mkCamera (cam_image_width cam) (cam_image_height cam) p (cam_orientation cam)
             (cam_model_type cam) (cam_intrinsics cam).

Definition SetOrientationFromRotationMatrix (r : Matrix3d) (cam : Camera) : Camera :=
    mkCamera (cam_image_width cam) (cam_image_height cam) (cam_position cam) r
             (cam_model_type cam) (cam_intrinsics cam).

(** A view: its name (the integer whose decimal digits the name is), its
      timestamp, the estimated flag, its camera and its features, one per
      observed track. *)
Record View := mkView {
    view_name : Z;
    view_timestamp : double;
    view_estimated : bool;
    view_camera : Camera;
    view_features : gmap nat Vector2d
  }.

Definition set_camera (f : Camera → Camera) (v : View) : View :=
    mkView (view_name v) (view_timestamp v) (view_estimated v)
           (f (view_camera v)) (view_features v).

Definition SetEstimated (b : bool) (v : View) : View :=
    mkView (view_name v) (view_timestamp v) b (view_camera v) (view_features v).

Definition AddFeature (t : TrackId) (p : Vector2d) (v : View) : View :=
    mkView (view_name v) (view_timestamp v) (view_estimated v) (view_camera v)
           (<[t := p]> (view_features v)).

(** The reconstruction: views by id, the homogeneous points of the tracks
      by id, and the id the next view gets.  theia keeps two indices in step
      with the views, which the model reads off the views: the views
      observing a track are those with a feature for it, and a name is
      taken when a view has it.  The intrinsics groups are not modelled. *)
Record Reconstruction := mkRecon {
    views : gmap nat View;
    tracks : gmap nat Vector4d;
    next_view_id : nat
  }.

Definition NumViews (r : Reconstruction) : nat := size (views r).
Definition ViewIds (r : Reconstruction) : list ViewId := (map_to_list (views r)).*1.
Definition TrackIds (r : Reconstruction) : list TrackId := (map_to_list (tracks r)).*1.
Definition GetView (r : Reconstruction) (id : ViewId) : option View := views r !! id.
Definition Track (r : Reconstruction) (id : TrackId) : option Vector4d := tracks r !! id.

Definition set_views (f : gmap nat View → gmap nat View) (r : Reconstruction)
    : Reconstruction :=
    mkRecon (f (views r)) (tracks r) (next_view_id r).

(** Some view observes the track. *)
Definition observed (vs : gmap nat View) (t : TrackId) : Prop :=
    map_Exists (λ _ v, is_Some (view_features v !! t)) vs.

#[global] Instance observed_dec (vs : gmap nat View) (t : TrackId) :
    Decision (observed vs t).
Proof. unfold observed. apply _. Defined.

(** Some view has the name. *)
Definition name_taken (r : Reconstruction) (name : Z) : Prop :=
    map_Exists (λ _ v, view_name v = name) (views r).

#[global] Instance name_taken_dec (r : Reconstruction) (name : Z) :
    Decision (name_taken r name).
Proof. unfold name_taken. apply _. Defined.

(** [Reconstruction::RemoveView]: nothing happens for an id that is not a
      view.  Otherwise the view is detached from the tracks it observes, a
      track left without a view goes, and the view goes. *)
Definition RemoveView (id : ViewId) (r : Reconstruction) : Reconstruction :=
    match views r !! id with
    | None => r
    | Some v =>
        let vs := delete id (views r) in
        mkRecon vs
                (filter (λ kt, ¬ (is_Some (view_features v !! kt.1) ∧ ¬ observed vs kt.1))
                        (tracks r))
                (next_view_id r)
    end.

(** [Reconstruction::AddObservation]: refused when the view or the track is
      missing or the view already observes the track. *)
Definition AddObservation (vid : ViewId) (tid : TrackId) (p : Vector2d)
      (r : Reconstruction) : bool * Reconstruction :=
    match views r !! vid, tracks r !! tid with
    | Some v, Some _ =>
        match view_features v !! tid with
        | Some _ => (false, r)
        | None => (true, set_views (<[vid := AddFeature tid p v]>) r)
        end
    | _, _ => (false, r)
    end.

End theia.
Import theia.

(** ** The scene description and the pose estimates *)

(** One entry of [scene_json["views"]]: the key parsed by [std::stod] and the
    image points, each under its key parsed by [std::stoi]. *)
Record SceneView := mkSceneView {
  sv_key : double;
  sv_image_points : list (Z * Vector2d)
}.

(** The fields of the scene description the calibrator reads, for a scene
    that has them with values of the types asked for; the views are in the
    iteration order of the JSON object. *)
Record SceneJson := mkScene {
  scene_image_width : Z;
  scene_image_height : Z;
  scene_camera_fps : double;
  scene_views : list SceneView
}.

(** What [utils::initialize_pinhole_camera] hands back: the success flag and
    its output arguments rotation, position and focal length. *)
Record PinholePose := mkPinholePose {
  pp_success : bool;
  pp_rotation : Matrix3d;
  pp_position : Vector3d;
  pp_focal_length : double
}.

(** What [utils::initialize_radial_undistortion_camera] hands back: as above,
    and the radial distortion. *)
Record RadialPose := mkRadialPose {
  rp_success : bool;
  rp_rotation : Matrix3d;
  rp_position : Vector3d;
  rp_focal_length : double;
  rp_radial_distortion : double
}.

(** ** The external collaborators

    The solvers of theia, the reprojection error helper, the pose estimators
    and the scene reader and calibration writer are not part of the
    calibrator; a run is relative to an instance of this class.  The
    estimators are functions of their arguments.  The class also holds the
    two rounded operations on doubles whose rounding decides what the
    calibrator does. *)
Class Externals := {
  (** the parameter vector a freshly created intrinsics model starts with *)
  CameraIntrinsicsModel_Create : CameraIntrinsicsModelType → list double;
  (** a default-constructed [theia::BundleAdjustmentOptions] *)
  default_ba_options : BundleAdjustmentOptions;
  hardware_concurrency : nat;
  BundleAdjustViews :
    BundleAdjustmentOptions → list nat → Reconstruction → Reconstruction;
  BundleAdjustTracks :
    BundleAdjustmentOptions → list nat → Reconstruction → Reconstruction;
  GetReprojErrorOfView : Reconstruction → nat → double;
  initialize_pinhole_camera :
    list FeatureCorrespondence2D3D → RansacParameters → bool → PinholePose;
  initialize_radial_undistortion_camera :
    list FeatureCorrespondence2D3D → RansacParameters → Z * Z → bool → RadialPose;
  scene_points_to_calib_dataset : SceneJson → Reconstruction → Reconstruction;
  write_camera_calibration : string → Camera → double → nat → double → bool;
  (** [(a - b).norm()]: the distance of two points as Eigen computes it in
      doubles *)
  Vector3d_distance : Vector3d → Vector3d → double;
  (** the product of two doubles, rounded to a double *)
  double_mul : double → double → double
}.

(** ** theia operations that create cameras *)

Definition zero3 : Vector3d := V3 0 0 0.
Definition identity3 : Matrix3d := M3 (V3 1 0 0) (V3 0 1 0) (V3 0 0 1).

(** A default-constructed [theia::Camera] is a pinhole camera. *)
Definition NewCamera `{Externals} : Camera :=
  mkCamera 0 0 zero3 identity3 PINHOLE (CameraIntrinsicsModel_Create PINHOLE).

(** [Camera::SetCameraIntrinsicsModelType] replaces the intrinsics by a
    fresh model only when the kind changes. *)
Definition SetCameraIntrinsicsModelType `{Externals}
    (t : CameraIntrinsicsModelType) (cam : Camera) : Camera :=
  if decide (cam_model_type cam = t) then cam
  else mkCamera (cam_image_width cam) (cam_image_height cam) (cam_position cam)
                (cam_orientation cam) t (CameraIntrinsicsModel_Create t).

(** [Reconstruction::AddView]: theia refuses a name a view already has and
    hands back [kInvalidViewId], the id of no view ([None] here), leaving
    the reconstruction as it is; otherwise the new view gets the next id.
    The intrinsics group argument is not modelled. *)
Definition Reconstruction_AddView `{Externals} (name : Z) (timestamp : double)
    (r : Reconstruction) : option nat * Reconstruction :=
  if decide (name_taken r name) then (None, r)
  else
    (Some (next_view_id r),
     mkRecon (<[next_view_id r := mkView name timestamp false NewCamera ∅]> (views r))
             (tracks r) (S (next_view_id r))).

(** ** The calibrator *)

Record CameraCalibrator := mkCalibrator {
  camera_model_ : string;
  optimize_board_pts_ : bool;
  ransac_params_ : RansacParameters;
  recon_calib_dataset_ : Reconstruction;
  min_num_view_ : nat;
  grid_size_ : double;
  verbose_ : bool
}.

Definition set_dataset (f : Reconstruction → Reconstruction) (c : CameraCalibrator)
  : CameraCalibrator :=
  mkCalibrator (camera_model_ c) (optimize_board_pts_ c) (ransac_params_ c)
               (f (recon_calib_dataset_ c)) (min_num_view_ c) (grid_size_ c)
               (verbose_ c).

Definition set_ransac (f : RansacParameters → RansacParameters) (c : CameraCalibrator)
  : CameraCalibrator :=
  mkCalibrator (camera_model_ c) (optimize_board_pts_ c) (f (ransac_params_ c))
               (recon_calib_dataset_ c) (min_num_view_ c) (grid_size_ c)
               (verbose_ c).

(** The constructor.  The dataset starts empty; [min_num_view], [grid_size]
    and [verbose] are the members the class declaration initialises. *)
Definition CameraCalibrator_new (camera_model : string) (optimize_board_pts : bool)
    (min_num_view : nat) (grid_size : double) (verbose : bool) : CameraCalibrator :=
  mkCalibrator camera_model optimize_board_pts
               (mkRansac (1 # 1000) true 1000 5 3)
               (mkRecon ∅ ∅ 0) min_num_view grid_size verbose.

(** *** RemoveViewsReprojError *)

(** The first loop: the views whose error exceeds the bound, with the
    error. *)
Definition ids_to_remove `{Externals} (max_reproj_error : double)
    (r : Reconstruction) : gmap nat double :=
  foldl (λ acc v_id,
           let view_reproj_error := GetReprojErrorOfView r v_id in
           if dgt view_reproj_error max_reproj_error
           then <[v_id := view_reproj_error]> acc else acc)
        ∅ (ViewIds r).

Definition RemoveViewsReprojError `{Externals} (max_reproj_error : double)
    (c : CameraCalibrator) : CameraCalibrator :=
  set_dataset
    (λ r, foldl (λ r' v_id, RemoveView v_id.1 r') r
                (map_to_list (ids_to_remove max_reproj_error r)))
    c.

(** *** AddObservation and AddView *)

Definition AddObservation (view_id object_point_id : nat) (corner : Vector2d)
    (c : CameraCalibrator) : bool * CameraCalibrator :=
  let '(ok, r) := theia.AddObservation view_id object_point_id corner
                    (recon_calib_dataset_ c) in
  (ok, set_dataset (λ _, r) c).

(** Modelled from the spec: the constant [S_TO_US] of utils/types.h, the
    number of microseconds in a second. *)
Definition S_TO_US : double := 1000000.

(** The cast [(uint64_t) d]: the value truncated toward zero.  The cast is
    undefined when that is outside the range of the type. *)
Definition to_uint64 (d : double) : option Z :=
  let z := Z.quot (Qnum d) (Zpos (Qden d)) in
  if decide (0 ≤ z < 2 ^ 64)%Z then Some z else None.

(** The name [AddView] gives the view of a timestamp: the digits of
    [(uint64_t)(timestamp_s * S_TO_US)]. *)
Definition view_name_of `{Externals} (timestamp_s : double) : option Z :=
  to_uint64 (double_mul timestamp_s S_TO_US).

(** [CameraCalibrator::AddView].  The intrinsics group argument is not
    modelled.  When theia refuses the name, [MutableView] of the invalid id
    is null and [SetEstimated] dereferences it.  An unknown camera model
    name is fatal in [StringToCameraIntrinsicsModelType]. *)
Definition AddView `{Externals} (initial_rotation : Matrix3d)
    (initial_position : Vector3d) (initial_focal_length initial_distortion : double)
    (image_width image_height : Z) (timestamp_s : double) (c : CameraCalibrator)
  : option (nat * CameraCalibrator) :=
  view_name ← view_name_of timestamp_s;
  let '(view_id, r) :=
    Reconstruction_AddView view_name timestamp_s (recon_calib_dataset_ c) in
  view_id ← view_id;
  theia_view ← GetView r view_id;
  let theia_view := SetEstimated true theia_view in
  let cam := view_camera theia_view in
  let cam := SetImageSize image_width image_height cam in
  let cam := SetPrincipalPoint (inject_Z image_width / 2)%Q
                               (inject_Z image_height / 2)%Q cam in
  let cam := SetPosition initial_position cam in
  let cam := SetOrientationFromRotationMatrix initial_rotation cam in
  let cam := SetFocalLength initial_focal_length cam in
  model_type ← StringToCameraIntrinsicsModelType (camera_model_ c);
  let cam := SetCameraIntrinsicsModelType model_type cam in
  let cam :=
    if String.eqb (camera_model_ c) "PINHOLE" then cam
    else if String.eqb (camera_model_ c) "DIVISION_UNDISTORTION" then
      SetParameter DivisionUndistortionCameraModel.RADIAL_DISTORTION_1
                   initial_distortion cam
    else if String.eqb (camera_model_ c) "DOUBLE_SPHERE" then
      SetParameter DoubleSphereCameraModel.ALPHA (1 # 2)
        (SetParameter DoubleSphereCameraModel.XI (- (1 # 4)) cam)
    else if String.eqb (camera_model_ c) "EXTENDED_UNIFIED" then
      SetParameter ExtendedUnifiedCameraModel.BETA 1
        (SetParameter ExtendedUnifiedCameraModel.ALPHA (1 # 2) cam)
    else if String.eqb (camera_model_ c) "FISHEYE" then cam
    else if String.eqb (camera_model_ c) "PINHOLE_RADIAL_TANGENTIAL" then cam
    else cam in
  Some (view_id,
        set_dataset
          (λ _, set_views (<[view_id := set_camera (λ _, cam) theia_view]>) r) c).

(** *** RunCalibration

    The optimizer threads the calibrator through its steps and calls
    external solvers; the model keeps the calls in a trace. *)

Inductive Event :=
  | EvBundleAdjustViews (o : BundleAdjustmentOptions) (view_ids : list nat)
  | EvBundleAdjustTracks (o : BundleAdjustmentOptions) (track_ids : list nat)
  | EvRemoveViewsReprojError (max_reproj_error : double)
  | EvWritePlyFile (path : string)
  | EvWriteReconstruction (path : string)
  | EvWriteCameraCalibration (path : string) (cam : Camera) (fps : double)
                             (num_views : nat) (reproj_error : double).

(** A computation over the calibrator that logs the calls it makes. *)
Definition Run (A : Type) : Type :=
  CameraCalibrator → A * CameraCalibrator * list Event.

#[global] Instance Run_ret : MRet Run := λ A a c, (a, c, []).
#[global] Instance Run_bind : MBind Run := λ A B f m c,
  let '(a, c1, t1) := m c in
  let '(b, c2, t2) := f a c1 in
  (b, c2, t1 ++ t2).

Definition get_calibrator : Run CameraCalibrator := λ c, (c, c, []).

Definition set_verbose (b : bool) (o : BundleAdjustmentOptions) :=
  mkBAOptions b (loss_function_type o) (robust_loss_width o) (num_threads o)
    (constant_camera_orientation o) (constant_camera_position o)
    (intrinsics_to_optimize o) (use_homogeneous_point_parametrization o).
Definition set_loss_function_type (l : LossFunctionType) (o : BundleAdjustmentOptions) :=
  mkBAOptions (verbose o) l (robust_loss_width o) (num_threads o)
    (constant_camera_orientation o) (constant_camera_position o)
    (intrinsics_to_optimize o) (use_homogeneous_point_parametrization o).
Definition set_robust_loss_width (w : double) (o : BundleAdjustmentOptions) :=
  mkBAOptions (verbose o) (loss_function_type o) w (num_threads o)
    (constant_camera_orientation o) (constant_camera_position o)
    (intrinsics_to_optimize o) (use_homogeneous_point_parametrization o).
Definition set_num_threads (n : nat) (o : BundleAdjustmentOptions) :=
  mkBAOptions (verbose o) (loss_function_type o) (robust_loss_width o) n
    (constant_camera_orientation o) (constant_camera_position o)
    (intrinsics_to_optimize o) (use_homogeneous_point_parametrization o).
Definition set_constant_camera_orientation (b : bool) (o : BundleAdjustmentOptions) :=
  mkBAOptions (verbose o) (loss_function_type o) (robust_loss_width o) (num_threads o)
    b (constant_camera_position o)
    (intrinsics_to_optimize o) (use_homogeneous_point_parametrization o).
Definition set_constant_camera_position (b : bool) (o : BundleAdjustmentOptions) :=
  mkBAOptions (verbose o) (loss_function_type o) (robust_loss_width o) (num_threads o)
    (constant_camera_orientation o) b
    (intrinsics_to_optimize o) (use_homogeneous_point_parametrization o).
Definition set_intrinsics_to_optimize (f : Z → Z) (o : BundleAdjustmentOptions) :=
  mkBAOptions (verbose o) (loss_function_type o) (robust_loss_width o) (num_threads o)
    (constant_camera_orientation o) (constant_camera_position o)
    (f (intrinsics_to_optimize o)) (use_homogeneous_point_parametrization o).
Definition set_use_homogeneous_point_parametrization (b : bool)
    (o : BundleAdjustmentOptions) :=
  mkBAOptions (verbose o) (loss_function_type o) (robust_loss_width o) (num_threads o)
    (constant_camera_orientation o) (constant_camera_position o)
    (intrinsics_to_optimize o) b.

(** The calls of [RunCalibration], each with its trace entry. *)
Definition call_BundleAdjustViews `{Externals} (o : BundleAdjustmentOptions) : Run unit :=
  λ c, let ids := ViewIds (recon_calib_dataset_ c) in
       (tt, set_dataset (BundleAdjustViews o ids) c, [EvBundleAdjustViews o ids]).

Definition call_BundleAdjustTracks `{Externals} (o : BundleAdjustmentOptions) : Run unit :=
  λ c, let ids := TrackIds (recon_calib_dataset_ c) in
       (tt, set_dataset (BundleAdjustTracks o ids) c, [EvBundleAdjustTracks o ids]).

Definition call_RemoveViewsReprojError `{Externals} (max_reproj_error : double)
  : Run unit :=
  λ c, (tt, RemoveViewsReprojError max_reproj_error c,
        [EvRemoveViewsReprojError max_reproj_error]).

(** [recon_calib_dataset_.NumViews() < min_num_view_] *)
Definition not_enough_views : Run bool :=
  c ← get_calibrator;
  mret (NumViews (recon_calib_dataset_ c) <? min_num_view_ c)%nat.

(** The options of the three stages, as [RunCalibration] builds them one
    from the other. *)
Definition ba_options_base `{Externals} : BundleAdjustmentOptions :=
  set_num_threads hardware_concurrency
    (set_robust_loss_width (1345 # 1000)
       (set_loss_function_type HUBER
          (set_verbose true default_ba_options))).

Definition ba_options_stage1 `{Externals} (camera_model : string)
  : BundleAdjustmentOptions :=
  let o := set_constant_camera_orientation false ba_options_base in
  let o := set_constant_camera_position false o in
  let o := set_intrinsics_to_optimize (λ _, OptimizeIntrinsicsType.FOCAL_LENGTH) o in
  if negb (String.eqb camera_model "PINHOLE")
  then set_intrinsics_to_optimize
         (λ i, Z.lor i OptimizeIntrinsicsType.RADIAL_DISTORTION) o
  else o.

Definition ba_options_stage2 `{Externals} (camera_model : string)
  : BundleAdjustmentOptions :=
  let o := set_constant_camera_orientation true (ba_options_stage1 camera_model) in
  let o := set_constant_camera_position true o in
  set_intrinsics_to_optimize (λ _, OptimizeIntrinsicsType.PRINCIPAL_POINTS) o.

Definition ba_options_stage3 `{Externals} (camera_model : string)
  : BundleAdjustmentOptions :=
  let o := set_constant_camera_orientation false (ba_options_stage2 camera_model) in
  let o := set_constant_camera_position false o in
  let o := set_intrinsics_to_optimize
             (λ _, Z.lor (Z.lor OptimizeIntrinsicsType.PRINCIPAL_POINTS
                                OptimizeIntrinsicsType.FOCAL_LENGTH)
                         OptimizeIntrinsicsType.ASPECT_RATIO) o in
  if String.eqb camera_model "PINHOLE"
  then set_intrinsics_to_optimize
         (λ i, Z.lor i OptimizeIntrinsicsType.RADIAL_DISTORTION) o
  else if String.eqb camera_model "PINHOLE_RADIAL_TANGENTIAL"
  then set_intrinsics_to_optimize
         (λ i, Z.lor i OptimizeIntrinsicsType.TANGENTIAL_DISTORTION) o
  else o.

Definition ba_options_board `{Externals} (camera_model : string)
  : BundleAdjustmentOptions :=
  set_verbose true
    (set_use_homogeneous_point_parametrization true (ba_options_stage3 camera_model)).

(** [CameraCalibrator::RunCalibration] *)
Definition RunCalibration `{Externals} : Run bool :=
  c ← get_calibrator;
  too_few ← not_enough_views;
  if too_few : bool then mret false
  else
    (* 1. focal length and radial distortion, principal point fixed *)
    call_BundleAdjustViews (ba_options_stage1 (camera_model_ c));;
    call_RemoveViewsReprojError 5;;
    (* 2. principal point, everything else fixed *)
    call_BundleAdjustViews (ba_options_stage2 (camera_model_ c));;
    too_few ← not_enough_views;
    if too_few : bool then mret false
    else
      (* 3. full optimization *)
      call_BundleAdjustViews (ba_options_stage3 (camera_model_ c));;
      call_RemoveViewsReprojError 2;;
      too_few ← not_enough_views;
      if too_few : bool then mret false
      else
        (if optimize_board_pts_ c
         then call_BundleAdjustTracks (ba_options_board (camera_model_ c));;
              call_BundleAdjustViews (ba_options_board (camera_model_ c))
         else mret tt);;
        mret true.

(** *** PrintResult *)

(** [recon_calib_dataset_.View(recon_calib_dataset_.ViewIds()[0])->Camera()] *)
Definition FirstViewCamera (r : Reconstruction) : option Camera :=
  v_id ← ViewIds r !! 0%nat;
  view ← GetView r v_id;
  Some (view_camera view).

(** What goes to [std::cout]: string literals and numbers. *)
Inductive Out :=
  | Txt (s : string)
  | Num (d : double).

Definition endl : string := String (Ascii.ascii_of_nat 10) EmptyString.

Definition PrintResult (c : CameraCalibrator) : option (list Out) :=
  cam ← FirstViewCamera (recon_calib_dataset_ c);
  Some
    ([Txt "Focal Length:"; Num (FocalLength cam); Txt "px Principal Point: ";
      Num (PrincipalPointX cam); Txt "/"; Num (PrincipalPointY cam);
      Txt ("px." +:+ endl)] ++
     (if String.eqb (camera_model_ c) "DIVISION_UNDISTORTION" then
        [Txt "DIVISION_UNDISTORTION model: "; Txt "Distortion: ";
         Num (intrinsics_at cam DivisionUndistortionCameraModel.RADIAL_DISTORTION_1);
         Txt endl]
      else if String.eqb (camera_model_ c) "DOUBLE_SPHERE" then
        [Txt "DOUBLE_SPHERE model: "; Txt "XI: ";
         Num (intrinsics_at cam DoubleSphereCameraModel.XI);
         Txt " ALPHA: ";
         Num (intrinsics_at cam DoubleSphereCameraModel.ALPHA);
         Txt endl]
      else if String.eqb (camera_model_ c) "EXTENDED_UNIFIED" then
        [Txt "EXTENDED_UNIFIED model: ";
         Num (intrinsics_at cam ExtendedUnifiedCameraModel.ALPHA);
         Txt " BETA: ";
         Num (intrinsics_at cam ExtendedUnifiedCameraModel.BETA);
         Txt endl]
      else if String.eqb (camera_model_ c) "FISHEYE" then
        [Txt "FISHEYE model: "; Txt "Radial distortion 1: ";
         Num (intrinsics_at cam FisheyeCameraModel.RADIAL_DISTORTION_1);
         Txt " Radial distortion 2: ";
         Num (intrinsics_at cam FisheyeCameraModel.RADIAL_DISTORTION_2);
         Txt " Radial distortion 3: ";
         Num (intrinsics_at cam FisheyeCameraModel.RADIAL_DISTORTION_3);
         Txt " Radial distortion 4: ";
         Num (intrinsics_at cam FisheyeCameraModel.RADIAL_DISTORTION_4);
         Txt endl]
      else if String.eqb (camera_model_ c) "PINHOLE_DISTORTION" then
        [Txt "Pinhole with radial-tangential distortion: ";
         Txt "Radial distortion 1: ";
         Num (intrinsics_at cam PinholeRadialTangentialCameraModel.RADIAL_DISTORTION_1);
         Txt " Radial distortion 2: ";
         Num (intrinsics_at cam PinholeRadialTangentialCameraModel.RADIAL_DISTORTION_2);
         Txt " Radial distortion 3: ";
         Num (intrinsics_at cam PinholeRadialTangentialCameraModel.RADIAL_DISTORTION_3);
         Txt " Tangential distortion 1: ";
         Num (intrinsics_at cam PinholeRadialTangentialCameraModel.TANGENTIAL_DISTORTION_1);
         Txt " Tangential distortion 2: ";
         Num (intrinsics_at cam PinholeRadialTangentialCameraModel.TANGENTIAL_DISTORTION_2);
         Txt endl]
      else [])).

(** *** CalibrateCameraFromJson *)

(** The state the loop over the views carries. *)
Record Ingest := mkIngest {
  ing_calibrator : CameraCalibrator;
  saved_poses : list Vector3d;
  views_initialized : Z
}.

(** The estimate of one frame, as the locals [success_init], [rotation],
    [position], [focal_length] and [radial_distortion] hold it after the
    dispatch. *)
Record PoseInit := mkPoseInit {
  success_init : bool;
  rotation : Matrix3d;
  position : Vector3d;
  focal_length : double;
  radial_distortion : double
}.

(** An [int] used where a [theia::TrackId] (32 bits, unsigned) is expected. *)
Definition TrackId_of_int (i : Z) : nat := Z.to_nat (i mod 2 ^ 32).

(** One correspondence; [Track(id)->Point()] needs the track. *)
Definition make_correspondence (r : Reconstruction) (px py : double)
    (ip : Z * Vector2d) : option FeatureCorrespondence2D3D :=
  track ← Track r (TrackId_of_int ip.1);
  Some (mkCorr (V2 (v2_x ip.2 - px)%Q (v2_y ip.2 - py)%Q) (hnormalized track)).

Definition set_error_thresh (e : double) (p : RansacParameters) : RansacParameters :=
  mkRansac (failure_probability p) (use_mle p) (max_iterations p)
           (min_iterations p) e.

(** The dispatch on the camera model.  [focal_length] and
    [radial_distortion] start at [0.0]; the pinhole initializer has no
    distortion argument. *)
Definition InitializePose `{Externals} (camera_model : string)
    (correspondences : list FeatureCorrespondence2D3D)
    (ransac_params : RansacParameters) (image_width image_height : Z)
    (verbose : bool) : PoseInit :=
  if String.eqb camera_model "PINHOLE"
     || String.eqb camera_model "PINHOLE_RADIAL_TANGENTIAL" then
    let p := initialize_pinhole_camera correspondences ransac_params verbose in
    mkPoseInit (pp_success p) (pp_rotation p) (pp_position p) (pp_focal_length p) 0
  else if String.eqb camera_model "DIVISION_UNDISTORTION" then
    let p := initialize_radial_undistortion_camera
               correspondences ransac_params (image_width, image_height) verbose in
    mkPoseInit (rp_success p) (rp_rotation p) (rp_position p) (rp_focal_length p)
               (rp_radial_distortion p)
  else
    let p := initialize_radial_undistortion_camera
               correspondences ransac_params (image_width, image_height) verbose in
    mkPoseInit (rp_success p) (rp_rotation p) (rp_position p) (rp_focal_length p)
               (rp_radial_distortion p).

(** The check for a close-by pose: [false] as soon as the distance to a
    saved pose, as computed, is below the grid size. *)
Definition take_image `{Externals} (grid_size : double) (saved : list Vector3d)
    (p : Vector3d) : bool :=
  negb (existsb (λ q, dlt (Vector3d_distance p q) grid_size) saved).

(** The estimate the loop body computes for a view, with the calibrator's
    RANSAC threshold set on the way. *)
Definition EstimateView `{Externals} (scene_json : SceneJson) (c : CameraCalibrator)
    (view : SceneView) : option (CameraCalibrator * PoseInit) :=
  let image_width := scene_image_width scene_json in
  let image_height := scene_image_height scene_json in
  let px := (inject_Z image_width / 2)%Q in
  let py := (inject_Z image_height / 2)%Q in
  correspondences ←
    mapM (make_correspondence (recon_calib_dataset_ c) px py) (sv_image_points view);
  let c := set_ransac (set_error_thresh ((3 # 1000) * inject_Z image_height)%Q) c in
  Some (c, InitializePose (camera_model_ c) correspondences (ransac_params_ c)
                          image_width image_height (verbose_ c)).

(** One turn of the loop over [scene_json["views"]].  The timestamp in
    seconds is the rounded product of the key and the literal [1e-6]. *)
Definition InitializeView `{Externals} (scene_json : SceneJson) (st : Ingest)
    (view : SceneView) : option Ingest :=
  let timestamp_us := sv_key view in
  let timestamp_s := double_mul timestamp_us (1 # 1000000) in
  '(c, pose) ← EstimateView scene_json (ing_calibrator st) view;
  let n := (views_initialized st + 1)%Z in
  if negb (take_image (grid_size_ c) (saved_poses st) (position pose))
     || negb (success_init pose)
  then Some (mkIngest c (saved_poses st) n)
  else
    '(view_id, c) ← AddView (rotation pose) (position pose) (focal_length pose)
                            (radial_distortion pose)
                            (scene_image_width scene_json)
                            (scene_image_height scene_json) timestamp_s c;
    let c := foldl (λ c ip, (AddObservation view_id (TrackId_of_int ip.1) ip.2 c).2)
                   c (sv_image_points view) in
    Some (mkIngest c (saved_poses st ++ [position pose]) n).

Fixpoint InitializeViews `{Externals} (scene_json : SceneJson) (st : Ingest)
    (views : list SceneView) : option Ingest :=
  match views with
  | [] => Some st
  | view :: rest =>
      st' ← InitializeView scene_json st view;
      InitializeViews scene_json st' rest
  end.

(** The sum of the views' errors, in the order of [ViewIds()]. *)
Definition sum_reproj_error `{Externals} (r : Reconstruction) : double :=
  foldl (λ reproj_error v_id, (reproj_error + GetReprojErrorOfView r v_id)%Q)
        0%Q (ViewIds r).

(** What follows a successful [RunCalibration]: the mean error, the camera
    of the first view and, with an output path, the files.  A failed [CHECK]
    does not return. *)
Definition ReportCalibration `{Externals} (scene_json : SceneJson)
    (output_path : string) (c : CameraCalibrator) : option (list Event) :=
  let r := recon_calib_dataset_ c in
  let total_repro_error :=
    (sum_reproj_error r / inject_Z (Z.of_nat (NumViews r)))%Q in
  cam ← FirstViewCamera r;
  if negb (String.eqb output_path EmptyString) then
    if write_camera_calibration (output_path +:+ ".json") cam
         (scene_camera_fps scene_json) (NumViews r) total_repro_error
    then Some [EvWriteReconstruction (output_path +:+ ".calibdata");
               EvWriteCameraCalibration (output_path +:+ ".json") cam
                 (scene_camera_fps scene_json) (NumViews r) total_repro_error;
               EvWritePlyFile (output_path +:+ "_final_poses.ply")]
    else None
  else Some [].

(** [CameraCalibrator::CalibrateCameraFromJson]: the scene points, the loop
    over the views, the optimizer and the report.  The progress lines on
    [std::cout] and the log are not modelled; the files written are in the
    trace. *)
Definition CalibrateCameraFromJson `{Externals} (scene_json : SceneJson)
    (output_path : string) (c : CameraCalibrator)
  : option (bool * CameraCalibrator * list Event) :=
  let c := set_dataset (scene_points_to_calib_dataset scene_json) c in
  st ← InitializeViews scene_json (mkIngest c [] 0) (scene_views scene_json);
  let ply := [EvWritePlyFile (output_path +:+ "_ransac_poses.ply")] in
  let '(ok, c, trace) := RunCalibration (ing_calibrator st) in
  if negb ok then Some (false, c, ply ++ trace)
  else
    report ← ReportCalibration scene_json output_path c;
    Some (true, c, ply ++ trace ++ report).

(** ** read_camera_calibration *)

(** The calibration file, as the JSON object it holds: the keys the reader
    asks for.  A top-level key is [None] when the file lacks it or its value
    does not convert to the type the reader asks for, and the [intrinsics]
    object holds the keys whose value converts to a [double]; the conversion
    of any other key throws. *)
Record CalibrationJson := mkCalibrationJson {
  intrinsic_type : option string;
  json_image_width : option Z;
  json_image_height : option Z;
  json_fps : option double;
  json_intrinsics : gmap string double
}.

(** The reader on the content of the file ([None]: the file cannot be
    opened), the camera and the [fps] it is handed.  The result is the
    returned flag with the camera and [fps] afterwards, or [None] when the
    call throws. *)
Definition read_camera_calibration `{Externals} (input : option CalibrationJson)
    (camera : Camera) (fps : double) : option (bool * Camera * double) :=
  match input with
  | None => Some (false, camera, fps)
  | Some json_content =>
      camera_model_type ← intrinsic_type json_content;
      let intr := json_intrinsics json_content in
      model_type ← StringToCameraIntrinsicsModelType camera_model_type;
      let camera := SetCameraIntrinsicsModelType model_type camera in
      image_width ← json_image_width json_content;
      image_height ← json_image_height json_content;
      let camera := SetImageSize image_width image_height camera in
      principal_pt_x ← intr !! "principal_pt_x";
      principal_pt_y ← intr !! "principal_pt_y";
      let camera := SetPrincipalPoint principal_pt_x principal_pt_y camera in
      focal ← intr !! "focal_length";
      let camera := SetFocalLength focal camera in
      fps ← json_fps json_content;
      if String.eqb camera_model_type "DIVISION_UNDISTORTION" then
        d ← intr !! "div_undist_distortion";
        a ← intr !! "aspect_ratio";
        Some (true,
              SetParameter DivisionUndistortionCameraModel.ASPECT_RATIO a
                (SetParameter DivisionUndistortionCameraModel.RADIAL_DISTORTION_1 d
                   camera),
              fps)
      else if String.eqb camera_model_type "DOUBLE_SPHERE" then
        xi ← intr !! "xi";
        alpha ← intr !! "alpha";
        a ← intr !! "aspect_ratio";
        Some (true,
              SetParameter DoubleSphereCameraModel.ASPECT_RATIO a
                (SetParameter DoubleSphereCameraModel.ALPHA alpha
                   (SetParameter DoubleSphereCameraModel.XI xi camera)),
              fps)
      else if String.eqb camera_model_type "EXTENDED_UNIFIED" then
        alpha ← intr !! "alpha";
        beta ← intr !! "beta";
        a ← intr !! "aspect_ratio";
        Some (true,
              SetParameter ExtendedUnifiedCameraModel.ASPECT_RATIO a
                (SetParameter ExtendedUnifiedCameraModel.BETA beta
                   (SetParameter ExtendedUnifiedCameraModel.ALPHA alpha camera)),
              fps)
      else if String.eqb camera_model_type "FISHEYE" then
        r1 ← intr !! "radial_distortion_1";
        r2 ← intr !! "radial_distortion_2";
        r3 ← intr !! "radial_distortion_3";
        r4 ← intr !! "radial_distortion_4";
        a ← intr !! "aspect_ratio";
        Some (true,
              SetParameter FisheyeCameraModel.ASPECT_RATIO a
                (SetParameter FisheyeCameraModel.RADIAL_DISTORTION_4 r4
                   (SetParameter FisheyeCameraModel.RADIAL_DISTORTION_3 r3
                      (SetParameter FisheyeCameraModel.RADIAL_DISTORTION_2 r2
                         (SetParameter FisheyeCameraModel.RADIAL_DISTORTION_1 r1
                            camera)))),
              fps)
      else if String.eqb camera_model_type "PINHOLE_RADIAL_TANGENTIAL" then
        r1 ← intr !! "radial_distortion_1";
        r2 ← intr !! "radial_distortion_2";
        r3 ← intr !! "radial_distortion_3";
        t1 ← intr !! "tangential_distortion_1";
        t2 ← intr !! "tangential_distortion_2";
        a ← intr !! "aspect_ratio";
        Some (true,
              SetParameter PinholeRadialTangentialCameraModel.ASPECT_RATIO a
                (SetParameter PinholeRadialTangentialCameraModel.TANGENTIAL_DISTORTION_2 t2
                   (SetParameter PinholeRadialTangentialCameraModel.TANGENTIAL_DISTORTION_1 t1
                      (SetParameter PinholeRadialTangentialCameraModel.RADIAL_DISTORTION_3 r3
                         (SetParameter PinholeRadialTangentialCameraModel.RADIAL_DISTORTION_2 r2
                            (SetParameter PinholeRadialTangentialCameraModel.RADIAL_DISTORTION_1 r1
                               camera))))),
              fps)
      else if String.eqb camera_model_type "PINHOLE" then
        a ← intr !! "aspect_ratio";
        Some (true, SetParameter PinholeCameraModel.ASPECT_RATIO a camera, fps)
      else Some (true, camera, fps)
  end.

(** ** Notions used to state the properties *)

(** [o] frees the intrinsics of the group [flag]. *)
Definition frees (o : BundleAdjustmentOptions) (flag : Z) : bool :=
  negb (Z.land (intrinsics_to_optimize o) flag =? 0)%Z.

(** The calibrator after each stage of [RunCalibration], when the run gets
    that far. *)
Definition after_stage1 `{Externals} (c : CameraCalibrator) : CameraCalibrator :=
  RemoveViewsReprojError 5
    (set_dataset (BundleAdjustViews (ba_options_stage1 (camera_model_ c))
                                    (ViewIds (recon_calib_dataset_ c))) c).

Definition after_stage2 `{Externals} (c : CameraCalibrator) : CameraCalibrator :=
  set_dataset (BundleAdjustViews (ba_options_stage2 (camera_model_ c))
                                 (ViewIds (recon_calib_dataset_ (after_stage1 c))))
              (after_stage1 c).

Definition after_stage3 `{Externals} (c : CameraCalibrator) : CameraCalibrator :=
  RemoveViewsReprojError 2
    (set_dataset (BundleAdjustViews (ba_options_stage3 (camera_model_ c))
                                    (ViewIds (recon_calib_dataset_ (after_stage2 c))))
                 (after_stage2 c)).

Definition after_board_tracks `{Externals} (c : CameraCalibrator) : CameraCalibrator :=
  set_dataset (BundleAdjustTracks (ba_options_board (camera_model_ c))
                                  (TrackIds (recon_calib_dataset_ (after_stage3 c))))
              (after_stage3 c).

Definition after_board `{Externals} (c : CameraCalibrator) : CameraCalibrator :=
  set_dataset (BundleAdjustViews (ba_options_board (camera_model_ c))
                 (ViewIds (recon_calib_dataset_ (after_board_tracks c))))
              (after_board_tracks c).

(** The calls of the stages, in order. *)
Definition trace_stage12 `{Externals} (c : CameraCalibrator) : list Event :=
  [EvBundleAdjustViews (ba_options_stage1 (camera_model_ c))
                       (ViewIds (recon_calib_dataset_ c));
   EvRemoveViewsReprojError 5;
   EvBundleAdjustViews (ba_options_stage2 (camera_model_ c))
                       (ViewIds (recon_calib_dataset_ (after_stage1 c)))].

Definition trace_stage3 `{Externals} (c : CameraCalibrator) : list Event :=
  [EvBundleAdjustViews (ba_options_stage3 (camera_model_ c))
                       (ViewIds (recon_calib_dataset_ (after_stage2 c)));
   EvRemoveViewsReprojError 2].

Definition trace_board `{Externals} (c : CameraCalibrator) : list Event :=
  [EvBundleAdjustTracks (ba_options_board (camera_model_ c))
                        (TrackIds (recon_calib_dataset_ (after_stage3 c)));
   EvBundleAdjustViews (ba_options_board (camera_model_ c))
                       (ViewIds (recon_calib_dataset_ (after_board_tracks c)))].

(** The solvers refine the views they are given; they neither add nor drop
    one. *)
Definition solvers_keep_views `{Externals} : Prop :=
  (∀ o ids r, dom (views (BundleAdjustViews o ids r)) = dom (views r)) ∧
  (∀ o ids r, dom (views (BundleAdjustTracks o ids r)) = dom (views r)).

(** The error of a view is a function of the view and of the tracks it
    observes. *)
Definition reproj_error_local `{Externals} : Prop :=
  ∀ r r' v_id,
    GetView r v_id = GetView r' v_id →
    (∀ view t, GetView r v_id = Some view → is_Some (view_features view !! t) →
               Track r t = Track r' t) →
    GetReprojErrorOfView r v_id = GetReprojErrorOfView r' v_id.

(** No view of [r] has an id from [next_view_id r] on: the ids the
    reconstruction hands out are new. *)
Definition fresh_ids (r : Reconstruction) : Prop :=
  ∀ k, (next_view_id r ≤ k)%nat → views r !! k = None.

(** The position a view's camera is at. *)
Definition view_position (v : View) : Vector3d := cam_position (view_camera v).

(** The calibrator with the RANSAC threshold the loop sets for the scene. *)
Definition with_scene_thresh (scene_json : SceneJson) (c : CameraCalibrator)
  : CameraCalibrator :=
  set_ransac
    (set_error_thresh ((3 # 1000) * inject_Z (scene_image_height scene_json))%Q) c.

(** What the loop has built: the dataset and the saved poses. *)
Definition ingested (st : Ingest) : Reconstruction * list Vector3d :=
  (recon_calib_dataset_ (ing_calibrator st), saved_poses st).

(** Every image point of the frames names a track of [r]. *)
Definition tracks_known (r : Reconstruction) (frames : list SceneView) : Prop :=
  ∀ view ip, view ∈ frames → ip ∈ sv_image_points view →
             is_Some (Track r (TrackId_of_int ip.1)).

(** What holds of the loop state after any number of frames, relative to the
    calibrator [c0] the loop started from: the tracks are those of [c0], the
    views of [c0] are as they were, and the views added since, by id, are
    at the saved poses, in order. *)
Definition ingest_inv (scene_json : SceneJson) (c0 : CameraCalibrator) (st : Ingest)
  : Prop :=
  let r0 := recon_calib_dataset_ c0 in
  let r := recon_calib_dataset_ (ing_calibrator st) in
  tracks r = tracks r0 ∧
  next_view_id r = (next_view_id r0 + length (saved_poses st))%nat ∧
  NumViews r = (NumViews r0 + length (saved_poses st))%nat ∧
  fresh_ids r ∧
  (∀ k, (k < next_view_id r0)%nat → views r !! k = views r0 !! k) ∧
  (∀ i, saved_poses st !! i = view_position <$> views r !! (next_view_id r0 + i)%nat) ∧
  with_scene_thresh scene_json (ing_calibrator st) =
    set_dataset (λ _, r) (with_scene_thresh scene_json c0).

(** The estimate built from what the pinhole initializer hands back: no
    distortion term. *)
Definition pinhole_pose (p : PinholePose) : PoseInit :=
  mkPoseInit (pp_success p) (pp_rotation p) (pp_position p) (pp_focal_length p) 0.

(** The estimate built from what the radial undistortion initializer hands
    back. *)
Definition radial_pose (p : RadialPose) : PoseInit :=
  mkPoseInit (rp_success p) (rp_rotation p) (rp_position p) (rp_focal_length p)
             (rp_radial_distortion p).

(** Modelled from the spec: [utils::GetReprojErrorOfView], which is not among
    the sources.  The error of a view is the mean, over the view's
    observations, of the pixel distance between the observed point and the
    re-projected target point under the current parameters.  [project] is
    the projection of the camera model and [pixel_distance] the distance in
    the image. *)
Definition GetReprojErrorOfView_spec (project : Camera → Vector4d → Vector2d)
    (pixel_distance : Vector2d → Vector2d → double)
    (r : Reconstruction) (v_id : nat) : double :=
  match GetView r v_id with
  | None => 0%Q
  | Some view =>
      let residuals :=
        omap (λ o : nat * Vector2d,
                point ← Track r o.1;
                Some (pixel_distance o.2 (project (view_camera view) point)))
             (map_to_list (view_features view)) in
      (foldr Qplus 0%Q residuals / inject_Z (Z.of_nat (length residuals)))%Q
  end.

(** ** Further notions, for the properties beyond the staged optimizer *)

(** The options a solver call of the trace was made with. *)
Definition solver_options (ev : Event) : option BundleAdjustmentOptions :=
  match ev with
  | EvBundleAdjustViews o _ | EvBundleAdjustTracks o _ => Some o
  | _ => None
  end.

Definition is_tracks_call (ev : Event) : bool :=
  match ev with
  | EvBundleAdjustTracks _ _ => true
  | _ => false
  end.

(** The trace entries that write a file. *)
Definition is_write (ev : Event) : bool :=
  match ev with
  | EvWritePlyFile _ | EvWriteReconstruction _
  | EvWriteCameraCalibration _ _ _ _ _ => true
  | _ => false
  end.

(** The number of parameters of a camera model ([kIntrinsicsSize]). *)
Definition NumParameters (t : CameraIntrinsicsModelType) : nat :=
  match t with
  | PINHOLE => 7
  | PINHOLE_RADIAL_TANGENTIAL => 10
  | FISHEYE => 9
  | DIVISION_UNDISTORTION => 5
  | DOUBLE_SPHERE => 7
  | EXTENDED_UNIFIED => 7
  end.

(** A fresh intrinsics model has as many parameters as its kind. *)
Definition models_sized `{Externals} : Prop :=
  ∀ t, length (CameraIntrinsicsModel_Create t) = NumParameters t.

(** The parameter vector of the camera has the length of its kind. *)
Definition well_sized (cam : Camera) : Prop :=
  length (cam_intrinsics cam) = NumParameters (cam_model_type cam).

(** What [read_camera_calibration] takes from the [intrinsics] object of a
    file of each kind: the key and the parameter it goes to. *)
Definition stored_parameters (t : CameraIntrinsicsModelType) : list (string * nat) :=
  match t with
  | PINHOLE =>
      [("principal_pt_x", PinholeCameraModel.PRINCIPAL_POINT_X);
       ("principal_pt_y", PinholeCameraModel.PRINCIPAL_POINT_Y);
       ("focal_length", PinholeCameraModel.FOCAL_LENGTH);
       ("aspect_ratio", PinholeCameraModel.ASPECT_RATIO)]
  | PINHOLE_RADIAL_TANGENTIAL =>
      [("principal_pt_x", PinholeRadialTangentialCameraModel.PRINCIPAL_POINT_X);
       ("principal_pt_y", PinholeRadialTangentialCameraModel.PRINCIPAL_POINT_Y);
       ("focal_length", PinholeRadialTangentialCameraModel.FOCAL_LENGTH);
       ("radial_distortion_1", PinholeRadialTangentialCameraModel.RADIAL_DISTORTION_1);
       ("radial_distortion_2", PinholeRadialTangentialCameraModel.RADIAL_DISTORTION_2);
       ("radial_distortion_3", PinholeRadialTangentialCameraModel.RADIAL_DISTORTION_3);
       ("tangential_distortion_1",
        PinholeRadialTangentialCameraModel.TANGENTIAL_DISTORTION_1);
       ("tangential_distortion_2",
        PinholeRadialTangentialCameraModel.TANGENTIAL_DISTORTION_2);
       ("aspect_ratio", PinholeRadialTangentialCameraModel.ASPECT_RATIO)]
  | FISHEYE =>
      [("principal_pt_x", FisheyeCameraModel.PRINCIPAL_POINT_X);
       ("principal_pt_y", FisheyeCameraModel.PRINCIPAL_POINT_Y);
       ("focal_length", FisheyeCameraModel.FOCAL_LENGTH);
       ("radial_distortion_1", FisheyeCameraModel.RADIAL_DISTORTION_1);
       ("radial_distortion_2", FisheyeCameraModel.RADIAL_DISTORTION_2);
       ("radial_distortion_3", FisheyeCameraModel.RADIAL_DISTORTION_3);
       ("radial_distortion_4", FisheyeCameraModel.RADIAL_DISTORTION_4);
       ("aspect_ratio", FisheyeCameraModel.ASPECT_RATIO)]
  | DIVISION_UNDISTORTION =>
      [("principal_pt_x", DivisionUndistortionCameraModel.PRINCIPAL_POINT_X);
       ("principal_pt_y", DivisionUndistortionCameraModel.PRINCIPAL_POINT_Y);
       ("focal_length", DivisionUndistortionCameraModel.FOCAL_LENGTH);
       ("div_undist_distortion", DivisionUndistortionCameraModel.RADIAL_DISTORTION_1);
       ("aspect_ratio", DivisionUndistortionCameraModel.ASPECT_RATIO)]
  | DOUBLE_SPHERE =>
      [("principal_pt_x", DoubleSphereCameraModel.PRINCIPAL_POINT_X);
       ("principal_pt_y", DoubleSphereCameraModel.PRINCIPAL_POINT_Y);
       ("focal_length", DoubleSphereCameraModel.FOCAL_LENGTH);
       ("xi", DoubleSphereCameraModel.XI);
       ("alpha", DoubleSphereCameraModel.ALPHA);
       ("aspect_ratio", DoubleSphereCameraModel.ASPECT_RATIO)]
  | EXTENDED_UNIFIED =>
      [("principal_pt_x", ExtendedUnifiedCameraModel.PRINCIPAL_POINT_X);
       ("principal_pt_y", ExtendedUnifiedCameraModel.PRINCIPAL_POINT_Y);
       ("focal_length", ExtendedUnifiedCameraModel.FOCAL_LENGTH);
       ("alpha", ExtendedUnifiedCameraModel.ALPHA);
       ("beta", ExtendedUnifiedCameraModel.BETA);
       ("aspect_ratio", ExtendedUnifiedCameraModel.ASPECT_RATIO)]
  end.

(** The image points of a frame by track id; of two points under one id the
    first counts. *)
Definition frame_observations (view : SceneView) : gmap nat Vector2d :=
  list_to_map ((λ ip : Z * Vector2d, (TrackId_of_int ip.1, ip.2))
                 <$> sv_image_points view).

(** No pose of the list is at a distance below [g], as computed, of one
    before it. *)
Definition separated `{Externals} (g : double) (poses : list Vector3d) : Prop :=
  ∀ i j p q, (i < j)%nat → poses !! i = Some p → poses !! j = Some q →
             dlt (Vector3d_distance q p) g = false.

(** The name the loop gives the view of a frame. *)
Definition frame_view_name `{Externals} (view : SceneView) : option Z :=
  view_name_of (double_mul (sv_key view) (1 # 1000000)).

(** The view of the frame gets a name, and no view of [r] has it. *)
Definition name_new `{Externals} (r : Reconstruction) (view : SceneView) : Prop :=
  ∃ n, frame_view_name view = Some n ∧ ¬ name_taken r n.

(** The views of the frames get names that differ from each other and from
    the names of the views of [r]. *)
Definition names_new `{Externals} (r : Reconstruction) (frames : list SceneView)
  : Prop :=
  NoDup (frame_view_name <$> frames) ∧
  ∀ view, view ∈ frames → name_new r view.


(** ** A concrete set of collaborators

    Simple stand-ins for the external parts, to run the model on concrete
    scenes: solvers that leave the dataset as it is, a projection without
    rotation and distortion, an estimator that needs four correspondences
    and places the camera at the first world point, a distance that is the
    Euclidean one for points that differ in one coordinate, and exact
    products. *)
Module Sample.

Definition create (t : CameraIntrinsicsModelType) : list double :=
  match t with
  | PINHOLE => [1; 1; 0; 0; 0; 0; 0]
  | PINHOLE_RADIAL_TANGENTIAL => [1; 1; 0; 0; 0; 0; 0; 0; 0; 0]
  | FISHEYE => [1; 1; 0; 0; 0; 0; 0; 0; 0]
  | DIVISION_UNDISTORTION => [1; 1; 0; 0; 0]
  | DOUBLE_SPHERE => [1; 1; 0; 0; 0; 0; 0]
  | EXTENDED_UNIFIED => [1; 1; 0; 0; 0; 0; 0]
  end%Q.

Definition project (cam : Camera) (p : Vector4d) : Vector2d :=
  let q := sub3 (hnormalized p) (cam_position cam) in
  V2 (FocalLength cam * (v3_x q / v3_z q) + PrincipalPointX cam)%Q
     (FocalLength cam * (v3_y q / v3_z q) + PrincipalPointY cam)%Q.

Definition pixel_distance (a b : Vector2d) : double :=
  (Qabs (v2_x a - v2_x b) + Qabs (v2_y a - v2_y b))%Q.

Definition distance (a b : Vector3d) : double :=
  let d := sub3 a b in
  (Qabs (v3_x d) + Qabs (v3_y d) + Qabs (v3_z d))%Q.

Definition first_world_point (cs : list FeatureCorrespondence2D3D) : Vector3d :=
  match cs with
  | [] => zero3
  | c :: _ => world_point c
  end.

Definition pinhole_estimate (cs : list FeatureCorrespondence2D3D)
    (p : RansacParameters) (verbose : bool) : PinholePose :=
  mkPinholePose (4 <=? length cs)%nat identity3 (first_world_point cs) 800.

Definition radial_estimate (cs : list FeatureCorrespondence2D3D)
    (p : RansacParameters) (size : Z * Z) (verbose : bool) : RadialPose :=
  mkRadialPose (4 <=? length cs)%nat identity3 (first_world_point cs) 800
               (- (1 # 10)).

#[export] Instance externals : Externals := {|
  CameraIntrinsicsModel_Create := create;
  default_ba_options :=
    mkBAOptions false TRIVIAL 10 1 false false
      (Z.lor OptimizeIntrinsicsType.FOCAL_LENGTH
             OptimizeIntrinsicsType.RADIAL_DISTORTION) false;
  hardware_concurrency := 4;
  BundleAdjustViews := λ _ _ r, r;
  BundleAdjustTracks := λ _ _ r, r;
  GetReprojErrorOfView := GetReprojErrorOfView_spec project pixel_distance;
  initialize_pinhole_camera := pinhole_estimate;
  initialize_radial_undistortion_camera := radial_estimate;
  scene_points_to_calib_dataset := λ _ r, r;
  write_camera_calibration := λ _ _ _ _ _, true;
  Vector3d_distance := distance;
  double_mul := Qmult
|}.

(** A pinhole camera at the origin of a 1920 x 1080 image, focal length
    800. *)
Definition camera0 : Camera :=
  mkCamera 1920 1080 zero3 identity3 PINHOLE [800; 1; 0; 960; 540; 0; 0]%Q.

(** The same camera of the radial-tangential kind, with three radial and
    two tangential coefficients. *)
Definition camera_rt : Camera :=
  mkCamera 1920 1080 zero3 identity3 PINHOLE_RADIAL_TANGENTIAL
    [800; 1; 0; 960; 540; 1 # 10; 2 # 10; 3 # 10; 4 # 10; 5 # 10]%Q.

(** A pinhole camera with a radial distortion of 0.1. *)
Definition camera_k1 : Camera :=
  mkCamera 1920 1080 zero3 identity3 PINHOLE [800; 1; 0; 960; 540; 1 # 10; 0]%Q.

(** One target point in front of the camera, seen exactly by view 0 and
    ten pixels off by view 1. *)
Definition two_views : Reconstruction :=
  mkRecon
    (<[1%nat := mkView 1 (1 # 1000000) true camera0 {[0%nat := V2 970 540]}]>
       {[0%nat := mkView 0 0 true camera0 {[0%nat := V2 960 540]}]})
    {[0%nat := V4 0 0 1 1]} 2.

Definition calibrator (camera_model : string) (min_num_view : nat)
    (r : Reconstruction) : CameraCalibrator :=
  set_dataset (λ _, r)
    (CameraCalibrator_new camera_model false min_num_view (1 # 100) false).

(** The board of the deduplication scene: the first two points are half a
    millimetre apart. *)
Definition board : Reconstruction :=
  mkRecon ∅
    (list_to_map [(0%nat, V4 0 0 0 1); (1%nat, V4 0 0 (1 # 2000) 1);
                  (2%nat, V4 1 0 0 1); (3%nat, V4 0 1 0 1);
                  (4%nat, V4 1 1 0 1)]) 0.

Definition frame_a : SceneView :=
  mkSceneView 1000000
    [(0%Z, V2 960 540); (2%Z, V2 1000 540); (3%Z, V2 960 580); (4%Z, V2 1000 580)].

Definition frame_b : SceneView :=
  mkSceneView 2000000
    [(1%Z, V2 960 540); (2%Z, V2 1000 540); (3%Z, V2 960 580); (4%Z, V2 1000 580)].

(** A frame with too few points for the estimator. *)
Definition frame_short : SceneView :=
  mkSceneView 1500000 [(2%Z, V2 1000 540); (3%Z, V2 960 580)].

Definition scene (frames : list SceneView) : SceneJson :=
  mkScene 1920 1080 30 frames.

(** The two views under a minimum of one, two and three views. *)
Definition calibrator_min1 : CameraCalibrator := calibrator "PINHOLE" 1 two_views.
Definition calibrator_min2 : CameraCalibrator := calibrator "PINHOLE" 2 two_views.
Definition calibrator_min3 : CameraCalibrator := calibrator "PINHOLE" 3 two_views.

(** The calibrator before the frames of the board are read. *)
Definition board_calibrator : CameraCalibrator := calibrator "PINHOLE" 1 board.

Definition dedup_scene : SceneJson := scene [frame_a; frame_b].
Definition mixed_frames : list SceneView := [frame_a; frame_short; frame_b].
Definition mixed_scene : SceneJson := scene mixed_frames.


(** A frame with a point of a target point the board does not have. *)
Definition frame_unknown : SceneView :=
  mkSceneView 3000000
    [(0%Z, V2 960 540); (2%Z, V2 1000 540); (3%Z, V2 960 580); (9%Z, V2 1000 580)].

(** A frame away from the first one whose key, half a microsecond later,
    gives the view name of the first. *)
Definition frame_same_name : SceneView :=
  mkSceneView (2000001 # 2)
    [(2%Z, V2 960 540); (3%Z, V2 1000 540); (4%Z, V2 960 580); (0%Z, V2 1000 580)].

Definition same_name_scene : SceneJson := scene [frame_a; frame_same_name].

(** A frame whose corners are all at the image centre, and the outcome of
    the calibration of the scene with that frame (a failure without views
    should the call not return). *)
Definition frame_center : SceneView :=
  mkSceneView 4000000
    [(0%Z, V2 960 540); (2%Z, V2 960 540); (3%Z, V2 960 540); (4%Z, V2 960 540)].

Definition center_scene : SceneJson := scene [frame_center].

Definition center_outcome : bool * CameraCalibrator * list Event :=
  default (false, board_calibrator, [])
          (CalibrateCameraFromJson center_scene "out" board_calibrator).

(** The fisheye camera of the calibration file below. *)
Definition fisheye_camera : Camera :=
  mkCamera 1920 1080 zero3 identity3 FISHEYE
    [800; 1; 0; 960; 540; 1 # 10; 2 # 10; 3 # 10; 4 # 10]%Q.

(** A calibration file of a fisheye camera. *)
Definition fisheye_json : CalibrationJson :=
  mkCalibrationJson (Some "FISHEYE") (Some 1920%Z) (Some 1080%Z) (Some 30%Q)
    (list_to_map [("principal_pt_x", 960); ("principal_pt_y", 540);
                  ("focal_length", 800); ("aspect_ratio", 1);
                  ("radial_distortion_1", 1 # 10); ("radial_distortion_2", 2 # 10);
                  ("radial_distortion_3", 3 # 10); ("radial_distortion_4", 4 # 10)]%Q).

(** The loop state after the three frames (the start state should the loop
    not return). *)
Definition mixed_result : Ingest :=
  default (mkIngest board_calibrator [] 0)
    (InitializeViews mixed_scene (mkIngest board_calibrator [] 0) mixed_frames).

(** The loop state after the turn of the first frame of the deduplication
    scene (the start state should the turn not return). *)
Definition frame_a_result : Ingest :=
  default (mkIngest board_calibrator [] 0)
    (InitializeView dedup_scene (mkIngest board_calibrator [] 0) frame_a).


End Sample.

(** Rewrites the test of a conditional of the goal with an equation about a
    convertible test. *)
Ltac use_gate E :=
  match goal with
  | |- context [if ?b then _ else _] =>
      let E' := fresh in
      assert (E' : b = _) by exact E; rewrite E'; clear E'
  end; cbv beta iota zeta.

Section RunCalibration_facts.
Context {ext : Externals}.

Lemma RunCalibration_unfold (c : CameraCalibrator) :
  RunCalibration c =
  if (NumViews (recon_calib_dataset_ c) <? min_num_view_ c)%nat
  then (false, c, [])
  else if (NumViews (recon_calib_dataset_ (after_stage2 c)) <? min_num_view_ c)%nat
  then (false, after_stage2 c, trace_stage12 c)
  else if (NumViews (recon_calib_dataset_ (after_stage3 c)) <? min_num_view_ c)%nat
  then (false, after_stage3 c, trace_stage12 c ++ trace_stage3 c)
  else if optimize_board_pts_ c
  then (true, after_board c, trace_stage12 c ++ trace_stage3 c ++ trace_board c)
  else (true, after_stage3 c, trace_stage12 c ++ trace_stage3 c).
Proof.
  unfold RunCalibration.
  cbv [mbind Run_bind mret Run_ret not_enough_views get_calibrator
       call_BundleAdjustViews call_RemoveViewsReprojError call_BundleAdjustTracks].
  cbv beta iota zeta.
  destruct (NumViews (recon_calib_dataset_ c) <? min_num_view_ c)%nat eqn:E0;
    [reflexivity|].
  cbv beta iota zeta.
  destruct (NumViews (recon_calib_dataset_ (after_stage2 c)) <? min_num_view_ c)%nat
    eqn:E1.
  { use_gate E1. reflexivity. }
  use_gate E1.
  destruct (NumViews (recon_calib_dataset_ (after_stage3 c)) <? min_num_view_ c)%nat
    eqn:E2.
  { use_gate E2. reflexivity. }
  use_gate E2.
  destruct (optimize_board_pts_ c) eqn:E3; reflexivity.
Qed.

Lemma NumViews_dom (r r' : Reconstruction) :
  dom (views r) = dom (views r') → NumViews r = NumViews r'.
Proof.
  intros Hd. unfold NumViews.
  rewrite <- (size_dom (views r)), <- (size_dom (views r')).
  by rewrite Hd.
Qed.

Lemma NumViews_after_stage2 (Hkeep : solvers_keep_views) (c : CameraCalibrator) :
  NumViews (recon_calib_dataset_ (after_stage2 c)) =
  NumViews (recon_calib_dataset_ (after_stage1 c)).
Proof. apply NumViews_dom, Hkeep. Qed.

Lemma NumViews_after_board (Hkeep : solvers_keep_views) (c : CameraCalibrator) :
  NumViews (recon_calib_dataset_ (after_board c)) =
  NumViews (recon_calib_dataset_ (after_stage3 c)).
Proof.
  destruct Hkeep as [Hv Ht].
  apply NumViews_dom. unfold after_board, after_board_tracks. simpl.
  by rewrite Hv, Ht.
Qed.

(** A successful run leaves at least the minimum number of views. *)
Lemma RunCalibration_success_views (Hkeep : solvers_keep_views)
    (c c' : CameraCalibrator) (tr : list Event) :
  RunCalibration c = (true, c', tr) →
  (min_num_view_ c ≤ NumViews (recon_calib_dataset_ c'))%nat.
Proof.
  rewrite RunCalibration_unfold.
  repeat case_match; intros [= <- <-]; try discriminate.
  - rewrite NumViews_after_board by done.
    by apply Nat.ltb_ge.
  - by apply Nat.ltb_ge.
Qed.




(** With a view in the dataset the first view id resolves. *)
Lemma FirstViewCamera_defined (r : Reconstruction) :
  (1 ≤ NumViews r)%nat →
  ∃ v_id view, ViewIds r !! 0%nat = Some v_id ∧ GetView r v_id = Some view ∧
               FirstViewCamera r = Some (view_camera view).
Proof.
  unfold NumViews, FirstViewCamera, ViewIds, GetView. intros Hn.
  rewrite <- length_map_to_list in Hn.
  destruct (map_to_list (views r)) as [|[k v] l] eqn:El; [simpl in Hn; lia|].
  assert (Hk : views r !! k = Some v).
  { apply elem_of_map_to_list. rewrite El. left. }
  exists k, v. simpl. rewrite Hk. done.
Qed.

(** What [PrintResult] prints is a function of the camera model name and of
    the camera of the first view. *)
Lemma PrintResult_first_view (c1 c2 : CameraCalibrator) :
  camera_model_ c1 = camera_model_ c2 →
  FirstViewCamera (recon_calib_dataset_ c1) = FirstViewCamera (recon_calib_dataset_ c2) →
  PrintResult c1 = PrintResult c2.
Proof. unfold PrintResult. by intros -> ->. Qed.

(** The camera [ReportCalibration] hands to the writer is the one of the
    first view. *)
Lemma ReportCalibration_camera (scene_json : SceneJson) (output_path : string)
    (c : CameraCalibrator) (evs : list Event) (p : string) (cam : Camera)
    (fps : double) (n : nat) (e : double) :
  ReportCalibration scene_json output_path c = Some evs →
  EvWriteCameraCalibration p cam fps n e ∈ evs →
  FirstViewCamera (recon_calib_dataset_ c) = Some cam.
Proof.
  unfold ReportCalibration.
  destruct (FirstViewCamera (recon_calib_dataset_ c)) as [cam0|]; [|done].
  simpl. repeat case_match; intros [= <-]; intros Hin.
  - apply elem_of_cons in Hin as [Hin|Hin]; [discriminate|].
    apply elem_of_cons in Hin as [Hin|Hin]; [by injection Hin as -> -> -> -> ->|].
    apply elem_of_cons in Hin as [Hin|Hin]; [discriminate|].
    by apply elem_of_nil in Hin.
  - by apply elem_of_nil in Hin.
Qed.

(** C2.  When the dataset has fewer views than the minimum at the start,
    [RunCalibration] returns [false], the calibrator (every view with its
    pose and camera parameters) is as before, and no solver or pruning call
    has been made. *)
Theorem too_few_views_fails_untouched (c : CameraCalibrator) :
  (NumViews (recon_calib_dataset_ c) < min_num_view_ c)%nat →
  RunCalibration c = (false, c, []).
Proof.
  intros Hlt. rewrite RunCalibration_unfold.
  apply Nat.ltb_lt in Hlt. by rewrite Hlt.
Qed.

(** C1 (amended).  [RunCalibration] tests the number of views against the
    minimum three times: before the first stage, after the stage-2
    refinement that follows the pruning sweep at 5.0 px, and right after the
    pruning sweep at 2.0 px.  A failed test returns [false] at once and no
    later stage runs.  When the sweep at 5.0 px leaves fewer views than the
    minimum, the stage-2 refinement has run by the time failure is returned,
    and stage 3 has not. *)
Theorem min_view_gates (Hkeep : solvers_keep_views) (c : CameraCalibrator) :
  let min := min_num_view_ c in
  let m := camera_model_ c in
  let n0 := NumViews (recon_calib_dataset_ c) in
  let n1 := NumViews (recon_calib_dataset_ (after_stage1 c)) in
  let n3 := NumViews (recon_calib_dataset_ (after_stage3 c)) in
  ((n0 < min)%nat → RunCalibration c = (false, c, [])) ∧
  ((min ≤ n0)%nat → (n1 < min)%nat →
   RunCalibration c =
   (false, after_stage2 c,
    [EvBundleAdjustViews (ba_options_stage1 m) (ViewIds (recon_calib_dataset_ c));
     EvRemoveViewsReprojError 5;
     EvBundleAdjustViews (ba_options_stage2 m)
       (ViewIds (recon_calib_dataset_ (after_stage1 c)))])) ∧
  ((min ≤ n0)%nat → (min ≤ n1)%nat → (n3 < min)%nat →
   RunCalibration c =
   (false, after_stage3 c,
    [EvBundleAdjustViews (ba_options_stage1 m) (ViewIds (recon_calib_dataset_ c));
     EvRemoveViewsReprojError 5;
     EvBundleAdjustViews (ba_options_stage2 m)
       (ViewIds (recon_calib_dataset_ (after_stage1 c)));
     EvBundleAdjustViews (ba_options_stage3 m)
       (ViewIds (recon_calib_dataset_ (after_stage2 c)));
     EvRemoveViewsReprojError 2])) ∧
  ((min ≤ n0)%nat → (min ≤ n1)%nat → (min ≤ n3)%nat →
   ∃ c' tr, RunCalibration c = (true, c', tr)).
Proof.
  intros min m n0 n1 n3. subst min m n0 n1 n3.
  rewrite RunCalibration_unfold, NumViews_after_stage2 by done.
  repeat split.
  - intros Hlt. apply Nat.ltb_lt in Hlt. by rewrite Hlt.
  - intros H0 H1. apply Nat.ltb_ge in H0. apply Nat.ltb_lt in H1.
    by rewrite H0, H1.
  - intros H0 H1 H3. apply Nat.ltb_ge in H0, H1. apply Nat.ltb_lt in H3.
    by rewrite H0, H1, H3.
  - intros H0 H1 H3. apply Nat.ltb_ge in H0, H1, H3.
    rewrite H0, H1, H3. destruct (optimize_board_pts_ c); eauto.
Qed.


(** C10.  [PrintResult] and the report after the calibration read the
    camera of the first view id of the dataset and nothing else.  With a
    view in the dataset that read is defined.  After a successful
    [RunCalibration] the dataset has at least the minimum number of views,
    so with a minimum of at least one the read is defined. *)
Theorem first_view_camera_defined (Hkeep : solvers_keep_views)
    (c c' : CameraCalibrator) (tr : list Event) :
  RunCalibration c = (true, c', tr) →
  (min_num_view_ c ≤ NumViews (recon_calib_dataset_ c'))%nat ∧
  ((1 ≤ min_num_view_ c)%nat → (1 ≤ NumViews (recon_calib_dataset_ c'))%nat) ∧
  (∀ d : CameraCalibrator,
     (1 ≤ NumViews (recon_calib_dataset_ d))%nat →
     ∃ v_id view,
       ViewIds (recon_calib_dataset_ d) !! 0%nat = Some v_id ∧
       GetView (recon_calib_dataset_ d) v_id = Some view ∧
       FirstViewCamera (recon_calib_dataset_ d) = Some (view_camera view) ∧
       is_Some (PrintResult d) ∧
       (∀ d', camera_model_ d' = camera_model_ d →
              FirstViewCamera (recon_calib_dataset_ d') = Some (view_camera view) →
              PrintResult d' = PrintResult d) ∧
       (∀ scene_json output_path evs p cam fps n e,
          ReportCalibration scene_json output_path d = Some evs →
          EvWriteCameraCalibration p cam fps n e ∈ evs →
          cam = view_camera view)).
Proof.
  intros Hrun.
  pose proof (RunCalibration_success_views Hkeep _ _ _ Hrun) as Hmin.
  split; [done|]. split; [lia|].
  intros d Hd.
  destruct (FirstViewCamera_defined _ Hd) as (v_id & view & Hid & Hview & Hcam).
  exists v_id, view. repeat split; try done.
  - unfold PrintResult. rewrite Hcam. by eexists.
  - intros d' Hm Hc. apply PrintResult_first_view; congruence.
  - intros scene_json output_path evs p cam fps n e Hrep Hin.
    pose proof (ReportCalibration_camera _ _ _ _ _ _ _ _ _ Hrep Hin). congruence.
Qed.

End RunCalibration_facts.

Section Pruning_facts.
Context {ext : Externals}.

Lemma elem_of_ViewIds (r : Reconstruction) (k : nat) :
  k ∈ ViewIds r ↔ is_Some (views r !! k).
Proof.
  unfold ViewIds. rewrite list_elem_of_fmap. split.
  - intros [[k' v] [-> Hin]]. apply elem_of_map_to_list in Hin. by eexists.
  - intros [v Hv]. exists (k, v). split; [done|]. by apply elem_of_map_to_list.
Qed.

(** The first loop of the sweep, on any list of ids and any start. *)
Lemma condemn_lookup (max_reproj_error : double) (r : Reconstruction)
    (l : list nat) (acc : gmap nat Q) (k : nat) :
  foldl (λ acc v_id,
           let view_reproj_error := GetReprojErrorOfView r v_id in
           if dgt view_reproj_error max_reproj_error
           then <[v_id := view_reproj_error]> acc else acc) acc l !! k =
  if decide (k ∈ l ∧ dgt (GetReprojErrorOfView r k) max_reproj_error = true)
  then Some (GetReprojErrorOfView r k) else acc !! k.
Proof.
  revert acc. induction l as [|x l IH]; intros acc; cbn [foldl].
  - case_decide as Hc; [|done]. destruct Hc as [Hc _]. by apply elem_of_nil in Hc.
  - rewrite IH. clear IH.
    destruct (decide (k ∈ l ∧ dgt (GetReprojErrorOfView r k) max_reproj_error = true))
      as [[Hin Hc]|Hn].
    { rewrite decide_True; [done|]. split; [by apply list_elem_of_further|done]. }
    destruct (decide (k = x)) as [->|Hne].
    + destruct (dgt (GetReprojErrorOfView r x) max_reproj_error) eqn:Ex.
      * rewrite lookup_insert_eq, decide_True; [done|].
        split; [apply list_elem_of_here|done].
      * rewrite decide_False; [done|]. intros [_ ?]. congruence.
    + rewrite decide_False.
      2:{ intros [Hin Hc]. apply Hn. split; [|done].
          apply elem_of_cons in Hin as [?|?]; done. }
      destruct (dgt (GetReprojErrorOfView r x) max_reproj_error);
        [by rewrite lookup_insert_ne|done].
Qed.

(** A view is condemned exactly when it is in the dataset and its error
    exceeds the bound. *)
Lemma ids_to_remove_lookup (max_reproj_error : double) (r : Reconstruction) (k : nat) :
  ids_to_remove max_reproj_error r !! k =
  if decide (is_Some (views r !! k) ∧
             dgt (GetReprojErrorOfView r k) max_reproj_error = true)
  then Some (GetReprojErrorOfView r k) else None.
Proof.
  unfold ids_to_remove. rewrite condemn_lookup, lookup_empty.
  destruct (decide (is_Some (views r !! k) ∧
                    dgt (GetReprojErrorOfView r k) max_reproj_error = true))
    as [[Hin Hc]|Hn].
  - rewrite decide_True; [done|]. by rewrite elem_of_ViewIds.
  - rewrite decide_False; [done|]. by rewrite elem_of_ViewIds.
Qed.

(** [RemoveView] on the views, the next id and the tracks: a track goes
    exactly when a view observed it before and none does after. *)
Lemma RemoveView_views (id : nat) (r : Reconstruction) :
  views (RemoveView id r) = delete id (views r).
Proof.
  unfold RemoveView. destruct (views r !! id) eqn:E; [done|].
  symmetry. by apply delete_id.
Qed.

Lemma RemoveView_next (id : nat) (r : Reconstruction) :
  next_view_id (RemoveView id r) = next_view_id r.
Proof. unfold RemoveView. by destruct (views r !! id). Qed.

Lemma observed_mono (vs vs' : gmap nat View) (t : nat) :
  vs' ⊆ vs → observed vs' t → observed vs t.
Proof.
  intros Hsub (k & v & Hk & Hv)%map_Exists_lookup. apply map_Exists_lookup.
  exists k, v. split; [|done]. by eapply lookup_weaken.
Qed.

Lemma RemoveView_tracks (id : nat) (r : Reconstruction) (t : nat) :
  tracks (RemoveView id r) !! t =
  if decide (observed (views r) t ∧ ¬ observed (views (RemoveView id r)) t)
  then None else tracks r !! t.
Proof.
  unfold RemoveView. destruct (views r !! id) as [v|] eqn:E.
  2:{ rewrite decide_False; [done|]. tauto. }
  cbn [tracks views].
  destruct (decide (observed (views r) t ∧ ¬ observed (delete id (views r)) t))
    as [[Ho Hn]|Hd].
  - apply map_lookup_filter_None_2. right. intros p _ HP. cbn in HP. apply HP.
    split; [|done].
    apply map_Exists_lookup in Ho as (k & w & Hk & Hw).
    destruct (decide (k = id)) as [->|Hne]; [congruence|].
    exfalso. apply Hn, map_Exists_lookup. exists k, w.
    by rewrite lookup_delete_ne.
  - destruct (tracks r !! t) as [p|] eqn:Et.
    + apply map_lookup_filter_Some_2; [done|]. cbn. intros [Hf Hn].
      apply Hd. split; [|done]. apply map_Exists_lookup. by exists id, v.
    + apply map_lookup_filter_None_2. by left.
Qed.

(** Two removals in a row drop the tracks one removal to the same views
    drops. *)
Lemma dropped_compose (r r1 r2 : Reconstruction) (t : nat) :
  views r2 ⊆ views r1 → views r1 ⊆ views r →
  tracks r1 !! t =
    (if decide (observed (views r) t ∧ ¬ observed (views r1) t)
     then None else tracks r !! t) →
  tracks r2 !! t =
    (if decide (observed (views r1) t ∧ ¬ observed (views r2) t)
     then None else tracks r1 !! t) →
  tracks r2 !! t =
    if decide (observed (views r) t ∧ ¬ observed (views r2) t)
    then None else tracks r !! t.
Proof.
  intros H21 H10 E1 E2. rewrite E2, E1. clear E1 E2.
  pose proof (observed_mono _ _ t H21) as M21.
  pose proof (observed_mono _ _ t H10) as M10.
  destruct (decide (observed (views r) t)) as [O|O],
           (decide (observed (views r1) t)) as [O1|O1],
           (decide (observed (views r2) t)) as [O2|O2];
    repeat case_decide; try done; exfalso; tauto.
Qed.

(** The second loop of the sweep. *)
Lemma remove_views_lookup (l : list (nat * Q)) (r : Reconstruction) (k : nat) :
  views (foldl (λ r' v_id, RemoveView v_id.1 r') r l) !! k =
  if decide (k ∈ l.*1) then None else views r !! k.
Proof.
  revert r. induction l as [|[x e] l IH]; intros r; cbn [foldl].
  - case_decide as Hc; [by apply elem_of_nil in Hc|done].
  - rewrite IH. clear IH. rewrite fmap_cons, RemoveView_views. cbn [fst].
    destruct (decide (k ∈ l.*1)) as [Hin|Hn].
    { rewrite decide_True; [done|]. by apply list_elem_of_further. }
    destruct (decide (k = x)) as [->|Hne].
    + rewrite lookup_delete_eq, decide_True; [done|]. apply list_elem_of_here.
    + rewrite lookup_delete_ne by done. rewrite decide_False; [done|].
      intros Hin. apply elem_of_cons in Hin as [?|?]; done.
Qed.

Lemma remove_views_subseteq (l : list (nat * Q)) (r : Reconstruction) :
  views (foldl (λ r' v_id, RemoveView v_id.1 r') r l) ⊆ views r.
Proof.
  apply map_subseteq_spec. intros k v. rewrite remove_views_lookup.
  by case_decide.
Qed.

Lemma remove_views_next (l : list (nat * Q)) (r : Reconstruction) :
  next_view_id (foldl (λ r' v_id, RemoveView v_id.1 r') r l) = next_view_id r.
Proof.
  revert r. induction l as [|x l IH]; intros r; cbn [foldl]; [done|].
  by rewrite IH, RemoveView_next.
Qed.

Lemma remove_views_tracks (l : list (nat * Q)) (r : Reconstruction) (t : nat) :
  tracks (foldl (λ r' v_id, RemoveView v_id.1 r') r l) !! t =
  if decide (observed (views r) t ∧
             ¬ observed (views (foldl (λ r' v_id, RemoveView v_id.1 r') r l)) t)
  then None else tracks r !! t.
Proof.
  revert r. induction l as [|x l IH]; intros r; cbn [foldl].
  - rewrite decide_False; [done|]. tauto.
  - apply (dropped_compose r (RemoveView x.1 r)).
    + apply remove_views_subseteq.
    + rewrite RemoveView_views. apply delete_subseteq.
    + apply RemoveView_tracks.
    + apply IH.
Qed.

(** The sweep keeps exactly the views whose error does not exceed the
    bound. *)
Lemma RemoveViewsReprojError_lookup (max_reproj_error : double)
    (c : CameraCalibrator) (k : nat) :
  views (recon_calib_dataset_ (RemoveViewsReprojError max_reproj_error c)) !! k =
  if dgt (GetReprojErrorOfView (recon_calib_dataset_ c) k) max_reproj_error
  then None else views (recon_calib_dataset_ c) !! k.
Proof.
  unfold RemoveViewsReprojError. simpl. rewrite remove_views_lookup.
  set (r := recon_calib_dataset_ c).
  assert (Hin : k ∈ (map_to_list (ids_to_remove max_reproj_error r)).*1 ↔
                is_Some (ids_to_remove max_reproj_error r !! k)).
  { rewrite list_elem_of_fmap. split.
    - intros [[k' v] [-> Hin]]. apply elem_of_map_to_list in Hin. by eexists.
    - intros [v Hv]. exists (k, v). split; [done|]. by apply elem_of_map_to_list. }
  rewrite ids_to_remove_lookup in Hin.
  destruct (decide (k ∈ (map_to_list (ids_to_remove max_reproj_error r)).*1))
    as [Hc|Hc].
  - apply Hin in Hc. case_decide as Hd; [|by destruct Hc].
    destruct Hd as [_ ->]. done.
  - destruct (dgt (GetReprojErrorOfView r k) max_reproj_error) eqn:Ek; [|done].
    destruct (views r !! k) eqn:Ev; [|done].
    exfalso. apply Hc, Hin. rewrite decide_True; [by eexists|].
    split; [by eexists|done].
Qed.

Lemma RemoveViewsReprojError_subseteq (max_reproj_error : double)
    (c : CameraCalibrator) :
  views (recon_calib_dataset_ (RemoveViewsReprojError max_reproj_error c)) ⊆
  views (recon_calib_dataset_ c).
Proof. unfold RemoveViewsReprojError. simpl. apply remove_views_subseteq. Qed.

(** The sweep drops a track exactly when a view observed it before and none
    does after. *)
Lemma RemoveViewsReprojError_tracks (max_reproj_error : double) (c : CameraCalibrator)
    (t : nat) :
  let r := recon_calib_dataset_ c in
  let r' := recon_calib_dataset_ (RemoveViewsReprojError max_reproj_error c) in
  tracks r' !! t =
  if decide (observed (views r) t ∧ ¬ observed (views r') t)
  then None else tracks r !! t.
Proof. unfold RemoveViewsReprojError. simpl. apply remove_views_tracks. Qed.

(** The tracks a view that stays observes stay with it. *)
Lemma RemoveViewsReprojError_observed (max_reproj_error : double)
    (c : CameraCalibrator) (k t : nat) (v : View) :
  let r := recon_calib_dataset_ c in
  let r' := recon_calib_dataset_ (RemoveViewsReprojError max_reproj_error c) in
  views r' !! k = Some v → is_Some (view_features v !! t) →
  Track r' t = Track r t.
Proof.
  intros r r' Hk Ht. unfold Track.
  pose proof (RemoveViewsReprojError_tracks max_reproj_error c t) as E.
  cbv zeta in E. fold r r' in E. rewrite E.
  rewrite decide_False; [done|]. intros [_ Hn]. apply Hn, map_Exists_lookup.
  by exists k, v.
Qed.

(** A sweep that condemns nothing leaves the calibrator as it is. *)
Lemma RemoveViewsReprojError_nothing (max_reproj_error : double) (c : CameraCalibrator) :
  ids_to_remove max_reproj_error (recon_calib_dataset_ c) = ∅ →
  RemoveViewsReprojError max_reproj_error c = c.
Proof.
  intros He. unfold RemoveViewsReprojError, set_dataset.
  rewrite He, map_to_list_empty. by destruct c.
Qed.

(** C7.  When the error of a view depends on that view and on the tracks it
    observes only, a second sweep with the same bound, right after the
    first, condemns no view: it leaves the calibrator as the first sweep
    left it, with the same number of views. *)
Theorem pruning_idempotent (Hlocal : reproj_error_local)
    (max_reproj_error : double) (c : CameraCalibrator) :
  let c1 := RemoveViewsReprojError max_reproj_error c in
  ids_to_remove max_reproj_error (recon_calib_dataset_ c1) = ∅ ∧
  RemoveViewsReprojError max_reproj_error c1 = c1 ∧
  NumViews (recon_calib_dataset_ (RemoveViewsReprojError max_reproj_error c1)) =
  NumViews (recon_calib_dataset_ c1).
Proof.
  intros c1.
  assert (He : ids_to_remove max_reproj_error (recon_calib_dataset_ c1) = ∅).
  { apply map_eq. intros k. rewrite lookup_empty, ids_to_remove_lookup.
    case_decide as Hc; [|done]. exfalso. destruct Hc as [[view Hview] Hgt].
    pose proof (RemoveViewsReprojError_lookup max_reproj_error c k) as Hk.
    fold c1 in Hk. rewrite Hview in Hk.
    assert (Herr : GetReprojErrorOfView (recon_calib_dataset_ c1) k =
                   GetReprojErrorOfView (recon_calib_dataset_ c) k).
    { apply Hlocal.
      - unfold GetView. rewrite Hview.
        by destruct (dgt (GetReprojErrorOfView (recon_calib_dataset_ c) k)
                         max_reproj_error).
      - intros w t Hw Ht.
        apply (RemoveViewsReprojError_observed max_reproj_error c k t w); [|done].
        exact Hw. }
    rewrite Herr in Hgt. by rewrite Hgt in Hk. }
  split; [done|].
  rewrite (RemoveViewsReprojError_nothing _ _ He). done.
Qed.

End Pruning_facts.

Section Reporter_and_reader_facts.
Context {ext : Externals}.

(** C4.  For a calibrator of the kind PINHOLE_RADIAL_TANGENTIAL,
    [PrintResult] prints the focal length and the principal point of the
    first view's camera and stops there: the branch with the three radial
    and two tangential coefficients is guarded by the name
    PINHOLE_DISTORTION.  On a camera with the coefficients 0.1 to 0.5 the
    output holds the numbers 800, 960 and 540 only. *)
Theorem PrintResult_radial_tangential (o : bool) (rp : RansacParameters)
    (r : Reconstruction) (n : nat) (g : double) (v : bool) :
  PrintResult (mkCalibrator "PINHOLE_RADIAL_TANGENTIAL" o rp r n g v) =
  (cam ← FirstViewCamera r;
   Some [Txt "Focal Length:"; Num (FocalLength cam); Txt "px Principal Point: ";
         Num (PrincipalPointX cam); Txt "/"; Num (PrincipalPointY cam);
         Txt ("px." +:+ endl)]) ∧
  PrintResult (mkCalibrator "PINHOLE_RADIAL_TANGENTIAL" o rp
                 (mkRecon {[0%nat := mkView 0 0 true Sample.camera_rt ∅]} ∅ 1) n g v) =
  Some [Txt "Focal Length:"; Num 800; Txt "px Principal Point: ";
        Num 960; Txt "/"; Num 540; Txt ("px." +:+ endl)].
Proof.
  split; [|reflexivity].
  unfold PrintResult. simpl. destruct (FirstViewCamera r); reflexivity.
Qed.

Lemma StringToCameraIntrinsicsModelType_PINHOLE (s : string) :
  StringToCameraIntrinsicsModelType s = Some PINHOLE → s = "PINHOLE".
Proof.
  unfold StringToCameraIntrinsicsModelType.
  destruct (String.eqb s "PINHOLE") eqn:E; [by apply String.eqb_eq in E|].
  repeat case_match; discriminate.
Qed.

(** The kind of the camera the reader hands back is the one the file
    names. *)
Lemma read_camera_calibration_kind (j : CalibrationJson) (camera camera' : Camera)
    (fps fps' : double) :
  read_camera_calibration (Some j) camera fps = Some (true, camera', fps') →
  ∃ s, intrinsic_type j = Some s ∧
       StringToCameraIntrinsicsModelType s = Some (cam_model_type camera').
Proof.
  unfold read_camera_calibration.
  destruct (intrinsic_type j) as [s|]; [|done]. cbn [mbind option_bind].
  intros Heq. exists s. split; [done|]. revert Heq.
  destruct (StringToCameraIntrinsicsModelType s) as [t|]; [|done].
  assert (Ht : cam_model_type (SetCameraIntrinsicsModelType t camera) = t).
  { unfold SetCameraIntrinsicsModelType. by case_decide. }
  cbn [mbind option_bind]. intros Heq.
  repeat case_match; simplify_option_eq; cbn; by rewrite Ht.
Qed.

(** For a file of the kind PINHOLE the reader writes the principal point,
    the focal length and the aspect ratio; the two radial distortion
    parameters stay as the camera had them before the call. *)
Lemma read_camera_calibration_pinhole (j : CalibrationJson) (camera camera' : Camera)
    (fps fps' : double) :
  intrinsic_type j = Some "PINHOLE" →
  read_camera_calibration (Some j) camera fps = Some (true, camera', fps') →
  intrinsics_at camera' PinholeCameraModel.RADIAL_DISTORTION_1 =
    intrinsics_at (SetCameraIntrinsicsModelType PINHOLE camera)
                  PinholeCameraModel.RADIAL_DISTORTION_1 ∧
  intrinsics_at camera' PinholeCameraModel.RADIAL_DISTORTION_2 =
    intrinsics_at (SetCameraIntrinsicsModelType PINHOLE camera)
                  PinholeCameraModel.RADIAL_DISTORTION_2.
Proof.
  intros Ht. unfold read_camera_calibration. rewrite Ht. cbn [mbind option_bind].
  assert (Hk : cam_model_type (SetCameraIntrinsicsModelType PINHOLE camera) = PINHOLE).
  { unfold SetCameraIntrinsicsModelType. by case_decide. }
  change (StringToCameraIntrinsicsModelType "PINHOLE") with (Some PINHOLE).
  cbn [mbind option_bind]. intros Heq.
  repeat case_match; simplify_option_eq.
  unfold intrinsics_at, SetParameter, SetFocalLength, SetPrincipalPoint, SetImageSize,
    set_intrinsics; cbn [cam_intrinsics cam_model_type]. rewrite Hk.
  cbn. rewrite !list_lookup_insert_ne by done. done.
Qed.

(** A pinhole camera whose radial distortion differs from the one of the
    camera handed to the reader is not what the reader hands back, whatever
    the file. *)
Lemma read_camera_calibration_not_pinhole_radial (j : CalibrationJson)
    (camera cam : Camera) (fps fps' : double) :
  cam_model_type cam = PINHOLE →
  intrinsics_at cam PinholeCameraModel.RADIAL_DISTORTION_1 ≠
    intrinsics_at (SetCameraIntrinsicsModelType PINHOLE camera)
                  PinholeCameraModel.RADIAL_DISTORTION_1 →
  read_camera_calibration (Some j) camera fps ≠ Some (true, cam, fps').
Proof.
  intros Hkind Hne Hread.
  destruct (read_camera_calibration_kind _ _ _ _ _ Hread) as (s & Hs & Hk).
  rewrite Hkind in Hk. apply StringToCameraIntrinsicsModelType_PINHOLE in Hk.
  subst s. rename Hs into Hk.
  by destruct (read_camera_calibration_pinhole _ _ _ _ _ Hk Hread) as [H1 _].
Qed.

End Reporter_and_reader_facts.

(** C5.  No calibration file loads into a fresh camera as the pinhole camera
    with radial distortion 0.1: a file of the kind PINHOLE leaves the radial
    distortion of the fresh camera, and a file of another kind gives another
    kind.  So whatever the writer stores, the round trip loses the radial
    distortion that stage 3 optimizes for the kind PINHOLE. *)
Theorem read_loses_pinhole_radial_distortion (j : CalibrationJson) (fps fps' : double) :
  read_camera_calibration (H := Sample.externals) (Some j)
    (NewCamera (H := Sample.externals)) fps ≠
  Some (true, Sample.camera_k1, fps').
Proof.
  apply read_camera_calibration_not_pinhole_radial; [reflexivity|].
  vm_compute. discriminate.
Qed.

Section Ingestion_facts.
Context {ext : Externals}.

Lemma InitializePose_dispatch (m : string) (cs : list FeatureCorrespondence2D3D)
    (rp : RansacParameters) (w h : Z) (v : bool) :
  InitializePose m cs rp w h v =
  if bool_decide (m = "PINHOLE" ∨ m = "PINHOLE_RADIAL_TANGENTIAL")
  then pinhole_pose (initialize_pinhole_camera cs rp v)
  else radial_pose (initialize_radial_undistortion_camera cs rp (w, h) v).
Proof.
  unfold InitializePose.
  destruct (String.eqb m "PINHOLE") eqn:E1;
    [apply String.eqb_eq in E1 | apply String.eqb_neq in E1];
  (destruct (String.eqb m "PINHOLE_RADIAL_TANGENTIAL") eqn:E2;
    [apply String.eqb_eq in E2 | apply String.eqb_neq in E2]); cbn [orb].
  1-3: rewrite bool_decide_eq_true_2 by tauto; reflexivity.
  rewrite bool_decide_eq_false_2 by tauto. by case_match.
Qed.

(** C8.  For every frame the threshold of the RANSAC parameters is set to
    0.003 times the image height, and the estimate comes from the pinhole
    initializer, without a distortion term, for the kinds PINHOLE and
    PINHOLE_RADIAL_TANGENTIAL, and from the radial undistortion initializer,
    with its one distortion term, for every other kind. *)
Theorem pose_initializer_dispatch (scene_json : SceneJson) (c : CameraCalibrator)
    (view : SceneView) :
  let w := scene_image_width scene_json in
  let h := scene_image_height scene_json in
  let m := camera_model_ c in
  let rp := set_error_thresh ((3 # 1000) * inject_Z h)%Q (ransac_params_ c) in
  error_thresh rp = ((3 # 1000) * inject_Z h)%Q ∧
  (∀ cs,
     mapM (make_correspondence (recon_calib_dataset_ c)
             (inject_Z w / 2)%Q (inject_Z h / 2)%Q) (sv_image_points view) = Some cs →
     EstimateView scene_json c view =
     Some (set_ransac (λ _, rp) c,
           if bool_decide (m = "PINHOLE" ∨ m = "PINHOLE_RADIAL_TANGENTIAL")
           then pinhole_pose (initialize_pinhole_camera cs rp (verbose_ c))
           else radial_pose
                  (initialize_radial_undistortion_camera cs rp (w, h) (verbose_ c)))) ∧
  (∀ p, radial_distortion (pinhole_pose p) = 0%Q) ∧
  (∀ p, radial_distortion (radial_pose p) = rp_radial_distortion p) ∧
  (∀ k : string,
     In k ["DIVISION_UNDISTORTION"; "DOUBLE_SPHERE"; "EXTENDED_UNIFIED"; "FISHEYE"] →
     bool_decide (k = "PINHOLE" ∨ k = "PINHOLE_RADIAL_TANGENTIAL") = false).
Proof.
  intros w h m rp. split; [reflexivity|]. split; [|split; [done|split; [done|]]].
  - intros cs Hcs. unfold EstimateView. fold w h. rewrite Hcs. cbn [mbind option_bind].
    rewrite InitializePose_dispatch. reflexivity.
  - intros k Hk. simpl in Hk.
    destruct Hk as [<-|[<-|[<-|[<-|[]]]]]; reflexivity.
Qed.

(** *** AddView and AddObservation on the dataset *)

Lemma AddView_spec (rot : Matrix3d) (pos : Vector3d) (f d : double) (w h : Z)
    (ts : double) (c : CameraCalibrator) (n : Z) :
  is_Some (StringToCameraIntrinsicsModelType (camera_model_ c)) →
  view_name_of ts = Some n →
  ¬ name_taken (recon_calib_dataset_ c) n →
  ∃ v c',
    AddView rot pos f d w h ts c = Some (next_view_id (recon_calib_dataset_ c), c') ∧
    views (recon_calib_dataset_ c') =
      <[next_view_id (recon_calib_dataset_ c) := v]> (views (recon_calib_dataset_ c)) ∧
    view_position v = pos ∧
    view_features v = ∅ ∧
    view_name v = n ∧
    tracks (recon_calib_dataset_ c') = tracks (recon_calib_dataset_ c) ∧
    next_view_id (recon_calib_dataset_ c') = S (next_view_id (recon_calib_dataset_ c)) ∧
    c' = set_dataset (λ _, recon_calib_dataset_ c') c.
Proof.
  intros [t Ht] Hn Hname. unfold AddView, Reconstruction_AddView, GetView.
  rewrite Hn. cbn [mbind option_bind]. rewrite decide_False by done.
  cbn [views mbind option_bind]. rewrite lookup_insert_eq, Ht.
  cbn [mbind option_bind].
  eexists _, _. split; [reflexivity|].
  cbn [recon_calib_dataset_ set_dataset set_views views tracks next_view_id].
  rewrite insert_insert_eq.
  split; [reflexivity|]. split.
  { unfold view_position, set_camera, SetCameraIntrinsicsModelType.
    cbn [view_camera]. repeat case_match; reflexivity. }
  repeat split; reflexivity.
Qed.

(** An unknown camera model name is fatal. *)
Lemma AddView_fatal (rot : Matrix3d) (pos : Vector3d) (f d : double) (w h : Z)
    (ts : double) (c : CameraCalibrator) :
  StringToCameraIntrinsicsModelType (camera_model_ c) = None →
  AddView rot pos f d w h ts c = None.
Proof.
  intros Ht. unfold AddView, Reconstruction_AddView, GetView.
  destruct (view_name_of ts) as [n|]; [|done]. cbn [mbind option_bind].
  case_decide; [done|].
  cbn [views mbind option_bind]. rewrite lookup_insert_eq, Ht. reflexivity.
Qed.

(** A name a view already has: theia hands back no view and the call
    dereferences null. *)
Lemma AddView_refused (rot : Matrix3d) (pos : Vector3d) (f d : double) (w h : Z)
    (ts : double) (c : CameraCalibrator) (n : Z) :
  view_name_of ts = Some n →
  name_taken (recon_calib_dataset_ c) n →
  AddView rot pos f d w h ts c = None.
Proof.
  intros Hn Ht. unfold AddView, Reconstruction_AddView.
  rewrite Hn. cbn [mbind option_bind]. by rewrite decide_True by done.
Qed.

(** A timestamp outside the range of the cast. *)
Lemma AddView_unnamed (rot : Matrix3d) (pos : Vector3d) (f d : double) (w h : Z)
    (ts : double) (c : CameraCalibrator) :
  view_name_of ts = None →
  AddView rot pos f d w h ts c = None.
Proof. intros Hn. unfold AddView. by rewrite Hn. Qed.

(** When [AddView] returns, the model name is known and the name new. *)
Lemma AddView_returned (rot : Matrix3d) (pos : Vector3d) (f d : double) (w h : Z)
    (ts : double) (c : CameraCalibrator) :
  is_Some (AddView rot pos f d w h ts c) →
  is_Some (StringToCameraIntrinsicsModelType (camera_model_ c)) ∧
  ∃ n, view_name_of ts = Some n ∧ ¬ name_taken (recon_calib_dataset_ c) n.
Proof.
  intros Hs. split.
  - destruct (StringToCameraIntrinsicsModelType (camera_model_ c)) eqn:E; [done|].
    rewrite AddView_fatal in Hs by done. by destruct Hs.
  - destruct (view_name_of ts) as [n|] eqn:En.
    2:{ rewrite AddView_unnamed in Hs by done. by destruct Hs. }
    exists n. split; [done|]. intros Hn.
    rewrite (AddView_refused _ _ _ _ _ _ _ _ n) in Hs by done. by destruct Hs.
Qed.

(** The observations of an accepted frame go to the new view and leave its
    camera alone. *)
Lemma AddObservation_fold (id : nat) (l : list (Z * Vector2d)) (c : CameraCalibrator)
    (v : View) (m : gmap nat View) :
  views (recon_calib_dataset_ c) = <[id := v]> m →
  let c' := foldl (λ c ip, (AddObservation id (TrackId_of_int ip.1) ip.2 c).2) c l in
  ∃ v', views (recon_calib_dataset_ c') = <[id := v']> m ∧
        view_camera v' = view_camera v ∧
        view_name v' = view_name v ∧
        tracks (recon_calib_dataset_ c') = tracks (recon_calib_dataset_ c) ∧
        next_view_id (recon_calib_dataset_ c') = next_view_id (recon_calib_dataset_ c) ∧
        c' = set_dataset (λ _, recon_calib_dataset_ c') c.
Proof.
  revert c v. induction l as [|[tid p] l IH]; intros c v Hv; cbn [foldl].
  - exists v. repeat split; try done. by destruct c.
  - set (c1 := (AddObservation id (TrackId_of_int (tid, p).1) (tid, p).2 c).2).
    assert (H1 : ∃ v1, views (recon_calib_dataset_ c1) = <[id := v1]> m ∧
                       view_camera v1 = view_camera v ∧
                       view_name v1 = view_name v ∧
                       tracks (recon_calib_dataset_ c1) = tracks (recon_calib_dataset_ c) ∧
                       next_view_id (recon_calib_dataset_ c1) =
                         next_view_id (recon_calib_dataset_ c) ∧
                       c1 = set_dataset (λ _, recon_calib_dataset_ c1) c).
    { subst c1. unfold AddObservation, theia.AddObservation.
      rewrite Hv, lookup_insert_eq.
      destruct (tracks (recon_calib_dataset_ c) !! TrackId_of_int (tid, p).1);
        [destruct (view_features v !! TrackId_of_int (tid, p).1)|].
      - exists v. by destruct c.
      - eexists. cbn. rewrite Hv, insert_insert_eq. by destruct c.
      - exists v. by destruct c. }
    destruct H1 as (v1 & Hv1 & Hc1 & Hm1 & Ht1 & Hn1 & Hs1).
    destruct (IH c1 v1 Hv1) as (v' & Hv' & Hc' & Hm' & Ht' & Hn' & Hs').
    exists v'. split; [done|]. split; [congruence|]. split; [congruence|].
    split; [congruence|].
    split; [congruence|]. rewrite Hs' at 1. rewrite Hs1. by destruct c.
Qed.

(** *** One turn of the loop *)

Lemma with_scene_thresh_idemp (scene_json : SceneJson) (c : CameraCalibrator) :
  with_scene_thresh scene_json (with_scene_thresh scene_json c) =
  with_scene_thresh scene_json c.
Proof. by destruct c. Qed.

Lemma EstimateView_calibrator (scene_json : SceneJson) (c c1 : CameraCalibrator)
    (view : SceneView) (pose : PoseInit) :
  EstimateView scene_json c view = Some (c1, pose) →
  c1 = with_scene_thresh scene_json c.
Proof. unfold EstimateView. intros Heq. by simplify_option_eq. Qed.

(** The estimate of a frame is a function of the tracks, the camera model,
    the verbosity and the RANSAC parameters with the scene's threshold. *)
Lemma EstimateView_pose_ext (scene_json : SceneJson) (c1 c2 : CameraCalibrator)
    (view : SceneView) :
  tracks (recon_calib_dataset_ c1) = tracks (recon_calib_dataset_ c2) →
  camera_model_ c1 = camera_model_ c2 →
  verbose_ c1 = verbose_ c2 →
  ransac_params_ (with_scene_thresh scene_json c1) =
    ransac_params_ (with_scene_thresh scene_json c2) →
  snd <$> EstimateView scene_json c1 view = snd <$> EstimateView scene_json c2 view.
Proof.
  intros Ht Hm Hv Hr. unfold EstimateView.
  rewrite (mapM_ext (make_correspondence (recon_calib_dataset_ c1) _ _)
                    (make_correspondence (recon_calib_dataset_ c2)
                       (inject_Z (scene_image_width scene_json) / 2)%Q
                       (inject_Z (scene_image_height scene_json) / 2)%Q)).
  2:{ intros ip. unfold make_correspondence, Track. by rewrite Ht. }
  destruct (mapM _ _) as [cs|]; [|done]. cbn.
  unfold with_scene_thresh in Hr. cbn in Hr. by rewrite Hr, Hm, Hv.
Qed.

Lemma EstimateView_returns (scene_json : SceneJson) (c : CameraCalibrator)
    (view : SceneView) :
  (∀ ip, ip ∈ sv_image_points view →
         is_Some (Track (recon_calib_dataset_ c) (TrackId_of_int ip.1))) →
  is_Some (EstimateView scene_json c view).
Proof.
  intros Hk. unfold EstimateView.
  destruct (mapM _ _) as [cs|] eqn:Em; [by eexists|]. exfalso.
  assert (Hs : is_Some (mapM (make_correspondence (recon_calib_dataset_ c)
                                (inject_Z (scene_image_width scene_json) / 2)%Q
                                (inject_Z (scene_image_height scene_json) / 2)%Q)
                             (sv_image_points view))).
  { apply mapM_is_Some, Forall_forall. intros ip Hip.
    destruct (Hk ip Hip) as [t Ht]. unfold make_correspondence. cbn.
    rewrite Ht. by eexists. }
  rewrite Em in Hs. by destruct Hs.
Qed.

(** A frame whose pose is close to a saved one, or whose initialization
    failed, leaves the dataset and the saved poses as they are. *)
Lemma InitializeView_skip (scene_json : SceneJson) (st : Ingest) (view : SceneView)
    (c1 : CameraCalibrator) (pose : PoseInit) :
  EstimateView scene_json (ing_calibrator st) view = Some (c1, pose) →
  take_image (grid_size_ c1) (saved_poses st) (position pose) = false ∨
    success_init pose = false →
  InitializeView scene_json st view =
  Some (mkIngest c1 (saved_poses st) (views_initialized st + 1)).
Proof.
  intros He Hskip. unfold InitializeView. rewrite He. cbn [mbind option_bind].
  destruct Hskip as [-> | ->]; [done|]. by rewrite orb_true_r.
Qed.

(** A frame that initializes and is close to no saved pose becomes a view at
    the estimated position, under the next view id. *)
Lemma InitializeView_accept (scene_json : SceneJson) (st : Ingest) (view : SceneView)
    (c1 : CameraCalibrator) (pose : PoseInit) :
  EstimateView scene_json (ing_calibrator st) view = Some (c1, pose) →
  take_image (grid_size_ c1) (saved_poses st) (position pose) = true →
  success_init pose = true →
  is_Some (StringToCameraIntrinsicsModelType (camera_model_ c1)) →
  name_new (recon_calib_dataset_ c1) view →
  ∃ st' v,
    InitializeView scene_json st view = Some st' ∧
    saved_poses st' = saved_poses st ++ [position pose] ∧
    views (recon_calib_dataset_ (ing_calibrator st')) =
      <[next_view_id (recon_calib_dataset_ c1) := v]> (views (recon_calib_dataset_ c1)) ∧
    view_position v = position pose ∧
    frame_view_name view = Some (view_name v) ∧
    tracks (recon_calib_dataset_ (ing_calibrator st')) = tracks (recon_calib_dataset_ c1) ∧
    next_view_id (recon_calib_dataset_ (ing_calibrator st')) =
      S (next_view_id (recon_calib_dataset_ c1)) ∧
    ing_calibrator st' =
      set_dataset (λ _, recon_calib_dataset_ (ing_calibrator st')) c1.
Proof.
  intros He Ht Hs Hm (n & Hn & Hname).
  unfold InitializeView. rewrite He. cbn [mbind option_bind].
  rewrite Ht, Hs. cbn [negb orb].
  destruct (AddView_spec (rotation pose) (position pose) (focal_length pose)
              (radial_distortion pose) (scene_image_width scene_json)
              (scene_image_height scene_json)
              (double_mul (sv_key view) (1 # 1000000)) c1 n Hm Hn Hname)
    as (v & c2 & Hadd & Hviews & Hpos & _ & Hnm & Htr & Hnext & Hc2).
  rewrite Hadd. cbn [mbind option_bind].
  destruct (AddObservation_fold (next_view_id (recon_calib_dataset_ c1))
              (sv_image_points view) c2 v _ Hviews)
    as (v' & Hv' & Hcam & Hnm' & Htr' & Hnext' & Hc').
  eexists _, v'. split; [reflexivity|]. cbn [saved_poses ing_calibrator].
  split; [done|]. split; [done|].
  split; [unfold view_position in *; congruence|].
  split; [rewrite Hn; congruence|].
  split; [congruence|]. split; [congruence|].
  rewrite Hc' at 1. rewrite Hc2. by destruct c1.
Qed.

(** When the turn of such a frame returns, the model name is known and the
    name of the frame's view new. *)
Lemma InitializeView_accepted (scene_json : SceneJson) (st : Ingest)
    (view : SceneView) (c1 : CameraCalibrator) (pose : PoseInit) :
  EstimateView scene_json (ing_calibrator st) view = Some (c1, pose) →
  take_image (grid_size_ c1) (saved_poses st) (position pose) = true →
  success_init pose = true →
  is_Some (InitializeView scene_json st view) →
  is_Some (StringToCameraIntrinsicsModelType (camera_model_ c1)) ∧
  name_new (recon_calib_dataset_ c1) view.
Proof.
  intros He Ht Hs. unfold InitializeView. rewrite He. cbn [mbind option_bind].
  rewrite Ht, Hs. cbn [negb orb]. intros Hsome.
  apply (AddView_returned (rotation pose) (position pose) (focal_length pose)
           (radial_distortion pose) (scene_image_width scene_json)
           (scene_image_height scene_json)).
  destruct (AddView _ _ _ _ _ _ _ _); [done|]. by destruct Hsome.
Qed.

Lemma InitializeViews_app (scene_json : SceneJson) (st : Ingest)
    (l1 l2 : list SceneView) :
  InitializeViews scene_json st (l1 ++ l2) =
  InitializeViews scene_json st l1 ≫= λ st', InitializeViews scene_json st' l2.
Proof.
  revert st. induction l1 as [|x l1 IH]; intros st; cbn; [done|].
  destruct (InitializeView scene_json st x); cbn; [apply IH|done].
Qed.

(** *** The loop invariant *)

Lemma ingest_inv_init (scene_json : SceneJson) (c0 : CameraCalibrator) :
  fresh_ids (recon_calib_dataset_ c0) →
  ingest_inv scene_json c0 (mkIngest c0 [] 0).
Proof.
  intros Hf. unfold ingest_inv. cbn [ing_calibrator saved_poses length].
  repeat split; try done; try lia.
  { intros i. rewrite lookup_nil, Hf by lia. done. }
Qed.

Lemma ingest_inv_step (scene_json : SceneJson) (c0 : CameraCalibrator)
    (st st' : Ingest) (view : SceneView) :
  ingest_inv scene_json c0 st →
  InitializeView scene_json st view = Some st' →
  ingest_inv scene_json c0 st'.
Proof.
  intros (Htr & Hnext & Hnum & Hfresh & Hold & Hsaved & Hcfg) Hstep.
  destruct (EstimateView scene_json (ing_calibrator st) view) as [[c1 pose]|] eqn:He.
  2:{ unfold InitializeView in Hstep. by rewrite He in Hstep. }
  pose proof (EstimateView_calibrator _ _ _ _ _ He) as Hc1.
  assert (Hr1 : recon_calib_dataset_ c1 = recon_calib_dataset_ (ing_calibrator st))
    by (by rewrite Hc1).
  destruct (take_image (grid_size_ c1) (saved_poses st) (position pose)) eqn:Et;
    [destruct (success_init pose) eqn:Es|].
  - (* accepted *)
    destruct (InitializeView_accepted _ _ _ _ _ He Et Es (mk_is_Some _ _ Hstep))
      as [Hm Hname].
    destruct (InitializeView_accept _ _ _ _ _ He Et Es Hm Hname)
      as (st2 & v & Hst2 & Hs2 & Hv2 & Hp2 & _ & Ht2 & Hn2 & Hc2).
    rewrite Hstep in Hst2. injection Hst2 as <-.
    rewrite Hr1 in Hv2, Ht2, Hn2.
    unfold ingest_inv. rewrite Hs2, length_app. cbn [length].
    split; [congruence|]. split; [lia|]. split.
    { unfold NumViews in *. rewrite Hv2, map_size_insert_None; [lia|].
      apply Hfresh. lia. }
    split.
    { intros k Hk. rewrite Hv2, lookup_insert_ne by lia. apply Hfresh. lia. }
    split.
    { intros k Hk. rewrite Hv2, lookup_insert_ne by lia. by apply Hold. }
    split.
    { intros i. rewrite Hv2.
      destruct (decide (i < length (saved_poses st))%nat) as [Hlt|Hge].
      - rewrite lookup_app_l, lookup_insert_ne by lia. apply Hsaved.
      - destruct (decide (i = length (saved_poses st))) as [->|Hne].
        + rewrite list_lookup_middle by done. rewrite <- Hnext, lookup_insert_eq.
          cbn. by rewrite Hp2.
        + rewrite lookup_ge_None_2 by (rewrite length_app; cbn; lia).
          rewrite lookup_insert_ne by lia. rewrite Hfresh by lia. done. }
    rewrite Hc2, Hc1.
    transitivity (set_dataset (λ _, recon_calib_dataset_ (ing_calibrator st'))
                    (with_scene_thresh scene_json (ing_calibrator st))).
    { by destruct (ing_calibrator st). }
    rewrite Hcfg. by destruct c0.
  - (* initialization failed *)
    rewrite (InitializeView_skip _ _ _ _ _ He (or_intror Es)) in Hstep.
    injection Hstep as <-. unfold ingest_inv. cbn [ing_calibrator saved_poses].
    rewrite Hr1. repeat split; try done.
    rewrite Hc1, with_scene_thresh_idemp. done.
  - (* close to a saved pose *)
    rewrite (InitializeView_skip _ _ _ _ _ He (or_introl Et)) in Hstep.
    injection Hstep as <-. unfold ingest_inv. cbn [ing_calibrator saved_poses].
    rewrite Hr1. repeat split; try done.
    rewrite Hc1, with_scene_thresh_idemp. done.
Qed.

Lemma ingest_inv_steps (scene_json : SceneJson) (c0 : CameraCalibrator)
    (frames : list SceneView) (st st' : Ingest) :
  ingest_inv scene_json c0 st →
  InitializeViews scene_json st frames = Some st' →
  ingest_inv scene_json c0 st'.
Proof.
  revert st. induction frames as [|view frames IH]; intros st Hinv; cbn.
  - by intros [= <-].
  - destruct (InitializeView scene_json st view) as [st1|] eqn:E1; [|done]. cbn.
    apply IH. by eapply ingest_inv_step.
Qed.

End Ingestion_facts.

Section Ingestion_claims.
Context {ext : Externals}.

Lemma EstimateView_with_scene_thresh (scene_json : SceneJson) (c : CameraCalibrator)
    (view : SceneView) :
  EstimateView scene_json (with_scene_thresh scene_json c) view =
  EstimateView scene_json c view.
Proof. by destruct c. Qed.

(** A turn of the loop looks at the calibrator with the scene's threshold set
    and at the saved poses, and at nothing else of the state. *)
Lemma InitializeView_ext (scene_json : SceneJson) (st1 st2 : Ingest) (view : SceneView) :
  with_scene_thresh scene_json (ing_calibrator st1) =
    with_scene_thresh scene_json (ing_calibrator st2) →
  saved_poses st1 = saved_poses st2 →
  (λ st, (ing_calibrator st, saved_poses st)) <$> InitializeView scene_json st1 view =
  (λ st, (ing_calibrator st, saved_poses st)) <$> InitializeView scene_json st2 view.
Proof.
  intros Hc Hs. unfold InitializeView.
  rewrite <- (EstimateView_with_scene_thresh _ (ing_calibrator st1)),
          <- (EstimateView_with_scene_thresh _ (ing_calibrator st2)), Hc, Hs.
  destruct (EstimateView _ _ _) as [[c pose]|]; [|done]. cbn [mbind option_bind].
  destruct (negb _ || negb _); [done|].
  destruct (AddView _ _ _ _ _ _ _ _) as [[view_id c']|]; done.
Qed.

Lemma InitializeViews_ext (scene_json : SceneJson) (frames : list SceneView)
    (st1 st2 : Ingest) :
  with_scene_thresh scene_json (ing_calibrator st1) =
    with_scene_thresh scene_json (ing_calibrator st2) →
  saved_poses st1 = saved_poses st2 →
  ingested <$> InitializeViews scene_json st1 frames =
  ingested <$> InitializeViews scene_json st2 frames.
Proof.
  revert st1 st2. induction frames as [|view frames IH]; intros st1 st2 Hc Hs; cbn.
  - unfold ingested. rewrite Hs. f_equal. f_equal.
    by apply (f_equal recon_calib_dataset_) in Hc.
  - pose proof (InitializeView_ext scene_json st1 st2 view Hc Hs) as Hstep.
    destruct (InitializeView scene_json st1 view) as [a|],
             (InitializeView scene_json st2 view) as [b|]; try done.
    cbn in *. injection Hstep as Hc' Hs'. apply IH; congruence.
Qed.

(** The saved poses near which a new pose falls are the positions of views
    added since the loop started. *)
Lemma take_image_false (scene_json : SceneJson) (c0 : CameraCalibrator) (st : Ingest)
    (g : double) (p : Vector3d) :
  ingest_inv scene_json c0 st →
  take_image g (saved_poses st) p = false ↔
  ∃ i v, views (recon_calib_dataset_ (ing_calibrator st))
           !! (next_view_id (recon_calib_dataset_ c0) + i)%nat = Some v ∧
         dlt (Vector3d_distance p (view_position v)) g = true.
Proof.
  intros (_ & _ & _ & _ & _ & Hsaved & _). unfold take_image.
  rewrite negb_false_iff, existsb_exists. split.
  - intros (q & Hin & Hq). apply list_elem_of_In, list_elem_of_lookup in Hin as [i Hi].
    rewrite Hsaved in Hi.
    destruct (views _ !! _) as [v|] eqn:Ev; [|done]. injection Hi as <-.
    by exists i, v.
  - intros (i & v & Hv & Hq). exists (view_position v). split; [|done].
    apply list_elem_of_In, list_elem_of_lookup. exists i. by rewrite Hsaved, Hv.
Qed.

Lemma ingest_inv_config (scene_json : SceneJson) (c0 : CameraCalibrator) (st : Ingest) :
  ingest_inv scene_json c0 st →
  grid_size_ (ing_calibrator st) = grid_size_ c0 ∧
  camera_model_ (ing_calibrator st) = camera_model_ c0 ∧
  verbose_ (ing_calibrator st) = verbose_ c0 ∧
  ransac_params_ (with_scene_thresh scene_json (ing_calibrator st)) =
    ransac_params_ (with_scene_thresh scene_json c0).
Proof.
  intros (_ & _ & _ & _ & _ & _ & Hcfg).
  split; [by apply (f_equal grid_size_) in Hcfg|].
  split; [by apply (f_equal camera_model_) in Hcfg|].
  split; [by apply (f_equal verbose_) in Hcfg|].
  by apply (f_equal ransac_params_) in Hcfg.
Qed.

(** The names the views have after a turn are those before and, at most,
    the frame's. *)
Lemma InitializeView_names (scene_json : SceneJson) (st st' : Ingest)
    (view : SceneView) (n : Z) :
  InitializeView scene_json st view = Some st' →
  name_taken (recon_calib_dataset_ (ing_calibrator st')) n →
  name_taken (recon_calib_dataset_ (ing_calibrator st)) n ∨
  frame_view_name view = Some n.
Proof.
  intros Hstep.
  destruct (EstimateView scene_json (ing_calibrator st) view) as [[c1 pose]|] eqn:He.
  2:{ unfold InitializeView in Hstep. by rewrite He in Hstep. }
  pose proof (EstimateView_calibrator _ _ _ _ _ He) as Hc1.
  assert (Hr1 : recon_calib_dataset_ c1 = recon_calib_dataset_ (ing_calibrator st))
    by (by rewrite Hc1).
  destruct (take_image (grid_size_ c1) (saved_poses st) (position pose)) eqn:Et;
    [destruct (success_init pose) eqn:Es|].
  - destruct (InitializeView_accepted _ _ _ _ _ He Et Es (mk_is_Some _ _ Hstep))
      as [Hm Hname].
    destruct (InitializeView_accept _ _ _ _ _ He Et Es Hm Hname)
      as (st2 & v & Hst2 & _ & Hv2 & _ & Hn2 & _).
    rewrite Hstep in Hst2. injection Hst2 as <-. rewrite Hr1 in Hv2.
    unfold name_taken. rewrite Hv2. intros Hex.
    apply map_Exists_insert_1 in Hex as [Hex|Hex]; [right|by left]. congruence.
  - rewrite (InitializeView_skip _ _ _ _ _ He (or_intror Es)) in Hstep.
    injection Hstep as <-. cbn. rewrite Hr1. by left.
  - rewrite (InitializeView_skip _ _ _ _ _ He (or_introl Et)) in Hstep.
    injection Hstep as <-. cbn. rewrite Hr1. by left.
Qed.

(** With a supported camera model, known tracks and new view names the loop
    returns. *)
Lemma InitializeViews_returns (scene_json : SceneJson) (c0 : CameraCalibrator)
    (frames : list SceneView) (st : Ingest) :
  ingest_inv scene_json c0 st →
  is_Some (StringToCameraIntrinsicsModelType (camera_model_ c0)) →
  tracks_known (recon_calib_dataset_ c0) frames →
  names_new (recon_calib_dataset_ (ing_calibrator st)) frames →
  is_Some (InitializeViews scene_json st frames).
Proof.
  revert st. induction frames as [|view frames IH]; intros st Hinv Hm Hk Hnew; cbn.
  - by eexists.
  - assert (He : is_Some (EstimateView scene_json (ing_calibrator st) view)).
    { apply EstimateView_returns. intros ip Hip. unfold Track.
      destruct Hinv as (-> & _). apply (Hk view); [apply list_elem_of_here|done]. }
    destruct He as [[c1 pose] He].
    pose proof (EstimateView_calibrator _ _ _ _ _ He) as Hc1.
    destruct Hnew as [Hnd Hfree]. rewrite fmap_cons in Hnd.
    apply NoDup_cons in Hnd as [Hhead Hnd].
    assert (Hst : is_Some (InitializeView scene_json st view)).
    { destruct (take_image (grid_size_ c1) (saved_poses st) (position pose)) eqn:Et;
        [destruct (success_init pose) eqn:Es|].
      - destruct (ingest_inv_config _ _ _ Hinv) as (_ & Hmod & _).
        assert (Hm1 : is_Some (StringToCameraIntrinsicsModelType (camera_model_ c1))).
        { rewrite Hc1. cbn. by rewrite Hmod. }
        assert (Hn1 : name_new (recon_calib_dataset_ c1) view).
        { rewrite Hc1. cbn. apply Hfree, list_elem_of_here. }
        destruct (InitializeView_accept _ _ _ _ _ He Et Es Hm1 Hn1)
          as (st' & _ & -> & _).
        by eexists.
      - rewrite (InitializeView_skip _ _ _ _ _ He (or_intror Es)). by eexists.
      - rewrite (InitializeView_skip _ _ _ _ _ He (or_introl Et)). by eexists. }
    destruct Hst as [st1 Hst1]. rewrite Hst1. cbn.
    apply IH; [by eapply ingest_inv_step|done| |].
    + intros v ip Hv Hip. apply (Hk v); [by apply list_elem_of_further|done].
    + split; [done|]. intros w Hw.
      destruct (Hfree w (list_elem_of_further _ _ _ Hw)) as (n & Hn & Hnot).
      exists n. split; [done|]. intros Htaken.
      apply (InitializeView_names _ _ _ _ _ Hst1) in Htaken as [Htaken|Heq]; [done|].
      apply Hhead. rewrite Heq, <- Hn. apply list_elem_of_fmap. by exists w.
Qed.

(** C9.  After any number of frames the saved poses are, in order, the
    positions of the views the loop has added, and the views the dataset had
    before are as they were.  A frame whose initialization fails or whose
    pose is close to a saved one leaves the dataset and the saved poses as
    they are, and what the loop builds from all frames is what it builds
    without that frame.  With a supported camera model, known tracks and
    frames whose view names differ from each other and from the names of
    the views the dataset had, the loop returns. *)
Theorem saved_poses_are_accepted_views (scene_json : SceneJson)
    (c0 : CameraCalibrator) (frames : list SceneView) :
  fresh_ids (recon_calib_dataset_ c0) →
  let st0 := mkIngest c0 [] 0 in
  let r0 := recon_calib_dataset_ c0 in
  (∀ st, InitializeViews scene_json st0 frames = Some st →
     let r := recon_calib_dataset_ (ing_calibrator st) in
     NumViews r = (NumViews r0 + length (saved_poses st))%nat ∧
     (∀ k, (k < next_view_id r0)%nat → views r !! k = views r0 !! k) ∧
     (∀ k, (next_view_id r0 + length (saved_poses st) ≤ k)%nat → views r !! k = None) ∧
     (∀ i, saved_poses st !! i =
           view_position <$> views r !! (next_view_id r0 + i)%nat)) ∧
  (∀ pre f post st c1 pose,
     frames = pre ++ f :: post →
     InitializeViews scene_json st0 pre = Some st →
     EstimateView scene_json (ing_calibrator st) f = Some (c1, pose) →
     success_init pose = false ∨
       take_image (grid_size_ c0) (saved_poses st) (position pose) = false →
     (∃ st', InitializeView scene_json st f = Some st' ∧ ingested st' = ingested st) ∧
     ingested <$> InitializeViews scene_json st0 frames =
     ingested <$> InitializeViews scene_json st0 (pre ++ post)) ∧
  (is_Some (StringToCameraIntrinsicsModelType (camera_model_ c0)) →
   tracks_known r0 frames →
   names_new r0 frames →
   is_Some (InitializeViews scene_json st0 frames)).
Proof.
  intros Hfresh st0 r0.
  pose proof (ingest_inv_init scene_json c0 Hfresh) as Hinv0. fold st0 in Hinv0.
  split; [|split].
  - intros st Hst r.
    destruct (ingest_inv_steps _ _ _ _ _ Hinv0 Hst)
      as (_ & Hnext & Hnum & Hf & Hold & Hsaved & _).
    repeat split; try done. intros k Hk. apply Hf. unfold r0 in Hk. lia.
  - intros pre f post st c1 pose -> Hpre He Hskip.
    pose proof (ingest_inv_steps _ _ _ _ _ Hinv0 Hpre) as Hinv.
    pose proof (EstimateView_calibrator _ _ _ _ _ He) as Hc1.
    destruct (ingest_inv_config _ _ _ Hinv) as (Hg & _).
    assert (Hstep : InitializeView scene_json st f =
                    Some (mkIngest c1 (saved_poses st) (views_initialized st + 1))).
    { apply (InitializeView_skip _ _ _ _ _ He).
      destruct Hskip as [?|?]; [by right|left].
      rewrite Hc1. cbn. by rewrite Hg. }
    split.
    { eexists. split; [done|]. unfold ingested. cbn. by rewrite Hc1. }
    rewrite !InitializeViews_app, Hpre. cbn. rewrite Hstep. cbn.
    apply InitializeViews_ext; [|done]. cbn.
    by rewrite Hc1, with_scene_thresh_idemp.
  - intros Hm Hk Hnew. by eapply InitializeViews_returns.
Qed.

(** C6.  A frame that initializes is left out exactly when the distance
    from its position to the position of a view that the loop has added
    before, as the program computes it, is below the grid size: the turn of
    such a frame returns and leaves the dataset and the saved poses as they
    are, the turn of any other frame whose view name is new returns with
    the frame as one more view, and whenever the turn returns the dataset
    and the saved poses are as before exactly for a frame of the first
    sort.  Of two frames that both initialize, the second at a computed
    distance below the grid size of the first, the loop keeps the first
    only: the dataset has one view more. *)
Theorem dedup_rule (scene_json : SceneJson) (c0 : CameraCalibrator) :
  fresh_ids (recon_calib_dataset_ c0) →
  is_Some (StringToCameraIntrinsicsModelType (camera_model_ c0)) →
  let st0 := mkIngest c0 [] 0 in
  let r0 := recon_calib_dataset_ c0 in
  (∀ pre f st c1 pose,
     InitializeViews scene_json st0 pre = Some st →
     EstimateView scene_json (ing_calibrator st) f = Some (c1, pose) →
     success_init pose = true →
     let r := recon_calib_dataset_ (ing_calibrator st) in
     let close :=
       ∃ i v, views r !! (next_view_id r0 + i)%nat = Some v ∧
              dlt (Vector3d_distance (position pose) (view_position v))
                  (grid_size_ c0) = true in
     (close →
      ∃ st', InitializeView scene_json st f = Some st' ∧ ingested st' = ingested st) ∧
     (¬ close → name_new r f →
      ∃ st', InitializeView scene_json st f = Some st' ∧
        NumViews (recon_calib_dataset_ (ing_calibrator st')) = S (NumViews r) ∧
        view_position <$> views (recon_calib_dataset_ (ing_calibrator st'))
                            !! next_view_id r = Some (position pose) ∧
        saved_poses st' = saved_poses st ++ [position pose]) ∧
     (∀ st', InitializeView scene_json st f = Some st' →
             (ingested st' = ingested st ↔ close))) ∧
  (∀ f1 f2 c1 pose1 c2 pose2,
     EstimateView scene_json c0 f1 = Some (c1, pose1) →
     EstimateView scene_json c0 f2 = Some (c2, pose2) →
     success_init pose1 = true →
     success_init pose2 = true →
     dlt (Vector3d_distance (position pose2) (position pose1)) (grid_size_ c0) = true →
     name_new r0 f1 →
     ∃ st, InitializeViews scene_json st0 [f1; f2] = Some st ∧
           NumViews (recon_calib_dataset_ (ing_calibrator st)) = S (NumViews r0) ∧
           saved_poses st = [position pose1]).
Proof.
  intros Hfresh Hm st0 r0.
  pose proof (ingest_inv_init scene_json c0 Hfresh) as Hinv0. fold st0 in Hinv0.
  assert (Hone : ∀ pre f st c1 pose,
     InitializeViews scene_json st0 pre = Some st →
     EstimateView scene_json (ing_calibrator st) f = Some (c1, pose) →
     success_init pose = true →
     let r := recon_calib_dataset_ (ing_calibrator st) in
     let close :=
       ∃ i v, views r !! (next_view_id r0 + i)%nat = Some v ∧
              dlt (Vector3d_distance (position pose) (view_position v))
                  (grid_size_ c0) = true in
     (close →
      ∃ st', InitializeView scene_json st f = Some st' ∧ ingested st' = ingested st) ∧
     (¬ close → name_new r f →
      ∃ st', InitializeView scene_json st f = Some st' ∧
        NumViews (recon_calib_dataset_ (ing_calibrator st')) = S (NumViews r) ∧
        view_position <$> views (recon_calib_dataset_ (ing_calibrator st'))
                            !! next_view_id r = Some (position pose) ∧
        saved_poses st' = saved_poses st ++ [position pose]) ∧
     (∀ st', InitializeView scene_json st f = Some st' →
             (ingested st' = ingested st ↔ close))).
  { intros pre f st c1 pose Hpre He Hs r close.
    pose proof (ingest_inv_steps _ _ _ _ _ Hinv0 Hpre) as Hinv.
    pose proof (EstimateView_calibrator _ _ _ _ _ He) as Hc1.
    destruct (ingest_inv_config _ _ _ Hinv) as (Hg & Hmod & _).
    assert (Hg1 : grid_size_ c1 = grid_size_ c0) by (rewrite Hc1; cbn; done).
    assert (Hr1 : recon_calib_dataset_ c1 = r) by (by rewrite Hc1).
    assert (Hm1 : is_Some (StringToCameraIntrinsicsModelType (camera_model_ c1))).
    { rewrite Hc1. cbn. by rewrite Hmod. }
    pose proof (take_image_false scene_json c0 st (grid_size_ c0) (position pose) Hinv)
      as Hclose. fold r0 r close in Hclose.
    assert (Hfr : views r !! next_view_id r = None).
    { destruct Hinv as (_ & _ & _ & Hf & _). by apply Hf. }
    assert (Hadd : take_image (grid_size_ c1) (saved_poses st) (position pose) = true →
                   name_new r f →
                   ∃ st', InitializeView scene_json st f = Some st' ∧
                     NumViews (recon_calib_dataset_ (ing_calibrator st')) =
                       S (NumViews r) ∧
                     view_position <$> views (recon_calib_dataset_ (ing_calibrator st'))
                                         !! next_view_id r = Some (position pose) ∧
                     saved_poses st' = saved_poses st ++ [position pose]).
    { intros Et Hname. rewrite <- Hr1 in Hname.
      destruct (InitializeView_accept _ _ _ _ _ He Et Hs Hm1 Hname)
        as (st' & v & Hst' & Hs' & Hv' & Hp' & _).
      exists st'. split; [done|]. rewrite Hr1 in Hv'. rewrite Hv'.
      split; [|split; [|done]].
      - unfold NumViews. rewrite Hv'. by apply map_size_insert_None.
      - by rewrite lookup_insert_eq, <- Hp'. }
    destruct (take_image (grid_size_ c1) (saved_poses st) (position pose)) eqn:Et.
    - assert (Hnc : ¬ close).
      { intros Hc. apply Hclose in Hc. rewrite Hg1 in Et. congruence. }
      split; [done|]. split; [intros _; by apply Hadd|].
      intros st' Hst'. split; [|done]. intros Hing. exfalso.
      destruct (InitializeView_accepted _ _ _ _ _ He Et Hs (mk_is_Some _ _ Hst'))
        as [_ Hname].
      rewrite Hr1 in Hname.
      destruct (Hadd eq_refl Hname) as (st2 & Hst2 & Hn2 & _).
      rewrite Hst' in Hst2. injection Hst2 as <-.
      injection Hing as Hr _. rewrite Hr in Hn2. fold r in Hn2. lia.
    - assert (Hc : close) by (apply Hclose; by rewrite <- Hg1).
      rewrite (InitializeView_skip _ _ _ _ _ He (or_introl Et)).
      assert (Hing : ingested (mkIngest c1 (saved_poses st) (views_initialized st + 1)) =
                     ingested st).
      { unfold ingested. cbn. by rewrite Hr1. }
      split; [intros _; by eexists|]. split; [done|].
      intros st' [= <-]. done. }
  split; [exact Hone|].
  intros f1 f2 c1 pose1 c2 pose2 He1 He2 Hs1 Hs2 Hnear Hname.
  destruct (Hone [] f1 st0 c1 pose1 eq_refl He1 Hs1) as (_ & Hacc & _).
  destruct Hacc as (st1 & Hst1 & Hn1 & Hv1 & Hsv1); [|exact Hname|].
  { intros (i & v & Hv & _). cbn in Hv. unfold r0 in Hv.
    rewrite Hfresh in Hv by lia. done. }
  assert (Hpre : InitializeViews scene_json st0 [f1] = Some st1).
  { cbn. by rewrite Hst1. }
  pose proof (ingest_inv_steps _ _ _ _ _ Hinv0 Hpre) as Hinv1.
  destruct (ingest_inv_config _ _ _ Hinv1) as (_ & Hmod & Hverb & Hrp).
  assert (He2' : EstimateView scene_json (ing_calibrator st1) f2 =
                 Some (with_scene_thresh scene_json (ing_calibrator st1), pose2)).
  { pose proof (EstimateView_pose_ext scene_json (ing_calibrator st1) c0 f2) as Hext.
    rewrite He2 in Hext. cbn in Hext.
    destruct Hinv1 as (Htr & _).
    specialize (Hext Htr Hmod Hverb Hrp).
    destruct (EstimateView scene_json (ing_calibrator st1) f2) as [[c pose]|] eqn:E;
      [|done].
    injection Hext as ->. by rewrite (EstimateView_calibrator _ _ _ _ _ E). }
  destruct (Hone [f1] f2 st1 _ pose2 Hpre He2' Hs2) as (Hrej & _).
  destruct Hrej as (st2 & Hst2 & Hing).
  { exists 0%nat.
    cbn in Hv1. rewrite Nat.add_0_r. unfold r0.
    destruct (views (recon_calib_dataset_ (ing_calibrator st1))
                !! next_view_id (recon_calib_dataset_ c0)) as [v|]; [|done].
    injection Hv1 as Hv1. exists v. split; [done|]. by rewrite Hv1. }
  exists st2. split; [cbn; rewrite Hst1; cbn; by rewrite Hst2|].
  injection Hing as Hr Hs. rewrite Hr, Hs, Hsv1. split; [|done]. exact Hn1.
Qed.

End Ingestion_claims.

(** ** The error of the spec is local *)

Lemma GetReprojErrorOfView_spec_local (project : Camera → Vector4d → Vector2d)
    (pixel_distance : Vector2d → Vector2d → double) (r r' : Reconstruction)
    (v_id : nat) :
  GetView r v_id = GetView r' v_id →
  (∀ view t, GetView r v_id = Some view → is_Some (view_features view !! t) →
             Track r t = Track r' t) →
  GetReprojErrorOfView_spec project pixel_distance r v_id =
  GetReprojErrorOfView_spec project pixel_distance r' v_id.
Proof.
  intros Hview Htracks. unfold GetReprojErrorOfView_spec. rewrite <- Hview.
  destruct (GetView r v_id) as [view|] eqn:Ev; [|done].
  rewrite (list_omap_ext
             (λ o : nat * Vector2d,
                point ← Track r o.1;
                Some (pixel_distance o.2 (project (view_camera view) point)))
             (λ o : nat * Vector2d,
                point ← Track r' o.1;
                Some (pixel_distance o.2 (project (view_camera view) point)))
             (map_to_list (view_features view)) (map_to_list (view_features view)));
    [done|].
  apply Forall_Forall2_diag, Forall_forall. intros [t p] Hin.
  apply elem_of_map_to_list in Hin.
  pose proof (Htracks view t eq_refl (mk_is_Some _ _ Hin)) as Ht.
  cbn [fst snd]. by rewrite Ht.
Qed.

(** ** The properties on the sample scenes *)

Section Samples.
Import Sample.

Lemma sample_solvers_keep_views : solvers_keep_views.
Proof. split; intros; reflexivity. Qed.

Lemma sample_reproj_error_local : reproj_error_local.
Proof. intros r r' v_id. apply GetReprojErrorOfView_spec_local. Qed.

Lemma sample_board_fresh : fresh_ids board.
Proof. intros k _. reflexivity. Qed.

Lemma sample_board_names (n : Z) : ¬ name_taken board n.
Proof. apply map_Exists_empty. Qed.

Lemma sample_names_new : names_new board mixed_frames.
Proof.
  split; [apply (bool_decide_unpack _); vm_compute; exact I|].
  intros view Hv.
  repeat (apply elem_of_cons in Hv as [-> | Hv]);
    [| | |by apply elem_of_nil in Hv];
    (eexists; split; [vm_compute; reflexivity|apply sample_board_names]).
Qed.

Lemma sample_frame_a_name : name_new board frame_a.
Proof. eexists. split; [vm_compute; reflexivity|apply sample_board_names]. Qed.

Lemma sample_mixed_tracks_known : tracks_known board mixed_frames.
Proof.
  intros view ip Hv Hip.
  repeat (apply elem_of_cons in Hv as [-> | Hv]);
    [| | |by apply elem_of_nil in Hv];
    repeat (apply elem_of_cons in Hip as [-> | Hip]);
    try (by apply elem_of_nil in Hip); vm_compute; by eexists.
Qed.

(** C1, as stated, fails: with a minimum of two views and the second of two
    views ten pixels off, the sweep at 5.0 px leaves one view, and the trace
    of the run still has the stage-2 refinement, on that one view, before
    the run returns [false]. *)
Lemma stage2_runs_below_minimum :
  NumViews (recon_calib_dataset_ (after_stage1 calibrator_min2)) = 1%nat ∧
  min_num_view_ calibrator_min2 = 2%nat ∧
  (RunCalibration calibrator_min2).1.1 = false ∧
  (RunCalibration calibrator_min2).2 =
    [EvBundleAdjustViews (ba_options_stage1 "PINHOLE") [1; 0]%nat;
     EvRemoveViewsReprojError 5;
     EvBundleAdjustViews (ba_options_stage2 "PINHOLE") [0%nat]].
Proof. vm_compute. repeat split; reflexivity. Qed.

Lemma min_view_gates_witness :
  RunCalibration calibrator_min2 =
  (false, after_stage2 calibrator_min2,
   [EvBundleAdjustViews (ba_options_stage1 "PINHOLE") (ViewIds two_views);
    EvRemoveViewsReprojError 5;
    EvBundleAdjustViews (ba_options_stage2 "PINHOLE")
      (ViewIds (recon_calib_dataset_ (after_stage1 calibrator_min2)))]).
Proof.
  refine (proj1 (proj2 (min_view_gates sample_solvers_keep_views calibrator_min2)) _ _).
  - vm_compute. lia.
  - vm_compute. lia.
Defined.

Lemma too_few_views_witness :
  (NumViews (recon_calib_dataset_ calibrator_min3) < min_num_view_ calibrator_min3)%nat ∧
  RunCalibration calibrator_min3 = (false, calibrator_min3, []).
Proof.
  assert (Hlt : (NumViews (recon_calib_dataset_ calibrator_min3)
                 < min_num_view_ calibrator_min3)%nat) by (vm_compute; lia).
  split; [exact Hlt|]. exact (too_few_views_fails_untouched calibrator_min3 Hlt).
Defined.

Lemma sample_run_succeeds :
  RunCalibration calibrator_min1 =
  (true, (RunCalibration calibrator_min1).1.2, (RunCalibration calibrator_min1).2).
Proof. vm_compute. reflexivity. Qed.


Lemma pruning_idempotent_witness :
  RemoveViewsReprojError 5 (RemoveViewsReprojError 5 calibrator_min1) =
  RemoveViewsReprojError 5 calibrator_min1.
Proof.
  exact (proj1 (proj2 (pruning_idempotent sample_reproj_error_local 5 calibrator_min1))).
Defined.

Lemma first_view_camera_witness :
  (min_num_view_ calibrator_min1
   ≤ NumViews (recon_calib_dataset_ (RunCalibration calibrator_min1).1.2))%nat.
Proof.
  exact (proj1 (first_view_camera_defined sample_solvers_keep_views
                  calibrator_min1 _ _ sample_run_succeeds)).
Defined.

Lemma sample_mixed_ingest :
  InitializeViews mixed_scene (mkIngest board_calibrator [] 0) mixed_frames =
  Some mixed_result.
Proof. vm_compute. reflexivity. Qed.

Lemma saved_poses_witness :
  NumViews (recon_calib_dataset_ (ing_calibrator mixed_result)) =
    (NumViews (recon_calib_dataset_ board_calibrator)
     + length (saved_poses mixed_result))%nat ∧
  is_Some (InitializeViews mixed_scene (mkIngest board_calibrator [] 0) mixed_frames).
Proof.
  pose proof (saved_poses_are_accepted_views mixed_scene board_calibrator
                mixed_frames sample_board_fresh) as (Hinv & _ & Hret).
  split.
  - exact (proj1 (Hinv mixed_result sample_mixed_ingest)).
  - apply Hret; [by eexists|exact sample_mixed_tracks_known|exact sample_names_new].
Defined.

Lemma dedup_rule_witness :
  ∃ st, InitializeViews dedup_scene (mkIngest board_calibrator [] 0)
          [frame_a; frame_b] = Some st ∧
        NumViews (recon_calib_dataset_ (ing_calibrator st)) =
          S (NumViews (recon_calib_dataset_ board_calibrator)) ∧
        saved_poses st = [V3 0 0 0].
Proof.
  assert (Hm : is_Some (StringToCameraIntrinsicsModelType
                          (camera_model_ board_calibrator)))
    by (eexists; reflexivity).
  refine (proj2 (dedup_rule dedup_scene board_calibrator sample_board_fresh Hm)
            frame_a frame_b
            (with_scene_thresh dedup_scene board_calibrator)
            (mkPoseInit true identity3 (V3 0 0 0) 800 0)
            (with_scene_thresh dedup_scene board_calibrator)
            (mkPoseInit true identity3 (V3 0 0 (1 # 2000)) 800 0) _ _ _ _ _
            sample_frame_a_name);
    vm_compute; reflexivity.
Defined.

End Samples.

(** ** Further properties of the pruning sweep *)

Section Sweep_properties.
Context {ext : Externals}.

Lemma RemoveViewsReprojError_frame (max_reproj_error : double) (c : CameraCalibrator) :
  RemoveViewsReprojError max_reproj_error c =
  set_dataset (λ _, recon_calib_dataset_ (RemoveViewsReprojError max_reproj_error c)) c.
Proof. reflexivity. Qed.

Lemma RemoveViewsReprojError_next (max_reproj_error : double) (c : CameraCalibrator) :
  next_view_id (recon_calib_dataset_ (RemoveViewsReprojError max_reproj_error c)) =
  next_view_id (recon_calib_dataset_ c).
Proof. unfold RemoveViewsReprojError. simpl. apply remove_views_next. Qed.

Lemma Reconstruction_eq (r1 r2 : Reconstruction) :
  views r1 = views r2 → tracks r1 = tracks r2 → next_view_id r1 = next_view_id r2 →
  r1 = r2.
Proof. destruct r1, r2. simpl. by intros -> -> ->. Qed.

Lemma dgt_mono (e t1 t2 : double) :
  (t1 <= t2)%Q → dgt e t2 = true → dgt e t1 = true.
Proof.
  unfold dgt, dlt. intros Hle Hgt.
  apply negb_true_iff in Hgt. apply negb_true_iff.
  destruct (Qle_bool e t1) eqn:E; [|done].
  apply Qle_bool_iff in E.
  assert (Hc : Qle_bool e t2 = true) by (apply Qle_bool_iff; by eapply Qle_trans).
  congruence.
Qed.

(** X1.  The sweep removes exactly the views whose error exceeds the bound:
    a view of the dataset stays, as it is, when its error is at most the
    bound.  The sweep adds no view and no track, a track that a view that
    stays observes stays with its point, and the next view id and every
    other member of the calibrator are as they were. *)
Theorem sweep_keeps_views_within_bound (max_reproj_error : double)
    (c : CameraCalibrator) :
  let r := recon_calib_dataset_ c in
  let c' := RemoveViewsReprojError max_reproj_error c in
  let r' := recon_calib_dataset_ c' in
  (∀ k, views r' !! k =
        if dgt (GetReprojErrorOfView r k) max_reproj_error then None
        else views r !! k) ∧
  (∀ k v t, views r' !! k = Some v → is_Some (view_features v !! t) →
            Track r' t = Track r t) ∧
  (∀ t p, Track r' t = Some p → Track r t = Some p) ∧
  next_view_id r' = next_view_id r ∧
  (NumViews r' ≤ NumViews r)%nat ∧
  c' = set_dataset (λ _, r') c.
Proof.
  intros r c' r'. split; [apply RemoveViewsReprojError_lookup|].
  split; [intros k v t; apply RemoveViewsReprojError_observed|].
  split.
  { intros t p. unfold Track.
    pose proof (RemoveViewsReprojError_tracks max_reproj_error c t) as E.
    cbv zeta in E. fold r c' r' in E. rewrite E. by case_decide. }
  split; [apply RemoveViewsReprojError_next|].
  split; [|reflexivity].
  apply map_subseteq_size, RemoveViewsReprojError_subseteq.
Qed.

(** X2.  When the error of a view depends on that view and the tracks it
    observes only, no view that is left after the sweep has an error above
    the bound. *)
Theorem sweep_leaves_no_view_above_bound (Hlocal : reproj_error_local)
    (max_reproj_error : double) (c : CameraCalibrator) (k : nat) :
  let r' := recon_calib_dataset_ (RemoveViewsReprojError max_reproj_error c) in
  is_Some (views r' !! k) →
  dgt (GetReprojErrorOfView r' k) max_reproj_error = false.
Proof.
  intros r' [v Hv]. unfold r' in *.
  pose proof (RemoveViewsReprojError_lookup max_reproj_error c k) as Hk.
  rewrite Hv in Hk.
  destruct (dgt (GetReprojErrorOfView (recon_calib_dataset_ c) k) max_reproj_error)
    eqn:Ek; [done|].
  rewrite <- Ek. f_equal. apply Hlocal.
  - unfold GetView. by rewrite Hv.
  - intros w t Hw Ht.
    by apply (RemoveViewsReprojError_observed max_reproj_error c k t w).
Qed.

(** X3.  Under the same independence, a sweep with a bound after a sweep
    with a looser bound leaves the calibrator as the sweep with the tighter
    bound alone does: the sweep at 2.0 px after the one at 5.0 px removes
    what the one at 2.0 px removes. *)
Theorem tighter_sweep_absorbs_looser (Hlocal : reproj_error_local)
    (t1 t2 : double) (c : CameraCalibrator) :
  (t1 <= t2)%Q →
  RemoveViewsReprojError t1 (RemoveViewsReprojError t2 c) =
  RemoveViewsReprojError t1 c.
Proof.
  intros Hle.
  assert (Hr : recon_calib_dataset_
                 (RemoveViewsReprojError t1 (RemoveViewsReprojError t2 c)) =
               recon_calib_dataset_ (RemoveViewsReprojError t1 c)).
  { assert (Hv : views (recon_calib_dataset_
                         (RemoveViewsReprojError t1 (RemoveViewsReprojError t2 c))) =
                 views (recon_calib_dataset_ (RemoveViewsReprojError t1 c))).
    { apply map_eq. intros k. rewrite !RemoveViewsReprojError_lookup.
      pose proof (RemoveViewsReprojError_lookup t2 c k) as H2.
      destruct (dgt (GetReprojErrorOfView (recon_calib_dataset_ c) k) t2) eqn:E2.
      + rewrite (dgt_mono _ _ _ Hle E2). by destruct (dgt _ t1).
      + assert (He : GetReprojErrorOfView
                       (recon_calib_dataset_ (RemoveViewsReprojError t2 c)) k =
                     GetReprojErrorOfView (recon_calib_dataset_ c) k).
        { apply Hlocal; [done|]. intros w t Hw Ht.
          by apply (RemoveViewsReprojError_observed t2 c k t w). }
        by rewrite He. }
    apply Reconstruction_eq; [done| |by rewrite !RemoveViewsReprojError_next].
    apply map_eq. intros t.
    rewrite (dropped_compose (recon_calib_dataset_ c)
               (recon_calib_dataset_ (RemoveViewsReprojError t2 c))
               (recon_calib_dataset_
                  (RemoveViewsReprojError t1 (RemoveViewsReprojError t2 c))) t).
    - rewrite Hv. symmetry. apply (RemoveViewsReprojError_tracks t1 c t).
    - apply RemoveViewsReprojError_subseteq.
    - apply RemoveViewsReprojError_subseteq.
    - apply (RemoveViewsReprojError_tracks t2 c t).
    - apply (RemoveViewsReprojError_tracks t1 (RemoveViewsReprojError t2 c) t). }
  transitivity (set_dataset
                  (λ _, recon_calib_dataset_
                          (RemoveViewsReprojError t1 (RemoveViewsReprojError t2 c))) c);
    [reflexivity|].
  rewrite Hr. reflexivity.
Qed.

End Sweep_properties.

(** ** Further properties of the staged optimizer *)

Section Optimizer_properties.
Context {ext : Externals}.

Lemma stage_options_common (m : string) (o : BundleAdjustmentOptions) :
  o = ba_options_stage1 m ∨ o = ba_options_stage2 m ∨
  o = ba_options_stage3 m ∨ o = ba_options_board m →
  loss_function_type o = HUBER ∧
  robust_loss_width o = (1345 # 1000)%Q ∧
  verbose o = true ∧
  num_threads o = hardware_concurrency ∧
  frees o OptimizeIntrinsicsType.SKEW = false.
Proof.
  unfold ba_options_board, ba_options_stage3, ba_options_stage2, ba_options_stage1.
  intros [-> | [-> | [-> | ->]]];
    destruct (String.eqb m "PINHOLE");
    destruct (String.eqb m "PINHOLE_RADIAL_TANGENTIAL");
    repeat split; reflexivity.
Qed.

(** The traces a run can leave. *)
Lemma RunCalibration_trace (c : CameraCalibrator) :
  (RunCalibration c).2 = [] ∨
  (RunCalibration c).2 = trace_stage12 c ∨
  (RunCalibration c).2 = trace_stage12 c ++ trace_stage3 c ∨
  (RunCalibration c).2 = trace_stage12 c ++ trace_stage3 c ++ trace_board c.
Proof. rewrite RunCalibration_unfold. repeat case_match; simpl; tauto. Qed.

(** X4.  Every solver call of [RunCalibration], whatever the camera model
    and however far the run gets, uses the Huber loss of width 1.345, is
    verbose, runs on as many threads as the hardware has, and keeps the skew
    fixed. *)
Theorem solver_calls_share_loss_and_fix_skew (c : CameraCalibrator) :
  Forall (λ ev, ∀ o, solver_options ev = Some o →
                     loss_function_type o = HUBER ∧
                     robust_loss_width o = (1345 # 1000)%Q ∧
                     verbose o = true ∧
                     num_threads o = hardware_concurrency ∧
                     frees o OptimizeIntrinsicsType.SKEW = false)
         (RunCalibration c).2.
Proof.
  assert (H12 : Forall (λ ev, ∀ o, solver_options ev = Some o →
                     loss_function_type o = HUBER ∧
                     robust_loss_width o = (1345 # 1000)%Q ∧
                     verbose o = true ∧
                     num_threads o = hardware_concurrency ∧
                     frees o OptimizeIntrinsicsType.SKEW = false)
                  (trace_stage12 c ++ trace_stage3 c ++ trace_board c)).
  { unfold trace_stage12, trace_stage3, trace_board. simpl.
    repeat apply Forall_cons_2; try apply Forall_nil_2;
      intros o [= <-]; apply (stage_options_common (camera_model_ c)); tauto. }
  destruct (RunCalibration_trace c) as [-> | [-> | [-> | ->]]].
  - apply Forall_nil_2.
  - by apply Forall_app in H12 as [? _].
  - rewrite app_assoc in H12. apply Forall_app in H12 as [? _]. done.
  - done.
Qed.

(** X5.  [BundleAdjustTracks] is called exactly in the runs that succeed with
    the optimization of board points switched on: a run that fails, or one
    with the switch off, leaves the board points to no solver. *)
Theorem tracks_adjusted_only_on_success_with_board (c : CameraCalibrator) :
  (∃ ev, ev ∈ (RunCalibration c).2 ∧ is_tracks_call ev = true) ↔
  (RunCalibration c).1.1 = true ∧ optimize_board_pts_ c = true.
Proof.
  rewrite RunCalibration_unfold.
  unfold trace_stage12, trace_stage3, trace_board.
  repeat case_match; simpl; split.
  all: try (intros [? ?]; discriminate).
  all: try (intros (ev & Hin & Hev);
            repeat (apply elem_of_cons in Hin as [-> | Hin]; [discriminate|]);
            by apply elem_of_nil in Hin).
  - intros _. done.
  - intros _. eexists. split.
    + do 5 apply list_elem_of_further. apply list_elem_of_here.
    + reflexivity.
Qed.

Lemma sweep_dom (max_reproj_error : double) (c : CameraCalibrator) :
  dom (views (recon_calib_dataset_ (RemoveViewsReprojError max_reproj_error c))) ⊆
  dom (views (recon_calib_dataset_ c)).
Proof.
  apply subseteq_dom, map_subseteq_spec. intros k v.
  rewrite RemoveViewsReprojError_lookup. by destruct (dgt _ _).
Qed.

Lemma stages_dom (Hkeep : solvers_keep_views) (c : CameraCalibrator) :
  dom (views (recon_calib_dataset_ (after_stage2 c))) ⊆
    dom (views (recon_calib_dataset_ c)) ∧
  dom (views (recon_calib_dataset_ (after_stage3 c))) ⊆
    dom (views (recon_calib_dataset_ c)) ∧
  dom (views (recon_calib_dataset_ (after_board c))) ⊆
    dom (views (recon_calib_dataset_ c)).
Proof.
  destruct Hkeep as [Hv Ht].
  assert (H1 : dom (views (recon_calib_dataset_ (after_stage1 c))) ⊆
               dom (views (recon_calib_dataset_ c))).
  { unfold after_stage1. etransitivity; [apply sweep_dom|]. simpl. by rewrite Hv. }
  assert (H2 : dom (views (recon_calib_dataset_ (after_stage2 c))) ⊆
               dom (views (recon_calib_dataset_ c))).
  { unfold after_stage2. simpl. by rewrite Hv. }
  assert (H3 : dom (views (recon_calib_dataset_ (after_stage3 c))) ⊆
               dom (views (recon_calib_dataset_ c))).
  { unfold after_stage3. etransitivity; [apply sweep_dom|]. simpl. by rewrite Hv. }
  split; [done|]. split; [done|].
  unfold after_board, after_board_tracks. simpl. by rewrite Hv, Ht.
Qed.

(** X6.  With solvers that keep the set of views, [RunCalibration] adds no
    view: every view id of the dataset afterwards was one before, so the
    number of views does not grow.  The camera model name, the flags, the
    minimum, the grid size and the RANSAC parameters are as before. *)
Theorem RunCalibration_adds_no_view (Hkeep : solvers_keep_views) (c : CameraCalibrator) :
  let c' := (RunCalibration c).1.2 in
  dom (views (recon_calib_dataset_ c')) ⊆ dom (views (recon_calib_dataset_ c)) ∧
  (NumViews (recon_calib_dataset_ c') ≤ NumViews (recon_calib_dataset_ c))%nat ∧
  c' = set_dataset (λ _, recon_calib_dataset_ c') c.
Proof.
  intros c'.
  assert (Hdom : dom (views (recon_calib_dataset_ c')) ⊆
                 dom (views (recon_calib_dataset_ c))).
  { destruct (stages_dom Hkeep c) as (H2 & H3 & H4).
    unfold c'. rewrite RunCalibration_unfold. repeat case_match; simpl; done. }
  split; [done|]. split.
  - unfold NumViews. rewrite <- !size_dom. by apply subseteq_size.
  - unfold c'. rewrite RunCalibration_unfold.
    repeat case_match; simpl; by destruct c.
Qed.

End Optimizer_properties.

(** ** Further properties of the ingestion and of the report *)

Section Ingestion_properties.
Context {ext : Externals}.

(** What a turn of the loop does to the members of the calibrator, the saved
    poses and the counter. *)
Lemma InitializeView_effect (scene_json : SceneJson) (st st' : Ingest)
    (view : SceneView) :
  InitializeView scene_json st view = Some st' →
  with_scene_thresh scene_json (ing_calibrator st') =
    set_dataset (λ _, recon_calib_dataset_ (ing_calibrator st'))
                (with_scene_thresh scene_json (ing_calibrator st)) ∧
  (saved_poses st' = saved_poses st ∨
   ∃ p, saved_poses st' = saved_poses st ++ [p] ∧
        take_image (grid_size_ (ing_calibrator st)) (saved_poses st) p = true) ∧
  views_initialized st' = (views_initialized st + 1)%Z.
Proof.
  intros Hstep.
  destruct (EstimateView scene_json (ing_calibrator st) view) as [[c1 pose]|] eqn:He.
  2:{ unfold InitializeView in Hstep. by rewrite He in Hstep. }
  pose proof (EstimateView_calibrator _ _ _ _ _ He) as Hc1.
  assert (Hskip : ∀ st1, st1 = mkIngest c1 (saved_poses st) (views_initialized st + 1) →
            with_scene_thresh scene_json (ing_calibrator st1) =
              set_dataset (λ _, recon_calib_dataset_ (ing_calibrator st1))
                          (with_scene_thresh scene_json (ing_calibrator st)) ∧
            (saved_poses st1 = saved_poses st ∨
             ∃ p, saved_poses st1 = saved_poses st ++ [p] ∧
                  take_image (grid_size_ (ing_calibrator st)) (saved_poses st) p = true) ∧
            views_initialized st1 = (views_initialized st + 1)%Z).
  { intros st1 ->. cbn [ing_calibrator saved_poses views_initialized].
    split; [|by split; [left|]]. rewrite Hc1. by destruct (ing_calibrator st). }
  destruct (take_image (grid_size_ c1) (saved_poses st) (position pose)) eqn:Et;
    [destruct (success_init pose) eqn:Es|].
  - destruct (InitializeView_accepted _ _ _ _ _ He Et Es (mk_is_Some _ _ Hstep))
      as [Hm Hname].
    destruct (InitializeView_accept _ _ _ _ _ He Et Es Hm Hname)
      as (st2 & v & Hst2 & Hs2 & _ & _ & _ & _ & _ & Hc2).
    rewrite Hstep in Hst2. injection Hst2 as <-.
    split; [|split].
    + rewrite Hc2, Hc1. by destruct (ing_calibrator st).
    + right. exists (position pose). split; [done|].
      rewrite <- Et, Hc1. reflexivity.
    + unfold InitializeView in Hstep. rewrite He in Hstep.
      cbn [mbind option_bind] in Hstep. rewrite Et, Es in Hstep.
      cbn [negb orb] in Hstep.
      destruct (AddView _ _ _ _ _ _ _ _) as [[? ?]|]; [|done].
      cbn in Hstep. by injection Hstep as <-.
  - apply Hskip. rewrite (InitializeView_skip _ _ _ _ _ He (or_intror Es)) in Hstep.
    by injection Hstep as <-.
  - apply Hskip. rewrite (InitializeView_skip _ _ _ _ _ He (or_introl Et)) in Hstep.
    by injection Hstep as <-.
Qed.

Lemma InitializeViews_effect (scene_json : SceneJson) (frames : list SceneView)
    (st st' : Ingest) :
  InitializeViews scene_json st frames = Some st' →
  with_scene_thresh scene_json (ing_calibrator st') =
    set_dataset (λ _, recon_calib_dataset_ (ing_calibrator st'))
                (with_scene_thresh scene_json (ing_calibrator st)) ∧
  (length (saved_poses st') ≤ length (saved_poses st) + length frames)%nat ∧
  views_initialized st' = (views_initialized st + Z.of_nat (length frames))%Z ∧
  (separated (grid_size_ (ing_calibrator st)) (saved_poses st) →
   separated (grid_size_ (ing_calibrator st)) (saved_poses st')).
Proof.
  revert st. induction frames as [|view frames IH]; intros st; cbn [InitializeViews].
  - intros [= <-]. split; [by destruct (ing_calibrator st)|].
    split; [lia|]. split; [cbn; lia|]. by intros Hs.
  - destruct (InitializeView scene_json st view) as [st1|] eqn:E1; [|done].
    cbn [mbind option_bind]. intros Hrest.
    destruct (InitializeView_effect _ _ _ _ E1) as (Hc1 & Hs1 & Hn1).
    destruct (IH _ Hrest) as (Hc & Hl & Hn & Hsep).
    assert (Hg : grid_size_ (ing_calibrator st1) = grid_size_ (ing_calibrator st)).
    { by apply (f_equal grid_size_) in Hc1. }
    split; [|split; [|split]].
    + rewrite Hc, Hc1. by destruct (ing_calibrator st).
    + cbn [length]. destruct Hs1 as [Hs1 | (p & Hs1 & _)]; rewrite Hs1 in Hl;
        [|rewrite length_app in Hl; cbn in Hl]; lia.
    + rewrite Hn, Hn1. cbn [length]. lia.
    + intros Hsep0. rewrite <- Hg. apply Hsep. rewrite Hg.
      destruct Hs1 as [-> | (p & -> & Htake)]; [exact Hsep0|].
      intros i j a b Hij Ha Hb.
      destruct (decide (j < length (saved_poses st))%nat) as [Hj|Hj].
      * rewrite lookup_app_l in Ha by lia. rewrite lookup_app_l in Hb by lia.
        exact (Hsep0 i j a b Hij Ha Hb).
      * assert (j = length (saved_poses st)) as ->.
        { apply lookup_lt_Some in Hb. rewrite length_app in Hb. cbn in Hb. lia. }
        rewrite list_lookup_middle in Hb by done. injection Hb as <-.
        rewrite lookup_app_l in Ha by lia.
        unfold take_image in Htake. apply negb_true_iff in Htake.
        destruct (dlt (Vector3d_distance p a) (grid_size_ (ing_calibrator st)))
          eqn:En; [|done].
        exfalso. assert (Hex : existsb (λ q, dlt (Vector3d_distance p q)
                                               (grid_size_ (ing_calibrator st)))
                                       (saved_poses st) = true).
        { apply existsb_exists. exists a. split; [|done].
          apply list_elem_of_In, list_elem_of_lookup. by exists i. }
        congruence.
Qed.

Lemma RunCalibration_writes_nothing (c : CameraCalibrator) :
  List.filter is_write (RunCalibration c).2 = [].
Proof.
  destruct (RunCalibration_trace c) as [-> | [-> | [-> | ->]]]; reflexivity.
Qed.

(** The entries of the trace of a call that returns that write a file. *)
Lemma CalibrateCameraFromJson_writes (scene_json : SceneJson) (output_path : string)
    (c c' : CameraCalibrator) (ok : bool) (tr : list Event) :
  CalibrateCameraFromJson scene_json output_path c = Some (ok, c', tr) →
  let ransac_ply := EvWritePlyFile (output_path +:+ "_ransac_poses.ply") in
  if ok && negb (String.eqb output_path EmptyString)
  then ∃ cam e,
         FirstViewCamera (recon_calib_dataset_ c') = Some cam ∧
         List.filter is_write tr =
         [ransac_ply;
          EvWriteReconstruction (output_path +:+ ".calibdata");
          EvWriteCameraCalibration (output_path +:+ ".json") cam
            (scene_camera_fps scene_json) (NumViews (recon_calib_dataset_ c')) e;
          EvWritePlyFile (output_path +:+ "_final_poses.ply")]
  else List.filter is_write tr = [ransac_ply].
Proof.
  unfold CalibrateCameraFromJson.
  destruct (InitializeViews _ _ _) as [st|]; [|done]. cbn [mbind option_bind].
  pose proof (RunCalibration_writes_nothing (ing_calibrator st)) as Hrun.
  destruct (RunCalibration (ing_calibrator st)) as [[ok1 c1] tr1].
  cbn [snd] in Hrun. destruct ok1; cbn [negb].
  - unfold ReportCalibration.
    destruct (FirstViewCamera (recon_calib_dataset_ c1)) as [cam|] eqn:Ecam; [|done].
    cbn [mbind option_bind].
    destruct (String.eqb output_path EmptyString) eqn:Ep; cbn [negb].
    + intros [= <- <- <-]. cbn.
      rewrite List.filter_app, Hrun. reflexivity.
    + destruct (write_camera_calibration _ _ _ _ _); [|done].
      intros [= <- <- <-]. cbn [andb negb].
      eexists cam, _. split; [done|]. cbn.
      rewrite List.filter_app, Hrun. reflexivity.
  - intros [= <- <- <-]. cbn. by rewrite Hrun.
Qed.

(** X7.  The files of a call of [CalibrateCameraFromJson] that returns.  The
    poses after the initialization are always written, to the output path
    followed by [_ransac_poses.ply], also when the path is empty and when
    the calibration fails.  The reconstruction, the calibration and the
    final poses are written exactly when the calibration succeeds and the
    output path is not empty; the calibration written is the camera of the
    first view, with the number of views of the dataset. *)
Theorem files_written (scene_json : SceneJson) (output_path : string)
    (c c' : CameraCalibrator) (ok : bool) (tr : list Event) :
  CalibrateCameraFromJson scene_json output_path c = Some (ok, c', tr) →
  let ransac_ply := EvWritePlyFile (output_path +:+ "_ransac_poses.ply") in
  if ok && negb (String.eqb output_path EmptyString)
  then ∃ cam e,
         FirstViewCamera (recon_calib_dataset_ c') = Some cam ∧
         List.filter is_write tr =
         [ransac_ply;
          EvWriteReconstruction (output_path +:+ ".calibdata");
          EvWriteCameraCalibration (output_path +:+ ".json") cam
            (scene_camera_fps scene_json) (NumViews (recon_calib_dataset_ c')) e;
          EvWritePlyFile (output_path +:+ "_final_poses.ply")]
  else List.filter is_write tr = [ransac_ply].
Proof.
  unfold CalibrateCameraFromJson.
  destruct (InitializeViews _ _ _) as [st|]; [|done]. cbn [mbind option_bind].
  pose proof (RunCalibration_writes_nothing (ing_calibrator st)) as Hrun.
  destruct (RunCalibration (ing_calibrator st)) as [[ok1 c1] tr1].
  cbn [snd] in Hrun. destruct ok1; cbn [negb].
  - unfold ReportCalibration.
    destruct (FirstViewCamera (recon_calib_dataset_ c1)) as [cam|] eqn:Ecam; [|done].
    cbn [mbind option_bind].
    destruct (String.eqb output_path EmptyString) eqn:Ep; cbn [negb].
    + intros [= <- <- <-]. cbn.
      rewrite List.filter_app, Hrun. reflexivity.
    + destruct (write_camera_calibration _ _ _ _ _); [|done].
      intros [= <- <- <-]. cbn [andb negb].
      eexists cam, _. split; [done|]. cbn.
      rewrite List.filter_app, Hrun. reflexivity.
  - intros [= <- <- <-]. cbn. by rewrite Hrun.
Qed.

(** X8.  With solvers that keep the set of views, a calibration is written
    only after a successful run, and the number of views it records is the
    number of views of the dataset, which is at least the calibrator's
    minimum. *)
Theorem calibration_written_with_enough_views (Hkeep : solvers_keep_views)
    (scene_json : SceneJson) (output_path : string) (c c' : CameraCalibrator)
    (ok : bool) (tr : list Event) (p : string) (cam : Camera) (fps : double)
    (n : nat) (e : double) :
  CalibrateCameraFromJson scene_json output_path c = Some (ok, c', tr) →
  EvWriteCameraCalibration p cam fps n e ∈ tr →
  ok = true ∧
  n = NumViews (recon_calib_dataset_ c') ∧
  (min_num_view_ c ≤ n)%nat ∧
  fps = scene_camera_fps scene_json.
Proof.
  intros Hcal Hin.
  assert (Hf : EvWriteCameraCalibration p cam fps n e ∈ List.filter is_write tr).
  { apply list_elem_of_In, List.filter_In. split; [by apply list_elem_of_In|done]. }
  pose proof (CalibrateCameraFromJson_writes _ _ _ _ _ _ Hcal) as Hw. cbv zeta in Hw.
  destruct (ok && negb (String.eqb output_path EmptyString)) eqn:Eo.
  2:{ rewrite Hw in Hf. apply elem_of_cons in Hf as [Hf|Hf]; [discriminate|].
      by apply elem_of_nil in Hf. }
  apply andb_true_iff in Eo as [-> _].
  destruct Hw as (cam' & e' & _ & Hw). rewrite Hw in Hf.
  apply elem_of_cons in Hf as [Hf|Hf]; [discriminate|].
  apply elem_of_cons in Hf as [Hf|Hf]; [discriminate|].
  apply elem_of_cons in Hf as [Hf|Hf].
  2:{ apply elem_of_cons in Hf as [Hf|Hf]; [discriminate|]. by apply elem_of_nil in Hf. }
  injection Hf as -> -> -> -> ->.
  split; [done|]. split; [done|]. split; [|done].
  unfold CalibrateCameraFromJson in Hcal.
  destruct (InitializeViews _ _ _) as [st|] eqn:Est; [|done].
  cbn [mbind option_bind] in Hcal.
  destruct (InitializeViews_effect _ _ _ _ Est) as (Hcfg & _).
  apply (f_equal min_num_view_) in Hcfg. cbn in Hcfg.
  destruct (RunCalibration (ing_calibrator st)) as [[ok1 c1] tr1] eqn:Erun.
  destruct ok1; cbn [negb] in Hcal; [|by injection Hcal].
  destruct (ReportCalibration _ _ _); [|done]. injection Hcal as <- _.
  rewrite <- Hcfg. by eapply RunCalibration_success_views.
Qed.

End Ingestion_properties.

Section Ingestion_properties_2.
Context {ext : Externals}.



(** X11.  The loop has no guard for an image point whose target point is not
    in the dataset: the frame is not skipped, the turn of the loop does not
    return, and neither does the loop over a list with that frame. *)
Theorem unknown_target_point_is_not_skipped (scene_json : SceneJson) (st0 st : Ingest)
    (pre post : list SceneView) (view : SceneView) (ip : Z * Vector2d) :
  InitializeViews scene_json st0 pre = Some st →
  ip ∈ sv_image_points view →
  Track (recon_calib_dataset_ (ing_calibrator st)) (TrackId_of_int ip.1) = None →
  InitializeView scene_json st view = None ∧
  InitializeViews scene_json st0 (pre ++ view :: post) = None.
Proof.
  intros Hpre Hin Htrack.
  assert (Hv : InitializeView scene_json st view = None).
  { unfold InitializeView, EstimateView.
    destruct (mapM _ (sv_image_points view)) as [cs|] eqn:Em; [|done]. exfalso.
    assert (Hs : is_Some (mapM (make_correspondence
                                  (recon_calib_dataset_ (ing_calibrator st))
                                  (inject_Z (scene_image_width scene_json) / 2)%Q
                                  (inject_Z (scene_image_height scene_json) / 2)%Q)
                               (sv_image_points view))) by (by eexists).
    apply mapM_is_Some in Hs. rewrite Forall_forall in Hs.
    destruct (Hs ip Hin) as [x Hx]. unfold make_correspondence in Hx.
    by rewrite Htrack in Hx. }
  split; [done|].
  rewrite InitializeViews_app, Hpre. cbn. by rewrite Hv.
Qed.

Lemma FirstViewCamera_None (r : Reconstruction) :
  FirstViewCamera r = None ↔ NumViews r = 0%nat.
Proof.
  split.
  - intros Hn. destruct (NumViews r) as [|n] eqn:En; [done|]. exfalso.
    destruct (FirstViewCamera_defined r) as (? & ? & _ & _ & Hc); [lia|]. congruence.
  - unfold NumViews, FirstViewCamera, ViewIds. intros Hn.
    apply map_size_empty_iff in Hn. rewrite Hn, map_to_list_empty. done.
Qed.

(** X12.  On a dataset without views neither [PrintResult] nor the report
    after the calibration returns: both read the first view id of an empty
    list.  With a view in the dataset [PrintResult] returns. *)
Theorem report_needs_a_view (c : CameraCalibrator) :
  (PrintResult c = None ↔ NumViews (recon_calib_dataset_ c) = 0%nat) ∧
  (NumViews (recon_calib_dataset_ c) = 0%nat →
   ∀ scene_json output_path, ReportCalibration scene_json output_path c = None).
Proof.
  split.
  - rewrite <- FirstViewCamera_None. unfold PrintResult.
    destruct (FirstViewCamera (recon_calib_dataset_ c)); by split.
  - intros Hn scene_json output_path. apply FirstViewCamera_None in Hn.
    unfold ReportCalibration. by rewrite Hn.
Qed.

End Ingestion_properties_2.

(** ** Further properties of the calibration reader *)

(** Replaces a list of known length by its elements. *)
Ltac explode l H :=
  repeat (destruct l as [|? l]; simpl in H; [discriminate H|]);
  destruct l; simpl in H; [|discriminate H].

Section Reader_properties.
Context {ext : Externals}.

Lemma StringToCameraIntrinsicsModelType_name (s : string)
    (t : CameraIntrinsicsModelType) :
  StringToCameraIntrinsicsModelType s = Some t →
  s = match t with
      | PINHOLE => "PINHOLE"
      | PINHOLE_RADIAL_TANGENTIAL => "PINHOLE_RADIAL_TANGENTIAL"
      | FISHEYE => "FISHEYE"
      | DIVISION_UNDISTORTION => "DIVISION_UNDISTORTION"
      | DOUBLE_SPHERE => "DOUBLE_SPHERE"
      | EXTENDED_UNIFIED => "EXTENDED_UNIFIED"
      end.
Proof.
  unfold StringToCameraIntrinsicsModelType.
  destruct (String.eqb s "PINHOLE") eqn:E0;
    [apply String.eqb_eq in E0; by intros [= <-]|].
  destruct (String.eqb s "PINHOLE_RADIAL_TANGENTIAL") eqn:E1;
    [apply String.eqb_eq in E1; by intros [= <-]|].
  destruct (String.eqb s "FISHEYE") eqn:E2;
    [apply String.eqb_eq in E2; by intros [= <-]|].
  destruct (String.eqb s "DIVISION_UNDISTORTION") eqn:E3;
    [apply String.eqb_eq in E3; by intros [= <-]|].
  destruct (String.eqb s "DOUBLE_SPHERE") eqn:E4;
    [apply String.eqb_eq in E4; by intros [= <-]|].
  destruct (String.eqb s "EXTENDED_UNIFIED") eqn:E5;
    [apply String.eqb_eq in E5; by intros [= <-]|].
  done.
Qed.

Ltac use_lookups :=
  repeat match goal with
         | H : ?m !! ?k = Some _ |- context [?m !! ?k] => rewrite H
         end.


Lemma SetCameraIntrinsicsModelType_facts (Hsized : models_sized)
    (t : CameraIntrinsicsModelType) (camera : Camera) :
  well_sized camera →
  let cam1 := SetCameraIntrinsicsModelType t camera in
  cam_model_type cam1 = t ∧
  length (cam_intrinsics cam1) = NumParameters t ∧
  cam_position cam1 = cam_position camera ∧
  cam_orientation cam1 = cam_orientation camera.
Proof.
  intros Hw. unfold SetCameraIntrinsicsModelType. case_decide as Hd.
  - subst t. done.
  - cbn. by rewrite Hsized.
Qed.

(** X14.  A successful read gives a camera of the kind the file names, with
    the image size and the frame rate of the file and, for every key the
    reader takes for that kind, the file's value in the parameter the key
    belongs to.  The pose of the camera is as before, and so is the skew,
    for which the reader has no key. *)
Theorem read_restores_stored_parameters (Hsized : models_sized)
    (j : CalibrationJson) (camera camera' : Camera) (fps fps' : double) :
  well_sized camera →
  read_camera_calibration (Some j) camera fps = Some (true, camera', fps') →
  ∃ s t, intrinsic_type j = Some s ∧
       StringToCameraIntrinsicsModelType s = Some t ∧
       cam_model_type camera' = t ∧
       well_sized camera' ∧
       json_image_width j = Some (cam_image_width camera') ∧
       json_image_height j = Some (cam_image_height camera') ∧
       json_fps j = Some fps' ∧
       cam_position camera' = cam_position camera ∧
       cam_orientation camera' = cam_orientation camera ∧
       Forall (λ kv, json_intrinsics j !! kv.1 = Some (intrinsics_at camera' kv.2))
              (stored_parameters t) ∧
       (t ≠ DIVISION_UNDISTORTION →
        intrinsics_at camera' PinholeCameraModel.SKEW =
        intrinsics_at (SetCameraIntrinsicsModelType t camera) PinholeCameraModel.SKEW).
Proof.
  intros Hw Hread.
  destruct j as [ty w h f intr]. unfold read_camera_calibration in Hread.
  cbn [intrinsic_type json_intrinsics json_image_width json_image_height json_fps]
    in *.
  destruct ty as [s|]; [|done]. cbn [mbind option_bind] in Hread.
  destruct (StringToCameraIntrinsicsModelType s) as [t|] eqn:Et; [|done].
  cbn [mbind option_bind] in Hread.
  destruct w as [w|]; [|done]. destruct h as [h|]; [|done].
  cbn [mbind option_bind] in Hread.
  assert (Hf : is_Some f).
  { destruct f; [done|]. by simplify_option_eq. }
  destruct Hf as [f' ->].
  exists s, t. split; [done|]. split; [done|].
  pose proof (StringToCameraIntrinsicsModelType_name _ _ Et) as Hname. subst s.
  clear Et.
  destruct (SetCameraIntrinsicsModelType_facts Hsized t camera Hw)
    as (Hk & Hl & Hp & Ho).
  rewrite <- Hp, <- Ho. clear Hp Ho Hw.
  destruct (SetCameraIntrinsicsModelType t camera) as [w0 h0 pos ori ty l].
  cbn [cam_model_type cam_intrinsics] in Hk, Hl. subst ty.
  destruct t; cbn [String.eqb Ascii.eqb Bool.eqb NumParameters] in Hread, Hl;
    explode l Hl; simplify_option_eq;
    (split; [reflexivity|]); (split; [reflexivity|]);
    (split; [reflexivity|]); (split; [reflexivity|]);
    (split; [reflexivity|]); (split; [reflexivity|]); (split; [reflexivity|]);
    (split; [|intros Hne; first [reflexivity | by destruct Hne]]);
    unfold stored_parameters;
    repeat (first [apply Forall_cons_2 | apply Forall_nil_2]);
    cbn [fst snd]; use_lookups; reflexivity.
Qed.

End Reader_properties.

(** ** Further properties of AddView and of the observations *)

Section AddView_properties.
Context {ext : Externals}.


End AddView_properties.

Section AddView_properties_2.
Context {ext : Externals}.

(** X16.  The parameters the new view's camera starts with.  Its parameter
    vector has the length of its kind.  For PINHOLE the focal length is the
    initial one and the principal point the image centre.  The kind's own
    parameters are seeded after the kind is set: the initial distortion for
    DIVISION_UNDISTORTION, xi = -0.25 and alpha = 0.5 for DOUBLE_SPHERE,
    alpha = 0.5 and beta = 1.0 for EXTENDED_UNIFIED. *)
Theorem AddView_seeds (Hsized : models_sized) (rot : Matrix3d) (pos : Vector3d)
    (f d : double) (w h : Z) (ts : double) (c c' : CameraCalibrator) (v : View) :
  AddView rot pos f d w h ts c = Some (next_view_id (recon_calib_dataset_ c), c') →
  views (recon_calib_dataset_ c') !! next_view_id (recon_calib_dataset_ c) = Some v →
  let cam := view_camera v in
  well_sized cam ∧
  (camera_model_ c = "PINHOLE" →
   FocalLength cam = f ∧
   PrincipalPointX cam = (inject_Z w / 2)%Q ∧
   PrincipalPointY cam = (inject_Z h / 2)%Q) ∧
  (camera_model_ c = "DIVISION_UNDISTORTION" →
   intrinsics_at cam DivisionUndistortionCameraModel.RADIAL_DISTORTION_1 = d) ∧
  (camera_model_ c = "DOUBLE_SPHERE" →
   intrinsics_at cam DoubleSphereCameraModel.XI = (- (1 # 4))%Q ∧
   intrinsics_at cam DoubleSphereCameraModel.ALPHA = (1 # 2)%Q) ∧
  (camera_model_ c = "EXTENDED_UNIFIED" →
   intrinsics_at cam ExtendedUnifiedCameraModel.ALPHA = (1 # 2)%Q ∧
   intrinsics_at cam ExtendedUnifiedCameraModel.BETA = 1%Q).
Proof.
  intros Hadd Hv cam.
  unfold AddView, Reconstruction_AddView, GetView in Hadd.
  destruct (view_name_of ts) as [n|]; [|done]. cbn [mbind option_bind] in Hadd.
  destruct (decide (name_taken (recon_calib_dataset_ c) n)); [done|].
  cbn [views mbind option_bind] in Hadd.
  rewrite lookup_insert_eq in Hadd.
  destruct (StringToCameraIntrinsicsModelType (camera_model_ c)) as [t|] eqn:Et;
    [|done].
  cbn [mbind option_bind] in Hadd. injection Hadd as <-.
  cbn [recon_calib_dataset_ set_dataset set_views views] in Hv.
  rewrite lookup_insert_eq in Hv. injection Hv as <-.
  subst cam. cbn [view_camera set_camera].
  pose proof (StringToCameraIntrinsicsModelType_name _ _ Et) as Hname.
  rewrite Hname. clear Et Hname.
  unfold NewCamera, SetCameraIntrinsicsModelType, well_sized.
  pose proof (Hsized PINHOLE) as HP. cbn [NumParameters] in HP.
  destruct t.
  - remember (CameraIntrinsicsModel_Create PINHOLE) as lp eqn:Hlp. clear Hlp.
    explode lp HP. cbn. repeat split; intros; try discriminate; reflexivity.
  - pose proof (Hsized PINHOLE_RADIAL_TANGENTIAL) as HT. cbn [NumParameters] in HT.
    remember (CameraIntrinsicsModel_Create PINHOLE_RADIAL_TANGENTIAL) as lt eqn:Hlt.
    clear Hlt. explode lt HT. cbn. repeat split; intros; try discriminate; reflexivity.
  - pose proof (Hsized FISHEYE) as HT. cbn [NumParameters] in HT.
    remember (CameraIntrinsicsModel_Create FISHEYE) as lt eqn:Hlt.
    clear Hlt. explode lt HT. cbn. repeat split; intros; try discriminate; reflexivity.
  - pose proof (Hsized DIVISION_UNDISTORTION) as HT. cbn [NumParameters] in HT.
    remember (CameraIntrinsicsModel_Create DIVISION_UNDISTORTION) as lt eqn:Hlt.
    clear Hlt. explode lt HT. cbn. repeat split; intros; try discriminate; reflexivity.
  - pose proof (Hsized DOUBLE_SPHERE) as HT. cbn [NumParameters] in HT.
    remember (CameraIntrinsicsModel_Create DOUBLE_SPHERE) as lt eqn:Hlt.
    clear Hlt. explode lt HT. cbn. repeat split; intros; try discriminate; reflexivity.
  - pose proof (Hsized EXTENDED_UNIFIED) as HT. cbn [NumParameters] in HT.
    remember (CameraIntrinsicsModel_Create EXTENDED_UNIFIED) as lt eqn:Hlt.
    clear Hlt. explode lt HT. cbn. repeat split; intros; try discriminate; reflexivity.
Qed.

(** The observations of a frame whose tracks are known, added to a view:
    of two image points with one track id the first stays. *)
Lemma AddObservation_fold_features (id : nat) (l : list (Z * Vector2d))
    (c : CameraCalibrator) (v : View) (m : gmap nat View) :
  views (recon_calib_dataset_ c) = <[id := v]> m →
  (∀ ip, ip ∈ l → is_Some (tracks (recon_calib_dataset_ c) !! TrackId_of_int ip.1)) →
  let c' := foldl (λ c ip, (AddObservation id (TrackId_of_int ip.1) ip.2 c).2) c l in
  ∃ v', views (recon_calib_dataset_ c') = <[id := v']> m ∧
        view_features v' =
          view_features v ∪
          list_to_map ((λ ip : Z * Vector2d, (TrackId_of_int ip.1, ip.2)) <$> l).
Proof.
  revert c v. induction l as [|[tid p] l IH]; intros c v Hv Hk; cbn [foldl].
  - exists v. split; [done|]. rewrite fmap_nil, list_to_map_nil.
    by rewrite map_union_empty.
  - destruct (Hk (tid, p) (list_elem_of_here _ _)) as [pt Hpt]. cbn [fst] in Hpt.
    set (c1 := (AddObservation id (TrackId_of_int (tid, p).1) (tid, p).2 c).2).
    assert (H1 : ∃ v1, views (recon_calib_dataset_ c1) = <[id := v1]> m ∧
                       tracks (recon_calib_dataset_ c1) = tracks (recon_calib_dataset_ c) ∧
                       view_features v1 ∪
                         list_to_map ((λ ip : Z * Vector2d, (TrackId_of_int ip.1, ip.2))
                                        <$> l) =
                       view_features v ∪
                         list_to_map ((λ ip : Z * Vector2d, (TrackId_of_int ip.1, ip.2))
                                        <$> (tid, p) :: l)).
    { subst c1. unfold AddObservation, theia.AddObservation. cbn [fst snd].
      rewrite Hv, lookup_insert_eq, Hpt. rewrite fmap_cons, list_to_map_cons.
      cbn [fst snd].
      destruct (view_features v !! TrackId_of_int tid) as [q|] eqn:Ef.
      - exists v. split; [done|]. split; [done|].
        apply map_eq. intros k. rewrite !lookup_union.
        destruct (decide (k = TrackId_of_int tid)) as [->|Hne].
        + rewrite Ef, lookup_insert_eq. by destruct (list_to_map _ !! _).
        + by rewrite lookup_insert_ne.
      - eexists. cbn. rewrite Hv, insert_insert_eq. split; [done|]. split; [done|].
        cbn. by rewrite <- insert_union_l, insert_union_r. }
    destruct H1 as (v1 & Hv1 & Ht1 & Hf1).
    destruct (IH c1 v1 Hv1) as (v' & Hv' & Hf').
    { intros ip Hip. rewrite Ht1. apply Hk. by apply list_elem_of_further. }
    exists v'. split; [done|]. by rewrite Hf', Hf1.
Qed.

(** X17.  When the turn of a frame that initializes and is close to no
    saved pose returns, the view it has added, under the next view id,
    observes the image points of the frame, each under its track id with
    the corner as read; of two image points with one track id the first is
    the observation.  The view is at the estimated position. *)
Theorem accepted_view_observes_the_frame (scene_json : SceneJson) (st st' : Ingest)
    (view : SceneView) (c1 : CameraCalibrator) (pose : PoseInit) :
  EstimateView scene_json (ing_calibrator st) view = Some (c1, pose) →
  take_image (grid_size_ c1) (saved_poses st) (position pose) = true →
  success_init pose = true →
  InitializeView scene_json st view = Some st' →
  ∃ v,
    views (recon_calib_dataset_ (ing_calibrator st'))
      !! next_view_id (recon_calib_dataset_ (ing_calibrator st)) = Some v ∧
    view_features v = frame_observations view ∧
    view_position v = position pose.
Proof.
  intros He Ht Hs Hstep.
  destruct (InitializeView_accepted _ _ _ _ _ He Ht Hs (mk_is_Some _ _ Hstep))
    as [Hm (n & Hn & Hfree)].
  assert (Hknown : ∀ ip, ip ∈ sv_image_points view →
            is_Some (tracks (recon_calib_dataset_ c1) !! TrackId_of_int ip.1)).
  { pose proof (EstimateView_calibrator _ _ _ _ _ He) as ->. cbn.
    unfold EstimateView in He.
    destruct (mapM _ (sv_image_points view)) as [cs|] eqn:Em; [|done].
    assert (Hsome : is_Some (mapM (make_correspondence
                                  (recon_calib_dataset_ (ing_calibrator st))
                                  (inject_Z (scene_image_width scene_json) / 2)%Q
                                  (inject_Z (scene_image_height scene_json) / 2)%Q)
                               (sv_image_points view))) by (by eexists).
    apply mapM_is_Some in Hsome. rewrite Forall_forall in Hsome.
    intros ip Hip. destruct (Hsome ip Hip) as [x Hx].
    unfold make_correspondence, Track in Hx.
    destruct (tracks _ !! _) eqn:E; [by eexists|done]. }
  assert (Hr1 : recon_calib_dataset_ c1 = recon_calib_dataset_ (ing_calibrator st)).
  { by rewrite (EstimateView_calibrator _ _ _ _ _ He). }
  unfold InitializeView in Hstep. rewrite He in Hstep.
  cbn [mbind option_bind] in Hstep. rewrite Ht, Hs in Hstep.
  cbn [negb orb] in Hstep.
  destruct (AddView_spec (rotation pose) (position pose) (focal_length pose)
              (radial_distortion pose) (scene_image_width scene_json)
              (scene_image_height scene_json)
              (double_mul (sv_key view) (1 # 1000000)) c1 n Hm Hn Hfree)
    as (v & c2 & Hadd & Hviews & Hpos & Hfeat & _ & Htr & _).
  rewrite Hadd in Hstep. cbn [mbind option_bind] in Hstep.
  injection Hstep as <-.
  destruct (AddObservation_fold_features (next_view_id (recon_calib_dataset_ c1))
              (sv_image_points view) c2 v _ Hviews) as (v' & Hv' & Hf').
  { intros ip Hip. rewrite Htr. by apply Hknown. }
  destruct (AddObservation_fold (next_view_id (recon_calib_dataset_ c1))
              (sv_image_points view) c2 v _ Hviews) as (v'' & Hv'' & Hcam & _).
  assert (v'' = v') as ->.
  { rewrite Hv' in Hv''. apply (f_equal (λ m, m !! next_view_id (recon_calib_dataset_ c1)))
      in Hv''. rewrite !lookup_insert_eq in Hv''. congruence. }
  exists v'. cbn [ing_calibrator].
  rewrite <- Hr1. split; [by rewrite Hv', lookup_insert_eq|].
  split.
  - rewrite Hf', Hfeat. unfold frame_observations. by rewrite map_empty_union.
  - unfold view_position in *. congruence.
Qed.

(** X18.  The loop has no guard for a frame whose view name a view of the
    dataset already has: when such a frame initializes and is close to no
    saved pose, [AddView] gets no view from theia and dereferences null, so
    the turn of the loop does not return, and neither does the loop over a
    list with that frame. *)
Theorem taken_view_name_is_not_skipped (scene_json : SceneJson) (st0 st : Ingest)
    (pre post : list SceneView) (view : SceneView) (c1 : CameraCalibrator)
    (pose : PoseInit) (n : Z) :
  InitializeViews scene_json st0 pre = Some st →
  EstimateView scene_json (ing_calibrator st) view = Some (c1, pose) →
  take_image (grid_size_ c1) (saved_poses st) (position pose) = true →
  success_init pose = true →
  frame_view_name view = Some n →
  name_taken (recon_calib_dataset_ (ing_calibrator st)) n →
  InitializeView scene_json st view = None ∧
  InitializeViews scene_json st0 (pre ++ view :: post) = None.
Proof.
  intros Hpre He Ht Hs Hn Htaken.
  assert (Hv : InitializeView scene_json st view = None).
  { unfold InitializeView. rewrite He. cbn [mbind option_bind].
    rewrite Ht, Hs. cbn [negb orb].
    rewrite (AddView_refused _ _ _ _ _ _ _ _ n); [done|exact Hn|].
    by rewrite (EstimateView_calibrator _ _ _ _ _ He). }
  split; [done|].
  rewrite InitializeViews_app, Hpre. cbn. by rewrite Hv.
Qed.

End AddView_properties_2.

(** ** The further properties on the sample scenes *)

Section More_samples.
Import Sample.

Lemma sample_models_sized : models_sized.
Proof. intros []; reflexivity. Qed.


Lemma sample_center_run :
  CalibrateCameraFromJson center_scene "out" board_calibrator =
  Some (true, center_outcome.1.2, center_outcome.2).
Proof. vm_compute. reflexivity. Qed.

Lemma sweep_leaves_no_view_above_bound_witness :
  dgt (GetReprojErrorOfView
         (recon_calib_dataset_ (RemoveViewsReprojError 5 calibrator_min1)) 0%nat) 5
  = false.
Proof.
  apply (sweep_leaves_no_view_above_bound sample_reproj_error_local 5
           calibrator_min1 0%nat).
  vm_compute. by eexists.
Defined.

Lemma tighter_sweep_absorbs_looser_witness :
  RemoveViewsReprojError 2 (RemoveViewsReprojError 5 calibrator_min1) =
  RemoveViewsReprojError 2 calibrator_min1.
Proof.
  apply (tighter_sweep_absorbs_looser sample_reproj_error_local 2 5 calibrator_min1).
  vm_compute. discriminate.
Defined.

Lemma RunCalibration_adds_no_view_witness :
  (NumViews (recon_calib_dataset_ (RunCalibration calibrator_min1).1.2)
   ≤ NumViews (recon_calib_dataset_ calibrator_min1))%nat.
Proof.
  exact (proj1 (proj2 (RunCalibration_adds_no_view sample_solvers_keep_views
                         calibrator_min1))).
Defined.

Lemma files_written_witness :
  ∃ cam e,
    FirstViewCamera (recon_calib_dataset_ center_outcome.1.2) = Some cam ∧
    List.filter is_write center_outcome.2 =
    [EvWritePlyFile "out_ransac_poses.ply";
     EvWriteReconstruction "out.calibdata";
     EvWriteCameraCalibration "out.json" cam 30
       (NumViews (recon_calib_dataset_ center_outcome.1.2)) e;
     EvWritePlyFile "out_final_poses.ply"].
Proof.
  exact (files_written center_scene "out" board_calibrator _ _ _ sample_center_run).
Defined.

Lemma calibration_written_witness :
  (min_num_view_ board_calibrator ≤ 1)%nat.
Proof.
  refine (proj1 (proj2 (proj2
    (calibration_written_with_enough_views sample_solvers_keep_views
       center_scene "out" board_calibrator _ _ _
       "out.json" (default camera0 (FirstViewCamera
                                      (recon_calib_dataset_ center_outcome.1.2)))
       30 1%nat (0 # 1024)%Q sample_center_run _)))).
  vm_compute. do 7 apply list_elem_of_further. apply list_elem_of_here.
Defined.





Lemma unknown_target_point_witness :
  InitializeView (scene [frame_unknown]) (mkIngest board_calibrator [] 0) frame_unknown
  = None.
Proof.
  refine (proj1 (unknown_target_point_is_not_skipped (scene [frame_unknown])
                   (mkIngest board_calibrator [] 0) (mkIngest board_calibrator [] 0)
                   [] [] frame_unknown (9%Z, V2 1000 580) eq_refl _ _)).
  - do 3 apply list_elem_of_further. apply list_elem_of_here.
  - vm_compute. reflexivity.
Defined.

Lemma sample_fisheye_read :
  read_camera_calibration (Some fisheye_json) NewCamera 0 =
  Some (true, fisheye_camera, 30%Q).
Proof. vm_compute. reflexivity. Qed.

Lemma read_restores_witness :
  Forall (λ kv, json_intrinsics fisheye_json !! kv.1 =
                Some (intrinsics_at fisheye_camera kv.2))
         (stored_parameters FISHEYE).
Proof.
  assert (Hw : well_sized NewCamera) by reflexivity.
  destruct (read_restores_stored_parameters sample_models_sized fisheye_json
              NewCamera _ 0 _ Hw sample_fisheye_read)
    as (s & t & Hs & Ht & _ & _ & _ & _ & _ & _ & _ & HF & _).
  injection Hs as <-. vm_compute in Ht. injection Ht as <-. exact HF.
Defined.


Lemma sample_AddView :
  AddView identity3 zero3 800 0 1920 1080 1 (calibrator "DOUBLE_SPHERE" 1 board) =
  Some (0%nat,
        default (calibrator "DOUBLE_SPHERE" 1 board)
          (snd <$> AddView identity3 zero3 800 0 1920 1080 1
                     (calibrator "DOUBLE_SPHERE" 1 board))).
Proof. vm_compute. reflexivity. Qed.

Lemma AddView_seeds_witness :
  ∃ v, views (recon_calib_dataset_
                (default (calibrator "DOUBLE_SPHERE" 1 board)
                   (snd <$> AddView identity3 zero3 800 0 1920 1080 1
                              (calibrator "DOUBLE_SPHERE" 1 board)))) !! 0%nat = Some v ∧
       intrinsics_at (view_camera v) DoubleSphereCameraModel.XI = (- (1 # 4))%Q ∧
       intrinsics_at (view_camera v) DoubleSphereCameraModel.ALPHA = (1 # 2)%Q.
Proof.
  eexists. split; [vm_compute; reflexivity|].
  refine (proj1 (proj2 (proj2 (proj2
    (AddView_seeds sample_models_sized identity3 zero3 800 0 1920 1080 1
       (calibrator "DOUBLE_SPHERE" 1 board) _ _ sample_AddView _)))) eq_refl).
  vm_compute. reflexivity.
Defined.


Lemma sample_frame_a_turn :
  InitializeView dedup_scene (mkIngest board_calibrator [] 0) frame_a =
  Some frame_a_result.
Proof. vm_compute. reflexivity. Qed.

Lemma accepted_view_observes_witness :
  ∃ v,
    views (recon_calib_dataset_ (ing_calibrator frame_a_result)) !! 0%nat = Some v ∧
    view_features v = frame_observations frame_a ∧
    view_position v = V3 0 0 0.
Proof.
  refine (accepted_view_observes_the_frame dedup_scene (mkIngest board_calibrator [] 0)
            frame_a_result
            frame_a (with_scene_thresh dedup_scene board_calibrator)
            (mkPoseInit true identity3 (V3 0 0 0) 800 0) _ _ _ sample_frame_a_turn);
    vm_compute; reflexivity.
Defined.

Lemma taken_view_name_witness :
  InitializeViews same_name_scene (mkIngest board_calibrator [] 0)
    [frame_a; frame_same_name] = None.
Proof.
  refine (proj2 (taken_view_name_is_not_skipped same_name_scene
                   (mkIngest board_calibrator [] 0) frame_a_result
                   [frame_a] [] frame_same_name
                   (with_scene_thresh same_name_scene (ing_calibrator frame_a_result))
                   (mkPoseInit true identity3 (V3 1 0 0) 800 0) 1000000%Z
                   _ _ _ _ _ _)).
  - vm_compute. reflexivity.
  - vm_compute. reflexivity.
  - vm_compute. reflexivity.
  - reflexivity.
  - vm_compute. reflexivity.
  - apply map_Exists_lookup.
    exists 0%nat, (default (mkView 0 0 false camera0 ∅)
                     (views (recon_calib_dataset_ (ing_calibrator frame_a_result))
                        !! 0%nat)).
    split; vm_compute; reflexivity.
Defined.

End More_samples.
